(** * ME498-GUI: the BRDF output parser, column-role inference and run action

    A shallow embedding of [brdfplot.py] ([_load_numeric_table], [plot_csv]
    with its two closures [_select_x_column] and [_select_measure_columns])
    and of the parsing / persistence tail of [BRDFForm.run_brdfprog] in
    [brdf_form.py], with [render_with_external], the axis-limit blocks of
    [plot_csv] and the two table builders of [open_last_output].

    Numbers.  A Python [float] is modelled by [pyfloat]: a finite value is an
    exact rational, next to [+inf], [-inf] and [nan].  Overflow of a decimal
    literal to an infinity is modelled; rounding of finite results to
    binary64 is not (finite arithmetic is exact).  The standard deviation
    used as a sort key is represented by the variance.  A statement that
    turns on the comparison of a computed quantity with a threshold keeps
    a margin around the threshold, and where needed a bound on the
    magnitudes, wide enough for the binary64 evaluation to give the same
    verdict; [Binary64.representable] singles out the rationals that are
    binary64 numbers.

    Text.  A Python [str] is modelled by [string], and the character
    classes are those of the ASCII range: characters above 127 are
    ordinary (non-space, non-digit) characters.  A statement that turns on
    how a text is cut into lines and tokens is made for ASCII texts
    ([LoaderWords.ascii_text]). *)

From stdpp Require Import gmap strings.
From Stdlib Require Import ZArith QArith Qabs Qminmax Lqa Lia List String Ascii Bool.
Import ListNotations.

Local Open Scope string_scope.
Local Open Scope list_scope.

(* ===================================================================== *)
(** ** Python floats *)
(* ===================================================================== *)

Inductive pyfloat : Type :=
| Fin (q : Q)
| PInf
| NInf
| NaN.

Module PyFloat.

Definition isfinite (x : pyfloat) : bool :=
  match x with Fin _ => true | _ => false end.

Definition isnan (x : pyfloat) : bool :=
  match x with NaN => true | _ => false end.

(** [a < b] on floats: every comparison with [nan] is false. *)
Definition lt (a b : pyfloat) : bool :=
  match a, b with
  | NaN, _ | _, NaN => false
  | Fin x, Fin y => negb (Qle_bool y x)
  | NInf, NInf => false
  | NInf, _ => true
  | _, PInf => match a with PInf => false | _ => true end
  | _, _ => false
  end.

Definition gt (a b : pyfloat) : bool := lt b a.

Definition neg (a : pyfloat) : pyfloat :=
  match a with
  | Fin x => Fin (- x)
  | PInf => NInf
  | NInf => PInf
  | NaN => NaN
  end.

Definition add (a b : pyfloat) : pyfloat :=
  match a, b with
  | NaN, _ | _, NaN => NaN
  | Fin x, Fin y => Fin (x + y)
  | PInf, NInf | NInf, PInf => NaN
  | PInf, _ | _, PInf => PInf
  | NInf, _ | _, NInf => NInf
  end.

Definition sub (a b : pyfloat) : pyfloat := add a (neg b).

Definition abs (a : pyfloat) : pyfloat :=
  match a with
  | Fin x => Fin (Qabs x)
  | PInf | NInf => PInf
  | NaN => NaN
  end.

(** Sign of a finite rational as a comparison with zero. *)
Definition sgn (x : Q) : comparison := Qcompare x 0.

Definition mul (a b : pyfloat) : pyfloat :=
  match a, b with
  | NaN, _ | _, NaN => NaN
  | Fin x, Fin y => Fin (x * y)
  | Fin x, PInf | PInf, Fin x =>
      match sgn x with Gt => PInf | Lt => NInf | Eq => NaN end
  | Fin x, NInf | NInf, Fin x =>
      match sgn x with Gt => NInf | Lt => PInf | Eq => NaN end
  | PInf, PInf | NInf, NInf => PInf
  | PInf, NInf | NInf, PInf => NInf
  end.

(** Division.  Every divisor the program uses is a non-zero constant or at
    least [1e-6]; the zero-divisor case (a [ZeroDivisionError] in Python)
    is never reached and is given the value [nan] here. *)
Definition div (a b : pyfloat) : pyfloat :=
  match a, b with
  | NaN, _ | _, NaN => NaN
  | Fin x, Fin y => if Qeq_bool y 0 then NaN else Fin (x / y)
  | Fin _, _ => Fin 0
  | _, Fin y =>
      match sgn y, a with
      | Gt, _ => a
      | Lt, _ => neg a
      | Eq, _ => NaN
      end
  | _, _ => NaN
  end.

(** Python's two-argument builtins: [min(a, b)] is [b] when [b < a], else
    [a]; [max(a, b)] is [b] when [b > a], else [a]. *)
Definition min (a b : pyfloat) : pyfloat := if lt b a then b else a.
Definition max (a b : pyfloat) : pyfloat := if gt b a then b else a.

End PyFloat.

(* ===================================================================== *)
(** ** Python strings *)
(* ===================================================================== *)

Module PyStr.

Definition code (c : ascii) : nat := nat_of_ascii c.

(** [str.isspace] on the ASCII range, which is also what [\s] matches. *)
Definition is_space (c : ascii) : bool :=
  let n := code c in
  Nat.eqb n 32 || (Nat.leb 9 n && Nat.leb n 13) || (Nat.leb 28 n && Nat.leb n 31).

Definition is_digit (c : ascii) : bool :=
  let n := code c in Nat.leb 48 n && Nat.leb n 57.

Definition digit_val (c : ascii) : Z := Z.of_nat (code c - 48).

Definition nonempty (s : string) : bool :=
  match s with EmptyString => false | String _ _ => true end.

Definition lower_char (c : ascii) : ascii :=
  let n := code c in
  if Nat.leb 65 n && Nat.leb n 90 then ascii_of_nat (n + 32) else c.

Fixpoint lower (s : string) : string :=
  match s with
  | EmptyString => EmptyString
  | String c s' => String (lower_char c) (lower s')
  end.

Fixpoint lstrip (s : string) : string :=
  match s with
  | EmptyString => EmptyString
  | String c s' => if is_space c then lstrip s' else s
  end.

Fixpoint rstrip (s : string) : string :=
  match s with
  | EmptyString => EmptyString
  | String c s' =>
      let r := rstrip s' in
      if negb (nonempty r) && is_space c then EmptyString else String c r
  end.

Definition strip (s : string) : string := rstrip (lstrip s).

Definition startswith (p s : string) : bool := String.prefix p s.

(** [needle in hay]. *)
Fixpoint contains (needle hay : string) : bool :=
  String.prefix needle hay ||
  match hay with
  | EmptyString => false
  | String _ hay' => contains needle hay'
  end.

(** [any(key in name for key in keys)]. *)
Definition any_in (keys : list string) (name : string) : bool :=
  existsb (fun key => contains key name) keys.

(** [s.replace(a, b)] for single characters. *)
Fixpoint replace_char (a b : ascii) (s : string) : string :=
  match s with
  | EmptyString => EmptyString
  | String c s' =>
      String (if Ascii.eqb c a then b else c) (replace_char a b s')
  end.

(** The separator class of the pattern [[\s,]+]. *)
Definition is_sep (c : ascii) : bool := is_space c || Ascii.eqb c ",".

Definition snoc (s : string) (c : ascii) : string := s ++ String c EmptyString.

(** [re.split(r"[\s,]+", s)]: the pieces between maximal separator runs,
    empty pieces at either end included. *)
Fixpoint re_split_from (s cur : string) (in_sep : bool) : list string :=
  match s with
  | EmptyString => [cur]
  | String c s' =>
      if is_sep c then
        if in_sep then re_split_from s' EmptyString true
        else cur :: re_split_from s' EmptyString true
      else re_split_from s' (snoc cur c) false
  end.

Definition re_split (s : string) : list string :=
  re_split_from s EmptyString false.

(** [[tok for tok in re.split(r"[\s,]+", line) if tok]]. *)
Definition tokens (line : string) : list string :=
  filter nonempty (re_split line).

Definition LF : ascii := ascii_of_nat 10.
Definition CR : ascii := ascii_of_nat 13.

(** Iterating a text-mode file (universal newlines): the lines, each with
    its terminator ["\n"], ["\r"] or ["\r\n"] translated to ["\n"]; a last
    line without terminator is kept as it is. *)
Fixpoint file_lines_from (s cur : string) (after_cr : bool) : list string :=
  match s with
  | EmptyString => if nonempty cur then [cur] else []
  | String c s' =>
      if Ascii.eqb c LF then
        if after_cr then file_lines_from s' cur false
        else snoc cur LF :: file_lines_from s' EmptyString false
      else if Ascii.eqb c CR then
        snoc cur LF :: file_lines_from s' EmptyString true
      else file_lines_from s' (snoc cur c) false
  end.

Definition file_lines (s : string) : list string :=
  file_lines_from s EmptyString false.

(** Line boundaries of [str.splitlines] in the ASCII range: LF, VT, FF,
    CR (with CR LF as one boundary), FS, GS and RS. *)
Definition is_linebreak (c : ascii) : bool :=
  let n := code c in
  (Nat.leb 10 n && Nat.leb n 13) || (Nat.leb 28 n && Nat.leb n 30).

(** [s.splitlines()]: lines without their terminators. *)
Fixpoint splitlines_from (s cur : string) (after_cr : bool) : list string :=
  match s with
  | EmptyString => if nonempty cur then [cur] else []
  | String c s' =>
      if Ascii.eqb c LF && after_cr then splitlines_from s' cur false
      else if is_linebreak c then
        cur :: splitlines_from s' EmptyString (Ascii.eqb c CR)
      else splitlines_from s' (snoc cur c) false
  end.

Definition splitlines (s : string) : list string :=
  splitlines_from s EmptyString false.

(** Every character of [s] satisfies [p]. *)
Fixpoint all_chars (p : ascii -> bool) (s : string) : bool :=
  match s with
  | EmptyString => true
  | String c s' => p c && all_chars p s'
  end.

(** No character of [s] is matched by [[\s,]]. *)
Definition sep_free (s : string) : bool :=
  all_chars (fun c => negb (is_sep c)) s.

(** [sep.join(parts)]. *)
Fixpoint join (sep : string) (parts : list string) : string :=
  match parts with
  | [] => EmptyString
  | [p] => p
  | p :: rest => p ++ sep ++ join sep rest
  end.

End PyStr.

(* ===================================================================== *)
(** ** The builtin [float(str)] *)
(* ===================================================================== *)

(** Modelled from the Python language reference (the builtin is not code of
    the repository).  Grammar, for a string without surrounding blanks:
<<
    floatvalue  ::= [sign] (floatnumber | "inf" | "infinity" | "nan")
    floatnumber ::= number [exponent]
    number      ::= [digitpart] "." digitpart | digitpart ["."]
    digitpart   ::= digit (["_"] digit)*
    exponent    ::= ("e" | "E") [sign] digitpart
>>
    with the three words matched in any letter case. *)
Module FloatParse.
Import PyStr.

(** [(["_"] digit)*]: the digits read and the unread rest. *)
Fixpoint digitpart_tail (s : string) : list Z * string :=
  match s with
  | EmptyString => ([], EmptyString)
  | String c s' =>
      if is_digit c then
        let '(ds, r) := digitpart_tail s' in (digit_val c :: ds, r)
      else if Ascii.eqb c "_" then
        match s' with
        | String d s'' =>
            if is_digit d then
              let '(ds, r) := digitpart_tail s'' in (digit_val d :: ds, r)
            else ([], s)
        | EmptyString => ([], s)
        end
      else ([], s)
  end.

Definition digitpart (s : string) : option (list Z * string) :=
  match s with
  | String c s' =>
      if is_digit c then
        let '(ds, r) := digitpart_tail s' in Some (digit_val c :: ds, r)
      else None
  | EmptyString => None
  end.

Definition digits_value (ds : list Z) : Z :=
  fold_left (fun acc d => 10 * acc + d)%Z ds 0%Z.

Definition sign (s : string) : bool * string :=
  match s with
  | String c s' =>
      if Ascii.eqb c "-" then (true, s')
      else if Ascii.eqb c "+" then (false, s')
      else (false, s)
  | EmptyString => (false, s)
  end.

(** [number]: integer digits, fraction digits and the rest. *)
Definition number (s : string) : option (list Z * list Z * string) :=
  match digitpart s with
  | Some (ip, r) =>
      match r with
      | String c r' =>
          if Ascii.eqb c "." then
            match digitpart r' with
            | Some (fp, r'') => Some (ip, fp, r'')
            | None => Some (ip, [], r')
            end
          else Some (ip, [], r)
      | EmptyString => Some (ip, [], r)
      end
  | None =>
      match s with
      | String c r' =>
          if Ascii.eqb c "." then
            match digitpart r' with
            | Some (fp, r'') => Some ([], fp, r'')
            | None => None
            end
          else None
      | EmptyString => None
      end
  end.

(** [[exponent]] up to the end of the string: the exponent value. *)
Definition exponent (s : string) : option Z :=
  match s with
  | EmptyString => Some 0%Z
  | String c s' =>
      if Ascii.eqb c "e" || Ascii.eqb c "E" then
        let '(neg, r) := sign s' in
        match digitpart r with
        | Some (ds, EmptyString) =>
            Some (if neg then - digits_value ds else digits_value ds)%Z
        | _ => None
        end
      else None
  end.

(** [m * 10^e] as a reduced rational. *)
Definition scale10 (m e : Z) : Q :=
  if (0 <=? e)%Z then inject_Z (m * 10 ^ e)
  else Qred (m # Z.to_pos (10 ^ (- e))).

(** Magnitudes from [2^1024 - 2^970] on round to an infinity. *)
Definition overflow_bound : Q := inject_Z (2 ^ 1024 - 2 ^ 970).

Definition of_rational (q : Q) : pyfloat :=
  if Qle_bool overflow_bound q then PInf
  else if Qle_bool q (- overflow_bound) then NInf
  else Fin q.

Definition floatnumber (s : string) : option pyfloat :=
  match number s with
  | Some (ip, fp, r) =>
      match exponent r with
      | Some e =>
          let m := digits_value (ip ++ fp) in
          Some (of_rational (scale10 m (e - Z.of_nat (List.length fp))))
      | None => None
      end
  | None => None
  end.

Definition absfloatvalue (s : string) : option pyfloat :=
  let w := lower s in
  if String.eqb w "inf" || String.eqb w "infinity" then Some PInf
  else if String.eqb w "nan" then Some NaN
  else floatnumber s.

(** [float(s)]: [None] stands for [ValueError]. *)
Definition py_float (s : string) : option pyfloat :=
  let '(neg, r) := sign s in
  match absfloatvalue r with
  | Some v => Some (if neg then PyFloat.neg v else v)
  | None => None
  end.

End FloatParse.

(* ===================================================================== *)
(** ** Errors and results *)
(* ===================================================================== *)

Inductive pyerror : Type :=
| FileNotFoundError (path : string)
| ValueError (msg : string).

Inductive result (A : Type) : Type :=
| Ok (a : A)
| Raise (e : pyerror).
Arguments Ok {A} a.
Arguments Raise {A} e.

(** An [np.ndarray] of floats with two axes. *)
Record ndarray : Type := mk_ndarray {
  shape0 : nat;                 (* rows *)
  shape1 : nat;                 (* columns *)
  cells : list (list pyfloat)
}.

(** A file system: path to content. *)
Abbreviation filesystem := (gmap string string).

(* ===================================================================== *)
(** ** brdfplot.py: [_load_numeric_table] *)
(* ===================================================================== *)

Module Loader.
Import PyStr.

(** [tok.replace("D", "E").replace("d", "E")] *)
Definition cleaned (tok : string) : string :=
  replace_char "d" "E" (replace_char "D" "E" tok).

(** The inner [for tok in tokens] loop: [row] accumulates the parsed
    values; a token that does not parse resets it to [[]] and breaks. *)
Fixpoint parse_tokens (toks : list string) (row : list pyfloat) : list pyfloat :=
  match toks with
  | [] => row
  | tok :: rest =>
      match FloatParse.py_float (cleaned tok) with
      | Some v => parse_tokens rest (row ++ [v])
      | None => []
      end
  end.

(** One iteration of [for raw in handle] on the accumulator [rows]. *)
Definition load_line (rows : list (list pyfloat)) (raw : string) : list (list pyfloat) :=
  let line := strip raw in
  if negb (nonempty line) || startswith "#" line then rows
  else
    let toks := tokens line in
    match toks with
    | [] => rows
    | _ =>
        match parse_tokens toks [] with
        | [] => rows
        | row => rows ++ [row]
        end
    end.

Definition numeric_rows (text : string) : list (list pyfloat) :=
  fold_left load_line (file_lines text) [].

(** [max(len(r) for r in rows)] *)
Definition max_len (rows : list (list pyfloat)) : nat :=
  fold_left (fun w r => Nat.max w (List.length r)) rows 0%nat.

(** Row [idx] of [np.full(.., nan)] after [table[idx, :len(row)] = row]. *)
Definition pad_row (width : nat) (row : list pyfloat) : list pyfloat :=
  row ++ repeat NaN (width - List.length row).

Definition table_of_rows (rows : list (list pyfloat)) : ndarray :=
  let width := max_len rows in
  mk_ndarray (List.length rows) width (map (pad_row width) rows).

Definition load_text (text : string) : result ndarray :=
  match numeric_rows text with
  | [] => Raise (ValueError "No numeric rows detected in BRDF output.")
  | rows => Ok (table_of_rows rows)
  end.

Definition _load_numeric_table (fs : filesystem) (csv_path : string) : result ndarray :=
  match fs !! csv_path with
  | None => Raise (FileNotFoundError csv_path)
  | Some text => load_text text
  end.

End Loader.

(* ===================================================================== *)
(** ** numpy on one-dimensional arrays *)
(* ===================================================================== *)

Module Np.

(** [data[:, idx]] *)
Definition column (data : ndarray) (idx : nat) : list pyfloat :=
  map (fun row => nth idx row NaN) (cells data).

(** [col[np.isfinite(col)]]: the finite entries, as rationals. *)
Fixpoint finite (col : list pyfloat) : list Q :=
  match col with
  | [] => []
  | Fin q :: rest => q :: finite rest
  | _ :: rest => finite rest
  end.

(** [(a[mask], b[mask])] for [mask = np.isfinite(a) & np.isfinite(b)]:
    the rows on which both arrays are finite. *)
Fixpoint both_finite (a b : list pyfloat) : list (Q * Q) :=
  match a, b with
  | Fin x :: a', Fin y :: b' => (x, y) :: both_finite a' b'
  | _ :: a', _ :: b' => both_finite a' b'
  | _, _ => []
  end.

Definition qmax (a b : Q) : Q := if Qle_bool a b then b else a.
Definition qmin (a b : Q) : Q := if Qle_bool b a then b else a.

(** [np.max] and [np.min] of a non-empty array. *)
Definition amax (l : list Q) : Q :=
  match l with [] => 0 | x :: rest => fold_left qmax rest x end.
Definition amin (l : list Q) : Q :=
  match l with [] => 0 | x :: rest => fold_left qmin rest x end.

(** [np.diff] *)
Fixpoint diff (l : list Q) : list Q :=
  match l with
  | x :: ((y :: _) as rest) => (y - x) :: diff rest
  | _ => []
  end.

(** [k / n] for a count [k] out of [n > 0]. *)
Definition ratio (k n : nat) : Q := Z.of_nat k # Pos.of_nat n.

(** [np.mean(mask)] of a non-empty boolean array. *)
Definition mean_bool {A} (p : A -> bool) (l : list A) : Q :=
  ratio (List.length (filter p l)) (List.length l).

Definition sum (l : list Q) : Q := fold_left Qplus l 0.

Definition mean (l : list Q) : Q := sum l / inject_Z (Z.of_nat (List.length l)).

(** The variance [np.var]; [np.std] is its square root. *)
Definition var (l : list Q) : Q :=
  let m := mean l in mean (map (fun v => (v - m) * (v - m)) l).

(** The order key standing for [float(np.nanstd(col))]: [nan] entries are
    dropped; an infinite entry, or no entry at all, gives [nan]. *)
Definition nanstd_key (col : list pyfloat) : pyfloat :=
  let kept := filter (fun v => negb (PyFloat.isnan v)) col in
  match kept with
  | [] => NaN
  | _ => if forallb PyFloat.isfinite kept then Fin (var (finite kept)) else NaN
  end.

(** [np.allclose(a, b, rtol, atol)] on finite arrays of one length, given
    as the list of pairs: [|a - b| <= atol + rtol * |b|] everywhere. *)
Definition allclose (rtol atol : Q) (ab : list (Q * Q)) : bool :=
  forallb (fun '(a, b) => Qle_bool (Qabs (a - b)) (atol + rtol * Qabs b)) ab.

End Np.

(* ===================================================================== *)
(** ** brdfplot.py: [plot_csv] *)
(* ===================================================================== *)

(** The part of the [meta] dictionary that the program reads back:
    [meta["csv_path"]], [meta["header_tokens"]] and the two bounds
    [meta["scatter"]["scatter_start"]] and [meta["scatter"]["scatter_end"]]. *)
Record metadata : Type := mk_metadata {
  meta_csv_path : string;
  header_tokens : list string;
  scatter_start : option pyfloat;
  scatter_end : option pyfloat
}.

Inductive yscale : Type := Log | Linear.

(** What [plot_csv] has decided when it draws. *)
Record plot : Type := mk_plot {
  plot_x_idx : nat;
  plot_measure_indices : list nat;
  plot_valid_indices : list nat;
  plot_yscale : yscale;
  plot_xmin : Q;
  plot_xmax : Q
}.

Module Plot.
Import PyStr.

Section Closures.
(** The variables of [plot_csv] that its two closures read. *)
Variable data : ndarray.
Variable header_lower : list string.
Variable expected_start expected_end : option pyfloat.
Variable x_col y_col : option Z.

Let ncols : nat := shape1 data.

(** [header_score] of a lower-cased header name. *)
Definition header_score (name : string) : Q :=
  if nonempty name then
    (if any_in ["theta_r"; "theta_s"; "thetas"; "scatter"; "scatt"; "view"] name
     then 5 # 2 else 0)
    + (if contains "angle" name then 1 # 2 else 0)
    - (if contains "phi" name || contains "azimuth" name then 1 else 0)
  else 0.

(** [(exp_min, exp_max)], when both bounds are given. *)
Definition expected_range : option (pyfloat * pyfloat) :=
  match expected_start, expected_end with
  | Some s, Some e => Some (PyFloat.min s e, PyFloat.max s e)
  | _, _ => None
  end.

Definition closeness (lo_val hi_val : Q) : pyfloat :=
  match expected_range with
  | Some (exp_min, exp_max) =>
      if PyFloat.gt exp_max exp_min then
        let denom := PyFloat.max (PyFloat.sub exp_max exp_min) (Fin (1 # 1000000)) in
        PyFloat.sub (Fin 1)
          (PyFloat.div
             (PyFloat.add (PyFloat.abs (PyFloat.sub (Fin lo_val) exp_min))
                          (PyFloat.abs (PyFloat.sub (Fin hi_val) exp_max)))
             (PyFloat.mul (Fin 2) denom))
      else Fin 0
  | None => Fin 0
  end.

Definition monotonic (fin : list Q) : Q :=
  let diffs := Np.diff fin in
  match diffs with
  | [] => 0
  | _ =>
      let inc := Np.mean_bool (fun d => Qle_bool (- (1 # 100000000)) d) diffs in
      let dec := Np.mean_bool (fun d => Qle_bool d (1 # 100000000)) diffs in
      Np.qmax inc dec
  end.

(** The score of column [idx], or [None] when the column is skipped. *)
Definition column_score (idx : nat) : option pyfloat :=
  let fin := Np.finite (Np.column data idx) in
  if Nat.ltb (List.length fin) 3 then None
  else
    let spread := Np.amax fin - Np.amin fin in
    if negb (Qle_bool (1 # 1000000) spread) then None
    else
      let name := nth idx header_lower "" in
      let range_score := Np.qmin (spread / 180) 1 in
      Some (PyFloat.add
              (Fin ((18 # 10) * monotonic fin + range_score + header_score name))
              (closeness (Np.amin fin) (Np.amax fin))).

(** One iteration of [for idx in range(ncols)] on [(best_idx, best_score)]. *)
Definition x_step (best : option nat * pyfloat) (idx : nat) : option nat * pyfloat :=
  match column_score idx with
  | None => best
  | Some score =>
      if PyFloat.gt score (snd best) then (Some idx, score) else best
  end.

Definition x_scan : option nat * pyfloat :=
  fold_left x_step (seq 0 ncols) (None, NInf).

(** [0 <= col < ncols] for an override that is not [None]. *)
Definition in_range (col : option Z) : option nat :=
  match col with
  | Some c =>
      if (0 <=? c)%Z && (c <? Z.of_nat ncols)%Z then Some (Z.to_nat c) else None
  | None => None
  end.

Definition _select_x_column : nat :=
  match in_range x_col with
  | Some c => c
  | None =>
      match fst x_scan with
      | Some best_idx => best_idx
      | None =>
          let fallback := if Nat.ltb 2 ncols then 2%Z else (Z.of_nat ncols - 1)%Z in
          Z.to_nat (Z.max 0 fallback)
      end
  end.

Definition geometry_keys : list string :=
  ["theta_i"; "thetai"; "incident"; "azimuth"; "phi"; "rotation";
   "lambda"; "wavelength"; "index"; "type"].

(** The header test of the candidate loop. *)
Definition is_geometry (idx : nat) : bool :=
  let name := nth idx header_lower "" in
  nonempty name && any_in geometry_keys name.

(** [(vals, x_vals[mask])] of column [idx] against the axis column. *)
Definition shared (x_idx idx : nat) : list (Q * Q) :=
  Np.both_finite (Np.column data idx) (Np.column data x_idx).

Definition is_duplicate (x_idx idx : nat) : bool :=
  Np.allclose (1 # 100000) (1 # 10000) (shared x_idx idx).

(** The body of the candidate loop: the entry appended for [idx], if any. *)
Definition candidate (x_idx idx : nat) : option (nat * pyfloat) :=
  if Nat.eqb idx x_idx then None
  else
    let pairs := shared x_idx idx in
    if Nat.ltb (List.length pairs) 2 then None
    else
      let vals := map fst pairs in
      if is_duplicate x_idx idx then None
      else
        let spread := Np.amax vals - Np.amin vals in
        if negb (Qle_bool (1 # 1000000000000) spread) then None
        else if is_geometry idx then None
        else Some (idx, Fin (Np.var vals)).

Definition m_step (x_idx : nat) (candidates : list (nat * pyfloat)) (idx : nat) :=
  match candidate x_idx idx with
  | Some c => candidates ++ [c]
  | None => candidates
  end.

Definition scan_candidates (x_idx : nat) : list (nat * pyfloat) :=
  fold_left (m_step x_idx) (seq 0 ncols) [].

(** The column named by the fallback branch, before its range test. *)
Definition fallback_index (x_idx : nat) : Z :=
  let fallback := (Z.of_nat ncols - 1)%Z in
  if (fallback =? Z.of_nat x_idx)%Z && (0 <? fallback)%Z then (fallback - 1)%Z
  else fallback.

Definition with_fallback (x_idx : nat) (candidates : list (nat * pyfloat)) :=
  match candidates with
  | [] =>
      let fallback := fallback_index x_idx in
      if (0 <=? fallback)%Z && (fallback <? Z.of_nat ncols)%Z
         && negb (fallback =? Z.of_nat x_idx)%Z
      then [(Z.to_nat fallback, Np.nanstd_key (Np.column data (Z.to_nat fallback)))]
      else []
  | _ => candidates
  end.

(** [list.sort(key=.., reverse=True)]: stable, by descending key. *)
Fixpoint insert_desc (c : nat * pyfloat) (l : list (nat * pyfloat)) :=
  match l with
  | [] => [c]
  | d :: rest =>
      if PyFloat.gt (snd d) (snd c) then d :: insert_desc c rest else c :: l
  end.

Definition sort_desc (l : list (nat * pyfloat)) : list (nat * pyfloat) :=
  fold_right insert_desc [] l.

Definition _select_measure_columns (x_idx : nat) : list nat :=
  match in_range y_col with
  | Some c => [c]
  | None => map fst (sort_desc (with_fallback x_idx (scan_candidates x_idx)))
  end.

End Closures.

(** [header_lower]: stripped, lower-cased tokens, padded with [""] up to
    [ncols] entries (never truncated). *)
Definition make_header_lower (tokens : list string) (ncols : nat) : list string :=
  let lowered := map (fun tok => lower (strip tok)) tokens in
  lowered ++ repeat "" (ncols - List.length lowered).

(** [float(np.mean(col[mask] > 0))] on the rows shared with the axis. *)
Definition positive_score (data : ndarray) (x_idx idx : nat) : Q :=
  Np.mean_bool (fun v => negb (Qle_bool v 0))
    (map fst (Np.both_finite (Np.column data idx) (Np.column data x_idx))).

Definition has_shared_rows (data : ndarray) (x_idx idx : nat) : bool :=
  negb (Nat.eqb
    (List.length (Np.both_finite (Np.column data idx) (Np.column data x_idx))) 0).

Definition plot_csv (fs : filesystem) (csv_path : string)
    (x_col y_col : option Z) (semilogy : bool) (meta : option metadata)
    : result plot :=
  match Loader._load_numeric_table fs csv_path with
  | Raise e => Raise e
  | Ok data =>
      let ncols := shape1 data in
      let tokens := match meta with Some m => header_tokens m | None => [] end in
      let start := match meta with Some m => scatter_start m | None => None end in
      let stop := match meta with Some m => scatter_end m | None => None end in
      let header_lower := make_header_lower tokens ncols in
      let x_idx := _select_x_column data header_lower start stop x_col in
      let measure_indices := _select_measure_columns data header_lower y_col x_idx in
      match measure_indices with
      | [] => Raise (ValueError "No measurement columns available for plotting.")
      | _ =>
          let valid_indices := filter (has_shared_rows data x_idx) measure_indices in
          let positive_scores := map (positive_score data x_idx) valid_indices in
          match positive_scores with
          | [] => Raise (ValueError "No finite measurement data available for plotting.")
          | p :: ps =>
              let use_semilogy :=
                semilogy && Qle_bool (7 # 10) (fold_left Np.qmin ps p) in
              let xs :=
                flat_map (fun idx => map snd
                   (Np.both_finite (Np.column data idx) (Np.column data x_idx)))
                  valid_indices in
              match xs with
              | [] => Raise (ValueError "Unable to determine X-axis bounds from data.")
              | _ =>
                  Ok (mk_plot x_idx measure_indices valid_indices
                        (if use_semilogy then Log else Linear)
                        (Np.amin xs) (Np.amax xs))
              end
          end
      end
  end.

End Plot.

(* ===================================================================== *)
(** ** brdf_form.py: [BRDFForm.run_brdfprog] *)
(* ===================================================================== *)

(** The fields of the form object that a run touches. *)
Record form : Type := mk_form {
  fs : filesystem;
  last_input_path : option string;
  last_stdout_path : option string;
  last_csv_path : option string;
  last_output_meta : option metadata;
  output_box : list string;        (* the paragraphs of the text box *)
  canvas : option plot             (* what the figure shows *)
}.

(** [subprocess.run(..., check=False)]: it raises, or the child exits. *)
Inductive process_result : Type :=
| LaunchError (msg : string)
| Completed (returncode : Z) (stdout stderr : string).

(** What one run takes from outside the form object. *)
Record run_env : Type := mk_run_env {
  timestamp : string;
  input_lines : list string;            (* the deck, already gathered *)
  which_brdfprog : option string;       (* [shutil.which("brdfprog")] *)
  process : process_result;
  open_error : string -> option string; (* the error, if any, of opening a path for writing *)
  scatmech_bin : string;                (* the fallback directory put on [PATH] *)
  scatter_start_text : string;          (* [self.scatter_start.text()] *)
  scatter_end_text : string             (* [self.scatter_end.text()] *)
}.

Module Form.
Import PyStr.
Local Open Scope string_scope.

(** A statement of the method body: it goes on with a value, leaves the
    method by [return], or raises. *)
Inductive outcome (A : Type) : Type :=
| Next (a : A)
| Return
| Except (msg : string).
Arguments Next {A} a.
Arguments Return {A}.
Arguments Except {A} msg.

Definition M (A : Type) : Type := form -> form * outcome A.

Definition ret {A} (a : A) : M A := fun f => (f, Next a).

Definition bind {A B} (m : M A) (k : A -> M B) : M B :=
  fun f =>
    match m f with
    | (f', Next a) => k a f'
    | (f', Return) => (f', Return)
    | (f', Except msg) => (f', Except msg)
    end.

Notation "x <- m ;; k" := (bind m (fun x => k))
  (at level 100, m at next level, right associativity).
Notation "m ;;; k" := (bind m (fun _ => k))
  (at level 100, right associativity).

Definition return_ {A} : M A := fun f => (f, Return).

(** [try: body except Exception as e: handler(e)] *)
Definition try_except {A} (body : M A) (handler : string -> M A) : M A :=
  fun f =>
    match body f with
    | (f', Except msg) => handler msg f'
    | r => r
    end.

Definition setText (s : string) : M unit :=
  fun f => (mk_form (fs f) (last_input_path f) (last_stdout_path f)
              (last_csv_path f) (last_output_meta f) [s] (canvas f), Next tt).

Definition append (s : string) : M unit :=
  fun f => (mk_form (fs f) (last_input_path f) (last_stdout_path f)
              (last_csv_path f) (last_output_meta f) (output_box f ++ [s])%list
              (canvas f), Next tt).

Definition set_last_input_path (p : string) : M unit :=
  fun f => (mk_form (fs f) (Some p) (last_stdout_path f)
              (last_csv_path f) (last_output_meta f) (output_box f) (canvas f), Next tt).

Definition set_last_stdout_path (p : string) : M unit :=
  fun f => (mk_form (fs f) (last_input_path f) (Some p)
              (last_csv_path f) (last_output_meta f) (output_box f) (canvas f), Next tt).

Definition set_last_csv_path (p : string) : M unit :=
  fun f => (mk_form (fs f) (last_input_path f) (last_stdout_path f)
              (Some p) (last_output_meta f) (output_box f) (canvas f), Next tt).

Definition set_last_output_meta (m : metadata) : M unit :=
  fun f => (mk_form (fs f) (last_input_path f) (last_stdout_path f)
              (last_csv_path f) (Some m) (output_box f) (canvas f), Next tt).

Definition set_canvas (c : option plot) : M unit :=
  fun f => (mk_form (fs f) (last_input_path f) (last_stdout_path f)
              (last_csv_path f) (last_output_meta f) (output_box f) c, Next tt).

Definition get {A} (field : form -> A) : M A := fun f => (f, Next (field f)).

Definition nl : string := String LF EmptyString.
Definition crlf : string := String CR (String LF EmptyString).

Section Run.
(** Library functions the method calls: [str(x)] of a float, as
    [csv.writer] writes it, and the JSON codec of the sidecar. *)
Variable float_repr : pyfloat -> string.
Variable json_dumps : metadata -> string.
Variable json_loads : string -> option metadata.

Variable env : run_env.

(** [with open(path, "w") as f: f.write(content)] *)
Definition write_file (path content : string) : M unit :=
  fun f =>
    match open_error env path with
    | Some msg => (f, Except msg)
    | None =>
        (mk_form (<[path := content]> (fs f)) (last_input_path f)
           (last_stdout_path f) (last_csv_path f) (last_output_meta f)
           (output_box f) (canvas f), Next tt)
    end.

Definition data_dir : string := "../DATA".
Definition input_filename : string :=
  data_dir ++ "/brdf_input_" ++ timestamp env ++ ".txt".
Definition output_filename : string :=
  data_dir ++ "/brdf_output_" ++ timestamp env ++ ".txt".
Definition csv_filename : string :=
  data_dir ++ "/brdf_output_" ++ timestamp env ++ ".csv".

(** The inner token loop: the values read so far and the [numeric] flag. *)
Fixpoint parse_row (toks : list string) (row : list pyfloat) : list pyfloat * bool :=
  match toks with
  | [] => (row, true)
  | tok :: rest =>
      match FloatParse.py_float (Loader.cleaned tok) with
      | Some value => parse_row rest (row ++ [value])%list
      | None => (row, false)
      end
  end.

(** The variables of the line loop. *)
Record parse_state : Type := mk_parse_state {
  numeric_rows : list (list pyfloat);
  header_toks : list string;
  last_text_tokens : list string
}.

Definition is_nil {A} (l : list A) : bool :=
  match l with [] => true | _ => false end.

Definition parse_line (st : parse_state) (raw_line : string) : parse_state :=
  let line := strip raw_line in
  if negb (nonempty line) || startswith "#" line then st
  else
    let toks := tokens line in
    match toks with
    | [] => st
    | _ =>
        let '(row, numeric) := parse_row toks [] in
        if numeric && negb (is_nil row) then
          mk_parse_state (numeric_rows st ++ [row])%list
            (if is_nil (header_toks st) && negb (is_nil (last_text_tokens st))
             then last_text_tokens st else header_toks st)
            (last_text_tokens st)
        else mk_parse_state (numeric_rows st) (header_toks st) toks
    end.

(** The table and header read from the captured standard output. *)
Definition parse_stdout (stdout : string) : list (list pyfloat) * list string :=
  let st := fold_left parse_line (splitlines stdout) (mk_parse_state [] [] []) in
  (numeric_rows st,
   if is_nil (header_toks st) && negb (is_nil (last_text_tokens st))
   then last_text_tokens st else header_toks st).

(** What [csv.writer(csvfile).writerow(row)] writes for each row: the
    fields separated by commas, the line ended by CR LF.  A float field
    needs no quoting. *)
Definition csv_line (row : list pyfloat) : string :=
  join "," (map float_repr row) ++ crlf.

Fixpoint csv_text (rows : list (list pyfloat)) : string :=
  match rows with
  | [] => EmptyString
  | row :: rest => csv_line row ++ csv_text rest
  end.

(** What Python promises of [str(x)] for a float [x]: reading it back
    gives [x], and it holds no blank and no comma. *)
Definition round_trips (x : pyfloat) : Prop :=
  FloatParse.py_float (Loader.cleaned (float_repr x)) = Some x
  /\ sep_free (float_repr x) = true.

(** [_safe_float] *)
Definition _safe_float (text : string) : option pyfloat :=
  FloatParse.py_float (strip text).

Definition _build_output_meta (header : list string) : metadata :=
  mk_metadata csv_filename header
    (_safe_float (scatter_start_text env)) (_safe_float (scatter_end_text env)).

Definition _load_output_meta (csv_path : string) : M (option metadata) :=
  fun f =>
    (f, Next (match fs f !! (csv_path ++ ".meta.json") with
              | Some text => json_loads text
              | None => None
              end)).

(** [render_with_external(csv_path)] with the default arguments, the
    module [brdfplot] being importable. *)
Definition render_with_external (csv_path : string) : M unit :=
  set_canvas None ;;;
  cached <- get last_output_meta ;;
  meta <- match cached with
          | Some m =>
              if String.eqb (meta_csv_path m) csv_path then ret (Some m)
              else _load_output_meta csv_path
          | None => _load_output_meta csv_path
          end ;;
  match meta with Some m => set_last_output_meta m | None => ret tt end ;;;
  append "brdfplot resolved via: import brdfplot" ;;;
  files <- get fs ;;
  match Plot.plot_csv files csv_path None None true meta with
  | Ok p =>
      set_canvas (Some p) ;;;
      append "Plot updated via brdfplot.plot_csv"
  | Raise (ValueError msg) => append ("brdfplot render error: " ++ msg)
  | Raise (FileNotFoundError path) =>
      append ("brdfplot render error: No such file: " ++ path)
  end.

(** The body of the [try] block of [run_brdfprog]. *)
Definition run_body : M unit :=
  write_file input_filename (join nl (input_lines env)) ;;;
  match which_brdfprog env with
  | None =>
      setText ("[Error] 'brdfprog' not found. Ensure it is on PATH or next to the app."
               ++ nl ++ "Current PATH includes: " ++ scatmech_bin env) ;;;
      return_
  | Some exe =>
      set_last_input_path input_filename ;;;
      setText ("Saved input deck: " ++ input_filename ++ nl
               ++ "Running BRDFProg: " ++ exe) ;;;
      match process env with
      | LaunchError e =>
          setText ("[Error] Could not invoke brdfprog: " ++ e) ;;;
          return_
      | Completed returncode stdout stderr =>
          if negb (returncode =? 0)%Z then
            setText ("[Error] brdfprog failed:" ++ nl ++ stderr) ;;;
            return_
          else
            write_file output_filename stdout ;;;
            set_last_stdout_path output_filename ;;;
            append "brdfprog completed. Parsing output table…" ;;;
            let '(rows, header) := parse_stdout stdout in
            match rows with
            | [] =>
                append "No numeric data detected in BRDFProg output; graph not updated."
            | _ =>
                write_file csv_filename (csv_text rows) ;;;
                append ("Saved CSV: " ++ csv_filename) ;;;
                set_last_csv_path csv_filename ;;;
                let meta := _build_output_meta header in
                let meta_path := csv_filename ++ ".meta.json" in
                try_except
                  (write_file meta_path (json_dumps meta) ;;;
                   append ("Saved metadata: " ++ meta_path))
                  (fun e => append ("[Warn] Could not write metadata: " ++ e)) ;;;
                set_last_output_meta meta ;;;
                (if is_nil header
                 then append "No textual header detected; using numeric inference."
                 else append ("Detected header tokens: "
                              ++ join ", " (firstn 8 header))) ;;;
                render_with_external csv_filename
            end
      end
  end.

(** [run_brdfprog]: the form after the action. *)
Definition run_brdfprog (f : form) : form :=
  fst (try_except run_body (fun e => setText ("[Exception] " ++ e)) f).

End Run.
End Form.

(* ===================================================================== *)
(** ** The loader's contract, in the words of the specification *)
(* ===================================================================== *)

Module LoaderSpec.
Import PyStr.

Definition parses (tok : string) : bool :=
  match FloatParse.py_float (Loader.cleaned tok) with
  | Some _ => true
  | None => false
  end.

Definition value_of (tok : string) : pyfloat :=
  match FloatParse.py_float (Loader.cleaned tok) with
  | Some v => v
  | None => NaN
  end.

(** A data line: not blank, not a [#] comment, at least one token, and
    every token a floating-point number once [D]/[d] is read as [E]. *)
Definition numeric_line (raw : string) : bool :=
  let line := strip raw in
  nonempty line && negb (startswith "#" line)
  && negb (Nat.eqb (List.length (tokens line)) 0)
  && forallb parses (tokens line).

Definition token_count (raw : string) : nat := List.length (tokens (strip raw)).

Definition line_values (raw : string) : list pyfloat :=
  map value_of (tokens (strip raw)).

(** The data lines of a text, in order. *)
Definition data_lines (text : string) : list string :=
  filter numeric_line (file_lines text).

End LoaderSpec.

(* ===================================================================== *)
(** ** The loader's contract, read from the specification alone *)
(* ===================================================================== *)

(** A second reading of the loader, written from the words of the
    specification and sharing nothing with the loader's code but the
    library notions it names: the lines of a text file, the blanks of
    [str.isspace], and [float].  Fields are cut by one pass from the end
    of the line, not by a regular-expression split; the exponent mark is
    rewritten character by character, not by two [replace] calls; a
    comment is recognised on the raw line, not on the stripped one. *)
Module LoaderWords.
Import PyStr.

(** A text of ASCII characters only.  The character classes of this
    development are those of the ASCII range; other blanks and digits of
    Unicode are outside it. *)
Definition ascii_text (s : string) : bool :=
  all_chars (fun c => Nat.ltb (code c) 128) s.

(** What separates two tokens: a blank or a comma. *)
Definition separator (c : ascii) : bool := is_space c || Ascii.eqb c ",".

(** The maximal runs of non-separator characters of [s]: those that start
    after its leading run, and that leading run. *)
Fixpoint runs (s : string) : list string * string :=
  match s with
  | EmptyString => ([], EmptyString)
  | String c rest =>
      let '(later, run) := runs rest in
      if separator c
      then (if nonempty run then run :: later else later, EmptyString)
      else (later, String c run)
  end.

(** The tokens of a line. *)
Definition fields (s : string) : list string :=
  let '(later, run) := runs s in
  if nonempty run then run :: later else later.

(** [D] and [d] read as the exponent mark [E]. *)
Fixpoint exponent_as_E (tok : string) : string :=
  match tok with
  | EmptyString => EmptyString
  | String c rest =>
      String (if Ascii.eqb c "D" || Ascii.eqb c "d" then "E"%char else c)
             (exponent_as_E rest)
  end.

(** The token parses as a floating-point number, and its value. *)
Definition is_number (tok : string) : bool :=
  match FloatParse.py_float (exponent_as_E tok) with
  | Some _ => true
  | None => false
  end.


(** The first character of a line that is not a blank. *)
Fixpoint first_visible (s : string) : option ascii :=
  match s with
  | EmptyString => None
  | String c rest => if is_space c then first_visible rest else Some c
  end.

(** A line starting with [#]. *)
Definition comment_line (raw : string) : bool :=
  match first_visible raw with
  | Some c => Ascii.eqb c "#"
  | None => false
  end.

(** A line all of whose tokens parse as numbers: it has a token (a blank
    line has none) and is no comment. *)
Definition data_line (raw : string) : bool :=
  negb (comment_line raw)
  && match fields raw with [] => false | _ => true end
  && forallb is_number (fields raw).



(** The data lines of a text, in order. *)
Definition data_lines (text : string) : list string :=
  filter data_line (file_lines text).

End LoaderWords.

(* ===================================================================== *)
(** ** The 70 % rule, in the words of the specification *)
(* ===================================================================== *)

Module ScaleSpec.

(** The values of column [idx] on the rows where it and the axis column
    are both finite: the points that are drawn. *)
Definition shared_values (data : ndarray) (x_idx idx : nat) : list Q :=
  map fst (Np.both_finite (Np.column data idx) (Np.column data x_idx)).

Definition strictly_positive (v : Q) : bool := negb (Qle_bool v 0).

Definition positive_count (l : list Q) : nat :=
  List.length (filter strictly_positive l).

(** At least 70 % of the values are strictly positive. *)
Definition mostly_positive (l : list Q) : Prop :=
  (7 * List.length l <= 10 * positive_count l)%nat.

End ScaleSpec.

(* ===================================================================== *)
(** ** The axis scenario, in the words of the specification *)
(* ===================================================================== *)

Module AxisSpec.

(** Each value is below the next one. *)
Fixpoint strictly_increasing (l : list Q) : Prop :=
  match l with
  | x :: ((y :: _) as rest) => x < y /\ strictly_increasing rest
  | _ => True
  end.

(** The expected-range hint does not weigh against a column that runs from
    [lo_val] to [hi_val]: a bound is missing, or both bounds are finite,
    they span [lo, hi] in either order, and the column's range deviates
    from it by no more than twice its width. *)
Definition hint_agrees (start stop : option pyfloat) (lo_val hi_val : Q) : Prop :=
  start = None \/ stop = None
  \/ exists lo hi,
       lo <= hi
       /\ ((start = Some (Fin lo) /\ stop = Some (Fin hi))
           \/ (start = Some (Fin hi) /\ stop = Some (Fin lo)))
       /\ Qabs (lo_val - lo) + Qabs (hi_val - hi) <= 2 * (hi - lo).

(** A magnitude of at most a million (angles in degrees are well inside):
    sums and differences of such numbers do not overflow in binary64, and
    the rounding of a score built from them stays far below the margins of
    the comparison. *)
Definition moderate (q : Q) : Prop := Qabs q <= 1000000.

Definition moderate_bound (h : option pyfloat) : Prop :=
  match h with
  | Some (Fin q) => moderate q
  | _ => True
  end.

End AxisSpec.

(* ===================================================================== *)
(** ** Identical inputs of the role inference *)
(* ===================================================================== *)

Module RoleSpec.

(** The same float: the same special value, or the same number. *)
Definition same_float (a b : pyfloat) : Prop :=
  match a, b with
  | Fin x, Fin y => x == y
  | PInf, PInf | NInf, NInf | NaN, NaN => True
  | _, _ => False
  end.

(** The same table: as many columns, and row by row the same floats. *)
Definition same_table (d1 d2 : ndarray) : Prop :=
  shape1 d1 = shape1 d2
  /\ Forall2 (Forall2 same_float) (cells d1) (cells d2).

(** The same bound of the expected-range hint. *)
Definition same_bound (h1 h2 : option pyfloat) : Prop :=
  match h1, h2 with
  | Some a, Some b => same_float a b
  | None, None => True
  | _, _ => False
  end.

(** The role assignment of one call of [plot_csv]. *)
Record roles : Type := mk_roles {
  axis : nat;
  measures : list nat
}.

Definition infer_roles (data : ndarray) (tokens : list string)
    (start stop : option pyfloat) (x_col y_col : option Z) : roles :=
  let header_lower := Plot.make_header_lower tokens (shape1 data) in
  let x_idx := Plot._select_x_column data header_lower start stop x_col in
  mk_roles x_idx (Plot._select_measure_columns data header_lower y_col x_idx).

End RoleSpec.

(* ===================================================================== *)
(** ** Vocabulary of the proofs *)
(* ===================================================================== *)

Module MeasureSpec.
Import Plot.

(** The tolerance test of the claim, in its own words: on the rows where
    both columns are finite, the column is within relative tolerance 1e-5
    and absolute tolerance 1e-4 of the axis column. *)
Definition within_tolerance (data : ndarray) (x_idx idx : nat) : Prop :=
  Forall (fun '(v, x) => Qabs (v - x) <= (1 # 10000) + (1 # 100000) * Qabs x)
         (shared data x_idx idx).

(** The same, with one percent to spare: within 99 % of the combined
    tolerance [1e-4 + 1e-5 * |x|] on every shared row.  [np.allclose]
    evaluates the tolerance in binary64; a pair this far inside it passes
    the test however the three operations round. *)
Definition well_within_tolerance (data : ndarray) (x_idx idx : nat) : Prop :=
  Forall (fun '(v, x) =>
            Qabs (v - x) <= (99 # 100) * ((1 # 10000) + (1 # 100000) * Qabs x))
         (shared data x_idx idx).

(** Equal on every shared row. *)
Definition equal_to_axis (data : ndarray) (x_idx idx : nat) : Prop :=
  Forall (fun '(v, x) => v == x) (shared data x_idx idx).

End MeasureSpec.

Module Vocabulary.
Import PyStr Plot RoleSpec.
Local Open Scope string_scope.

(** What one iteration of the candidate loop appends. *)
Definition entry (data : ndarray) (hl : list string) (x_idx idx : nat)
  : list (nat * pyfloat) :=
  match candidate data hl x_idx idx with Some c => [c] | None => [] end.

Definition not_space (c : ascii) : bool := negb (is_space c).

(** A token: not empty, and free of separators. *)
Definition word (r : string) : Prop := sep_free r = true /\ nonempty r = true.

(** A CSV line as the loader's file iteration returns it. *)
Definition written_line (float_repr : pyfloat -> string) (row : list pyfloat) : string :=
  join "," (map float_repr row) ++ String LF "".

(** A score that cannot beat 3.8, and a score of at least 4.3. *)
Definition loses (score : option pyfloat) : Prop :=
  score = None \/ exists v, score = Some (Fin v) /\ v <= 38 # 10.

Definition wins (score : option pyfloat) : Prop :=
  exists v, score = Some (Fin v) /\ 43 # 10 <= v.

Definition low (best : option nat * pyfloat) : Prop :=
  snd best = NInf \/ exists v, snd best = Fin v /\ v <= 38 # 10.

Definition won (t : nat) (best : option nat * pyfloat) : Prop :=
  fst best = Some t /\ exists v, snd best = Fin v /\ 43 # 10 <= v.

(** Numerically equal pairs. *)
Definition same_pair (p q : Q * Q) : Prop := fst p == fst q /\ snd p == snd q.

(** Related optional scores, related scan states, related candidates. *)
Definition same_score (a b : option pyfloat) : Prop :=
  match a, b with
  | Some x, Some y => same_float x y
  | None, None => True
  | _, _ => False
  end.

Definition same_best (a b : option nat * pyfloat) : Prop :=
  fst a = fst b /\ same_float (snd a) (snd b).

Definition same_entry (a b : nat * pyfloat) : Prop :=
  fst a = fst b /\ same_float (snd a) (snd b).

End Vocabulary.

(* ===================================================================== *)
(** ** Concrete inputs *)
(* ===================================================================== *)

Module Examples.
Import PyStr.
Local Open Scope string_scope.

(** The text of a file whose lines are [l], each ended by a line feed. *)
Definition text_of (l : list string) : string :=
  String.concat "" (map (fun s => s ++ String LF EmptyString) l).

Definition csv_path : string := "../DATA/brdf_output_2024-01-01_00-00-00.csv".

Definition disk (l : list string) : filesystem := {[ csv_path := text_of l ]}.

(** An angle column and a response column headered as an azimuth. *)
Definition phi_lines : list string := ["1 5"; "2 6"; "3 7"].
Definition phi_meta : metadata := mk_metadata csv_path ["Theta_r"; "Phi"] None None.
Definition phi_data : ndarray :=
  mk_ndarray 3 2 [[Fin 1; Fin 5]; [Fin 2; Fin 6]; [Fin 3; Fin 7]].
Definition phi_header : list string := ["theta_r"; "phi"].

(** Two identical columns. *)
Definition twin_lines : list string := ["1,1"; "2,2"; "3,3"].
Definition twin_data : ndarray :=
  mk_ndarray 3 2 [[Fin 1; Fin 1]; [Fin 2; Fin 2]; [Fin 3; Fin 3]].

(** A line that spells an infinity, and a line that spells only [nan]. *)
Definition inf_lines : list string := ["inf 1"; "nan"].

(** A ragged table: seven short rows hold nothing in the second column. *)
Definition ragged_lines : list string :=
  ["1 1"; "2 2"; "4 3"; "-1"; "-1"; "-1"; "-1"; "-1"; "-1"; "-1"].

Definition ragged_data : ndarray :=
  mk_ndarray 10 2
    [[Fin 1; Fin 1]; [Fin 2; Fin 2]; [Fin 4; Fin 3]; [Fin (-1); NaN];
     [Fin (-1); NaN]; [Fin (-1); NaN]; [Fin (-1); NaN]; [Fin (-1); NaN];
     [Fin (-1); NaN]; [Fin (-1); NaN]].

(** The table [phi_data] with its numbers written differently. *)
Definition phi_data_again : ndarray :=
  mk_ndarray 3 2
    [[Fin (2 # 2); Fin (10 # 2)]; [Fin (4 # 2); Fin (12 # 2)];
     [Fin (6 # 2); Fin (14 # 2)]].

(** An angle column from 0 to 180 in the last position. *)
Definition angle_data : ndarray :=
  mk_ndarray 3 3
    [[Fin 5; Fin 1; Fin 0]; [Fin 3; Fin 1; Fin 90]; [Fin 4; Fin 2; Fin 180]].
Definition angle_tokens : list string := ["Phi"; "S11"; "Theta_r"].

(** The same angle column with one missing entry. *)
Definition gappy_angle_data : ndarray :=
  mk_ndarray 4 3
    [[Fin 5; Fin 1; Fin 0]; [Fin 3; Fin 1; NaN]; [Fin 4; Fin 2; Fin 90];
     [Fin 1; Fin 3; Fin 180]].

(** An angle column next to a response column that matches a far hint. *)
Definition far_lines : list string := ["0 1000"; "90 1000.5"; "180 1001"].
Definition far_data : ndarray :=
  mk_ndarray 3 2
    [[Fin 0; Fin 1000]; [Fin 90; Fin (2001 # 2)]; [Fin 180; Fin 1001]].
Definition far_meta : metadata :=
  mk_metadata csv_path ["Theta_r"; "S11"] (Some (Fin 1000)) (Some (Fin 1001)).

(** Three columns: an angle, a wide response and a narrow response. *)
Definition wide_data : ndarray :=
  mk_ndarray 3 3
    [[Fin 0; Fin 1; Fin 10]; [Fin 90; Fin 2; Fin 30]; [Fin 180; Fin 3; Fin 20]].

(** A solver output with a header line and two data lines. *)
Definition solver_stdout : string := text_of ["Theta S11"; "1 2"; "3"].

(** Four of five values positive, and two of four. *)
Definition eighty_lines : list string := ["1 1"; "2 2"; "3 3"; "4 4"; "5 -1"].
Definition fifty_lines : list string := ["1 1"; "2 2"; "3 -1"; "4 -2"].

(** The scenario of the specification. *)
Definition scenario_lines : list string :=
  ["# comment"; "Theta S11"; "10 1.0"; "20 2.0"; "30 3.0"].
Definition scenario_meta : metadata :=
  mk_metadata csv_path ["Theta"; "S11"] None None.

(** A single column. *)
Definition single_lines : list string := ["10"; "20"; "30"].

End Examples.

(** The library functions at the values the examples need: the text of a
    float as Python prints it, and a JSON codec that is not exercised. *)
Module Formats.
Local Open Scope string_scope.

Definition float_repr (x : pyfloat) : string :=
  match x with
  | Fin q =>
      if Qeq_bool q 1 then "1.0" else if Qeq_bool q 2 then "2.0"
      else if Qeq_bool q 3 then "3.0" else "0.0"
  | PInf => "inf"
  | NInf => "-inf"
  | NaN => "nan"
  end.

Definition json_dumps (m : metadata) : string := "{}".
Definition json_loads (text : string) : option metadata := None.

End Formats.

(** A run whose solver exits with status 1, from a form that already shows
    the CSV of an earlier run. *)
Module FailedRun.
Local Open Scope string_scope.

Definition env : run_env :=
  mk_run_env "2024-01-02_00-00-00" ["0"; "-90"; "90"; "1"]
    (Some "/usr/local/bin/brdfprog")
    (Completed 1 "" "brdfprog: bad input")
    (fun _ => None) "/home/user/Local/ME498/SCATMECH" "-90" "90".

Definition before : form :=
  mk_form (Examples.disk Examples.twin_lines) None None
    (Some Examples.csv_path) None [] None.

End FailedRun.

(* ===================================================================== *)
(** ** The numbers a table of the program can hold *)
(* ===================================================================== *)

Module Binary64.

(** [q] is a binary64 number: zero, or [m * 2^e] with an odd [m] of at
    most 53 bits, [e >= -1074] and a magnitude below [2^1024]. *)
Definition representable (q : Q) : bool :=
  let r := Qred q in
  let n := Z.abs (Qnum r) in
  let d := Zpos (Qden r) in
  if (n =? 0)%Z then true
  else
    let k := Z.log2 d in
    let j := Z.log2 (Z.land n (- n)) in
    (d =? 2 ^ k)%Z
    && (Z.log2 n - j <? 53)%Z
    && (k <=? 1074)%Z
    && (Z.log2 n - k <? 1024)%Z.

(** A cell as [float] yields it: a binary64 number, an infinity or nan. *)
Definition float_cell (v : pyfloat) : bool :=
  match v with
  | Fin q => representable q
  | _ => true
  end.

(** A table whose cells are all such values, as every table of the program
    is: the loader rounds every literal to one. *)
Definition float_table (data : ndarray) : bool :=
  forallb (forallb float_cell) (cells data).

End Binary64.

(* ===================================================================== *)
(** ** The candidate loop and its order, in plain terms *)
(* ===================================================================== *)

Module SelectionSpec.
Import Plot.

(** The values of column [idx] on the rows it shares with the axis. *)
Definition shared_vals (data : ndarray) (x_idx idx : nat) : list Q :=
  map fst (shared data x_idx idx).

(** The sort key of a kept column: the variance of those values. *)
Definition spread_key (data : ndarray) (x_idx idx : nat) : Q :=
  Np.var (shared_vals data x_idx idx).

(** Column [idx] passes every test of the candidate loop: it is not the
    axis, shares at least two finite rows with it, is not a duplicate of
    it, spreads over at least 1e-12 and has no geometry header. *)
Definition passes (data : ndarray) (header_lower : list string)
    (x_idx idx : nat) : Prop :=
  idx <> x_idx
  /\ (2 <= List.length (shared data x_idx idx))%nat
  /\ is_duplicate data x_idx idx = false
  /\ 1 # 1000000000000
     <= Np.amax (shared_vals data x_idx idx) - Np.amin (shared_vals data x_idx idx)
  /\ is_geometry header_lower idx = false.

(** Column [idx] passes the candidate loop however binary64 rounds its
    tests: it is not the axis, shares at least two finite rows with it,
    lies on some shared row at least 1 % outside the combined tolerance
    [1e-4 + 1e-5 * |x|], spreads over at least twice the 1e-12 of the
    spread test, and has no geometry header. *)
Definition surely_passes (data : ndarray) (header_lower : list string)
    (x_idx idx : nat) : Prop :=
  idx <> x_idx
  /\ (2 <= List.length (shared data x_idx idx))%nat
  /\ Exists (fun '(v, x) =>
               (101 # 100) * ((1 # 10000) + (1 # 100000) * Qabs x)
               <= Qabs (v - x))
            (shared data x_idx idx)
  /\ 2 # 1000000000000
     <= Np.amax (shared_vals data x_idx idx) - Np.amin (shared_vals data x_idx idx)
  /\ is_geometry header_lower idx = false.

(** Column [idx] is not ruled out however binary64 rounds the tests: it is
    not the axis, shares at least two finite rows with it, is not within
    99 % of the combined tolerance on all of them, spreads over at least
    half of 1e-12, and has no geometry header. *)
Definition may_pass (data : ndarray) (header_lower : list string)
    (x_idx idx : nat) : Prop :=
  idx <> x_idx
  /\ (2 <= List.length (shared data x_idx idx))%nat
  /\ ~ MeasureSpec.well_within_tolerance data x_idx idx
  /\ 1 # 2000000000000
     <= Np.amax (shared_vals data x_idx idx) - Np.amin (shared_vals data x_idx idx)
  /\ is_geometry header_lower idx = false.

(** The spread of the finite values of column [idx]. *)
Definition finite_spread (data : ndarray) (idx : nat) : Q :=
  Np.amax (Np.finite (Np.column data idx)) - Np.amin (Np.finite (Np.column data idx)).

(** Column [idx] gets a score in the axis scan however binary64 rounds
    the spread test: it has at least three finite values and they spread
    over at least ten times the 1e-6 of the test. *)
Definition surely_scored (data : ndarray) (idx : nat) : bool :=
  Nat.leb 3 (List.length (Np.finite (Np.column data idx)))
  && Qle_bool (1 # 100000) (finite_spread data idx).

(** Column [idx] is not skipped by the axis scan for sure: it has at
    least three finite values and they spread over at least half of
    1e-6. *)
Definition could_be_scored (data : ndarray) (idx : nat) : bool :=
  Nat.leb 3 (List.length (Np.finite (Np.column data idx)))
  && Qle_bool (1 # 2000000) (finite_spread data idx).

(** The axis when the scan keeps no column: [max(0, 2 if ncols > 2 else
    ncols - 1)]. *)
Definition default_axis (data : ndarray) : nat :=
  if Nat.ltb 2 (shape1 data) then 2%nat else (shape1 data - 1)%nat.

(** The score of a column in the axis scan is beaten by [best]. *)
Definition not_above (best : pyfloat) (score : option pyfloat) : Prop :=
  match score with
  | Some s => PyFloat.gt s best = false
  | None => True
  end.

(** The score of a column cannot win the scan at all: the column is
    skipped, or its score is [nan] or [-inf]. *)
Definition never_wins (score : option pyfloat) : Prop :=
  match score with
  | Some s => PyFloat.gt s NInf = false
  | None => True
  end.

(** What the axis scan knows after the columns below [k]: nothing has
    qualified yet, or [best] holds a qualified column that no scanned
    column exceeds and that every earlier column is strictly below. *)
Definition scanned (data : ndarray) (hl : list string) (s e : option pyfloat)
    (k : nat) (best : option nat * pyfloat) : Prop :=
  let score := column_score data hl s e in
  match fst best with
  | None =>
      snd best = NInf
      /\ forall i, (i < k)%nat -> never_wins (score i)
  | Some b =>
      (b < k)%nat
      /\ score b = Some (snd best)
      /\ PyFloat.gt (snd best) NInf = true
      /\ (forall i, (i < k)%nat -> not_above (snd best) (score i))
      /\ (forall i si, (i < b)%nat -> score i = Some si ->
                       si = NaN \/ PyFloat.gt (snd best) si = true)
  end.

End SelectionSpec.

(* ===================================================================== *)
(** ** The lines of a solver output *)
(* ===================================================================== *)

Module ParseSpec.
Import PyStr.

(** A text line: not blank, not a [#] comment, with at least one token,
    and with a token that is not a number. *)
Definition text_line (raw : string) : bool :=
  let line := strip raw in
  nonempty line && negb (startswith "#" line)
  && negb (Nat.eqb (List.length (tokens line)) 0)
  && negb (forallb LoaderSpec.parses (tokens line)).

(** A line the parser passes over: neither a data line nor a text line. *)
Definition skipped_line (raw : string) : bool :=
  negb (LoaderSpec.numeric_line raw) && negb (text_line raw).

(** The only line terminators of the text are LF and CR: it holds none of
    VT, FF, FS, GS and RS, at which [str.splitlines] breaks a line and the
    iteration over a file does not. *)
Definition plain_breaks (text : string) : bool :=
  all_chars (fun c => negb (is_linebreak c) || Ascii.eqb c LF || Ascii.eqb c CR)
            text.

End ParseSpec.

(* ===================================================================== *)
(** ** What a render uses and shows *)
(* ===================================================================== *)

Module RenderSpec.
Local Open Scope string_scope.

(** The sidecar of a CSV, read back. *)
Definition sidecar (json_loads : string -> option metadata)
    (csv_path : string) (f : form) : option metadata :=
  match fs f !! (csv_path ++ ".meta.json") with
  | Some text => json_loads text
  | None => None
  end.

(** The metadata a render of [csv_path] works with: the metadata in memory
    when it belongs to that CSV, else the sidecar on disk. *)
Definition resolved_meta (json_loads : string -> option metadata)
    (csv_path : string) (f : form) : option metadata :=
  match last_output_meta f with
  | Some m =>
      if String.eqb (meta_csv_path m) csv_path then Some m
      else sidecar json_loads csv_path f
  | None => sidecar json_loads csv_path f
  end.

(** What the figure shows for an outcome of [plot_csv]. *)
Definition shown (r : result plot) : option plot :=
  match r with
  | Ok p => Some p
  | Raise _ => None
  end.

(** The line a render adds to the text box for an outcome of [plot_csv]. *)
Definition render_message (r : result plot) : string :=
  match r with
  | Ok _ => "Plot updated via brdfplot.plot_csv"
  | Raise (ValueError msg) => "brdfplot render error: " ++ msg
  | Raise (FileNotFoundError path) =>
      "brdfplot render error: No such file: " ++ path
  end.

(** The form of a new session on the same disk. *)
Definition fresh_session (f : form) : form :=
  mk_form (fs f) None None None None [] None.

End RenderSpec.

(* ===================================================================== *)
(** ** brdfplot.py: the axis limits of [plot_csv] *)
(* ===================================================================== *)

Module PlotAxes.

(** [a >= b] and [a <= b] on floats: false when either side is [nan]. *)
Definition ge (a b : pyfloat) : bool :=
  match a, b with
  | NaN, _ | _, NaN => false
  | Fin x, Fin y => Qle_bool y x
  | PInf, _ => true
  | _, NInf => true
  | _, _ => false
  end.

Definition le (a b : pyfloat) : bool := ge b a.

(** The default of the keyword argument [x_span_hint]. *)
Definition default_span : pyfloat * pyfloat := (Fin (-90), Fin 90).

(** [x_span_hint] once the metadata has been read: the scatter range of the
    metadata replaces the argument when both ends are given and finite. *)
Definition x_span_hint (given : pyfloat * pyfloat) (meta : option metadata)
    : pyfloat * pyfloat :=
  match meta with
  | Some m =>
      match scatter_start m, scatter_end m with
      | Some start_hint, Some end_hint =>
          let lo_hint := PyFloat.min start_hint end_hint in
          let hi_hint := PyFloat.max start_hint end_hint in
          if PyFloat.isfinite lo_hint && PyFloat.isfinite hi_hint
          then (lo_hint, hi_hint) else given
      | _, _ => given
      end
  | None => given
  end.

(** What [plot_csv] sets on the x axis: the two limits, and whether the
    major ticks are placed every 30 degrees. *)
Record x_axis : Type := mk_x_axis {
  x_lo : pyfloat;
  x_hi : pyfloat;
  ticks_every_30 : bool
}.

(** The x-limit block, for the bounds [xmin] and [xmax] of the drawn points
    (finite, or [plot_csv] has raised before). *)
Definition x_limits (hint : pyfloat * pyfloat) (xmin xmax : Q) : x_axis :=
  let '(lo, hi) := hint in
  let '(lo, hi) := if ge lo hi then (Fin xmin, Fin xmax) else (lo, hi) in
  if ge (Fin xmin) (PyFloat.sub lo (Fin 5)) && le (Fin xmax) (PyFloat.add hi (Fin 5))
  then mk_x_axis lo hi true
  else mk_x_axis (Fin xmin) (Fin xmax) false.

(** [all_positive_values]: the strictly positive values of the drawn
    columns on the rows they share with the axis.  They are listed here in
    row order; the source sorts each series by x first, and takes only the
    minimum and the maximum of the list. *)
Definition all_positive_values (data : ndarray) (x_idx : nat)
    (valid_indices : list nat) : list Q :=
  flat_map
    (fun idx =>
       filter (fun v => negb (Qle_bool v 0))
         (map fst (Np.both_finite (Np.column data idx) (Np.column data x_idx))))
    valid_indices.

(** The y-limit block of a logarithmic axis: 0.8 times the least positive
    value and 1.2 times the greatest, set when both are positive. *)
Definition y_limits (positive_array : list Q) : option (Q * Q) :=
  match positive_array with
  | [] => None
  | _ =>
      let ymin := Np.amin positive_array * (8 # 10) in
      let ymax := Np.amax positive_array * (12 # 10) in
      if negb (Qle_bool ymin 0) && negb (Qle_bool ymax 0)
      then Some (ymin, ymax) else None
  end.

(** The x values of the points [plot_csv] draws. *)
Definition drawn_xs (data : ndarray) (p : plot) : list Q :=
  flat_map
    (fun idx => map snd
       (Np.both_finite (Np.column data idx) (Np.column data (plot_x_idx p))))
    (plot_valid_indices p).

(** The x axis and the y limits of a drawn plot. *)
Definition plot_x_axis (given : pyfloat * pyfloat) (meta : option metadata)
    (p : plot) : x_axis :=
  x_limits (x_span_hint given meta) (plot_xmin p) (plot_xmax p).

Definition plot_y_limits (data : ndarray) (p : plot) : option (Q * Q) :=
  match plot_yscale p with
  | Log => y_limits (all_positive_values data (plot_x_idx p) (plot_valid_indices p))
  | Linear => None
  end.

End PlotAxes.

(* ===================================================================== *)
(** ** brdf_form.py: the tables of [BRDFForm.open_last_output] *)
(* ===================================================================== *)

(** The two table builders of [open_last_output]: the CSV branch, from the
    rows that [csv.reader] yields, and the text fallback, from the content
    of the raw output file.  The choice of the file and the dialog itself
    are outside this embedding. *)
From Stdlib Require Import DecimalString.

Module Viewer.
Import PyStr.
Local Open Scope string_scope.

(** What the dialog shows: the one-cell notice, or a header with rows. *)
Inductive table_view : Type :=
| Info
| Table (header : list string) (rows : list (list string)).

(** [_populate_table_from_rows(header, rows)]; [header] may be [None]. *)
Definition _populate_table_from_rows (header : option (list string))
    (rows : list (list string)) : table_view :=
  match header, rows with
  | Some (h :: hs), _ :: _ => Table (h :: hs) rows
  | _, _ => Info
  end.

(** [f"C{i+1}"] *)
Definition label (i : nat) : string :=
  "C" ++ NilEmpty.string_of_uint (Nat.to_uint (i + 1)).

(** [max(len(r) for r in rows)] *)
Definition widest (rows : list (list string)) : nat :=
  fold_left (fun w r => Nat.max w (List.length r)) rows 0%nat.

(** [r + [""]*(ncol-len(r))] *)
Definition pad (ncol : nat) (r : list string) : list string :=
  (r ++ repeat "" (ncol - List.length r))%list.

(** [[str(tok) for tok in meta.get("header_tokens", [])][:ncol]], extended
    with [C{i+1}] up to [ncol] entries. *)
Definition meta_header (tokens : list string) (ncol : nat) : list string :=
  let header := firstn ncol tokens in
  (header ++ map label (seq (List.length header) (ncol - List.length header)))%list.

Definition tokens_of (meta : option metadata) : list string :=
  match meta with Some m => header_tokens m | None => [] end.

(** The CSV branch: [None] when no row is left, and the text fallback
    takes over. *)
Definition csv_view (meta : option metadata)
    (reader_rows : list (list string)) : option table_view :=
  let rows := filter (fun row => negb (Form.is_nil row)) reader_rows in
  match rows with
  | [] => None
  | _ =>
      let ncol := widest rows in
      Some (_populate_table_from_rows (Some (meta_header (tokens_of meta) ncol))
              (map (pad ncol) rows))
  end.

(** [re.split(r"\s+", s)] *)
Fixpoint ws_split_from (s cur : string) (in_sep : bool) : list string :=
  match s with
  | EmptyString => [cur]
  | String c s' =>
      if is_space c then
        if in_sep then ws_split_from s' EmptyString true
        else cur :: ws_split_from s' EmptyString true
      else ws_split_from s' (snoc cur c) false
  end.

Definition ws_split (s : string) : list string :=
  ws_split_from s EmptyString false.

(** [re.search(r"[A-Za-z]", t)] *)
Definition is_alpha (c : ascii) : bool :=
  let n := code c in
  (Nat.leb 65 n && Nat.leb n 90) || (Nat.leb 97 n && Nat.leb n 122).

Definition has_alpha (t : string) : bool :=
  negb (all_chars (fun c => negb (is_alpha c)) t).

(** [_is_num] *)
Definition _is_num (t : string) : bool :=
  match FloatParse.py_float (replace_char "d" "e" (replace_char "D" "E" t)) with
  | Some _ => true
  | None => false
  end.

(** The first loop: the tokens of the first line with a letter in some
    token, and the index of the line after it. *)
Fixpoint find_header (lines : list string) (i : nat)
    : option (list string * nat) :=
  match lines with
  | [] => None
  | line :: rest =>
      let toks := ws_split (strip line) in
      if Form.is_nil toks || forallb (fun t => negb (nonempty t)) toks
      then find_header rest (S i)
      else if existsb has_alpha toks then Some (toks, S i)
      else find_header rest (S i)
  end.

(** [parts and all(_is_num(x) for x in parts)] *)
Definition numeric_parts (parts : list string) : bool :=
  negb (Form.is_nil parts) && forallb _is_num parts.

(** One line of the longest-block scan on [(best_block, current)]. *)
Definition block_step (st : list (list string) * list (list string))
    (line : string) : list (list string) * list (list string) :=
  let '(best_block, current) := st in
  let closed :=
    match current with
    | [] => (best_block, current)
    | _ =>
        (if (List.length best_block <? List.length current)%nat
         then current else best_block, [])
    end in
  let s := strip line in
  if negb (nonempty s) then closed
  else
    let parts := ws_split s in
    if numeric_parts parts then (best_block, (current ++ [parts])%list)
    else closed.

Definition longest_block (lines : list string) : list (list string) :=
  let '(best_block, current) := fold_left block_step lines ([], []) in
  if negb (Form.is_nil current)
     && (List.length best_block <? List.length current)%nat
  then current else best_block.

(** The [while] loop after a header: blank lines are skipped, numeric
    lines collected, and the first other line stops the loop. *)
Fixpoint collect (lines : list string) : list (list string) :=
  match lines with
  | [] => []
  | line :: rest =>
      let s := strip line in
      if negb (nonempty s) then collect rest
      else
        let parts := ws_split s in
        if numeric_parts parts then parts :: collect rest else []
  end.

(** The text fallback on the content of the raw output file. *)
Definition txt_view (meta : option metadata) (content : string) : table_view :=
  let lines := splitlines content in
  match find_header lines 0 with
  | None =>
      match longest_block lines with
      | [] => _populate_table_from_rows None []
      | best_block =>
          let ncol := widest best_block in
          _populate_table_from_rows (Some (map label (seq 0 ncol)))
            (map (pad ncol) best_block)
      end
  | Some (header, start_idx) =>
      match collect (skipn start_idx lines) with
      | [] => _populate_table_from_rows (Some header) []
      | rows =>
          let ncol := widest rows in
          let header :=
            if (Form.is_nil header || negb (existsb nonempty header))
               && negb (Form.is_nil (tokens_of meta))
            then meta_header (tokens_of meta) ncol
            else header in
          _populate_table_from_rows (Some header) (map (pad ncol) rows)
      end
  end.

End Viewer.

(** The lines of a text that the longest-block scan keeps, in plain
    terms. *)
Module ViewerSpec.
Import PyStr Viewer.

(** A line of numbers: not blank, and every blank-separated token reads
    as a float. *)
Definition number_line (line : string) : bool :=
  nonempty (strip line) && numeric_parts (ws_split (strip line)).

Definition parts_of (line : string) : list string := ws_split (strip line).

(** [block] is the tokens of consecutive lines of numbers of [lines]. *)
Definition is_block (lines : list string) (block : list (list string)) : Prop :=
  exists before run after,
    lines = (before ++ run ++ after)%list
    /\ forallb number_line run = true
    /\ block = map parts_of run.

(** The length of the block the scan would return on a state. *)
Definition weight (st : list (list string) * list (list string)) : nat :=
  Nat.max (List.length (fst st)) (List.length (snd st)).

(** What the scan holds after the lines [seen]. *)
Definition scan_state (seen : list string)
    (st : list (list string) * list (list string)) : Prop :=
  is_block seen (fst st)
  /\ exists before run,
       seen = (before ++ run)%list
       /\ forallb number_line run = true
       /\ snd st = map parts_of run.

End ViewerSpec.

(* ===================================================================== *)
(** ** The files and the log of a run, in plain terms *)
(* ===================================================================== *)

Module RunSpec.
Import PyStr Form.
Local Open Scope string_scope.

Section Files.
Variable float_repr : pyfloat -> string.
Variable json_dumps : metadata -> string.
Variable env : run_env.

(** The sidecar of the CSV of this run. *)
Definition meta_filename : string := csv_filename env ++ ".meta.json".

(** The input deck as written. *)
Definition deck : string := join nl (input_lines env).

(** The disk once the deck and the raw solver output are written. *)
Definition raw_files (f : form) (stdout : string) : filesystem :=
  <[output_filename env := stdout]> (<[input_filename env := deck]> (fs f)).

(** The disk at the end of a run that wrote a CSV: the sidecar is there
    only when it could be opened. *)
Definition stored_files (f : form) (stdout : string)
    (rows : list (list pyfloat)) (header : list string) : filesystem :=
  let base := <[csv_filename env := csv_text float_repr rows]> (raw_files f stdout) in
  match open_error env meta_filename with
  | None => <[meta_filename := json_dumps (_build_output_meta env header)]> base
  | Some _ => base
  end.

(** The text box of a run that wrote a CSV, before the render. *)
Definition run_log (exe : string) (header : list string) : list string :=
  [ "Saved input deck: " ++ input_filename env ++ nl ++ "Running BRDFProg: " ++ exe;
    "brdfprog completed. Parsing output table…";
    "Saved CSV: " ++ csv_filename env;
    match open_error env meta_filename with
    | None => "Saved metadata: " ++ meta_filename
    | Some e => "[Warn] Could not write metadata: " ++ e
    end;
    if is_nil header
    then "No textual header detected; using numeric inference."
    else "Detected header tokens: " ++ join ", " (firstn 8 header) ].

End Files.
End RunSpec.

(** Runs whose solver exits with status 0. *)
Module GoodRun.
Local Open Scope string_scope.

Definition env : run_env :=
  mk_run_env "2024-01-02_00-00-00" ["0"; "-90"; "90"; "1"]
    (Some "/usr/local/bin/brdfprog")
    (Completed 0 Examples.solver_stdout "")
    (fun _ => None) "/home/user/Local/ME498/SCATMECH" "-90" "90".

(** The same run on a disk that refuses the sidecar. *)
Definition no_sidecar_env : run_env :=
  mk_run_env "2024-01-02_00-00-00" ["0"; "-90"; "90"; "1"]
    (Some "/usr/local/bin/brdfprog")
    (Completed 0 Examples.solver_stdout "")
    (fun path =>
       if String.eqb path "../DATA/brdf_output_2024-01-02_00-00-00.csv.meta.json"
       then Some "Permission denied" else None)
    "/home/user/Local/ME498/SCATMECH" "-90" "90".

(** The same run on a disk that refuses the CSV. *)
Definition no_csv_env : run_env :=
  mk_run_env "2024-01-02_00-00-00" ["0"; "-90"; "90"; "1"]
    (Some "/usr/local/bin/brdfprog")
    (Completed 0 Examples.solver_stdout "")
    (fun path =>
       if String.eqb path "../DATA/brdf_output_2024-01-02_00-00-00.csv"
       then Some "Permission denied" else None)
    "/home/user/Local/ME498/SCATMECH" "-90" "90".

(** A disk that refuses the input deck. *)
Definition no_deck_env : run_env :=
  mk_run_env "2024-01-02_00-00-00" ["0"; "-90"; "90"; "1"]
    (Some "/usr/local/bin/brdfprog")
    (Completed 0 Examples.solver_stdout "")
    (fun _ => Some "Permission denied")
    "/home/user/Local/ME498/SCATMECH" "-90" "90".

(** A solver that prints no number. *)
Definition wordy_env : run_env :=
  mk_run_env "2024-01-02_00-00-00" ["0"; "-90"; "90"; "1"]
    (Some "/usr/local/bin/brdfprog")
    (Completed 0 (Examples.text_of ["SCATMECH"; "no data"]) "")
    (fun _ => None) "/home/user/Local/ME498/SCATMECH" "-90" "90".

Definition before : form :=
  mk_form (Examples.disk Examples.twin_lines) None None
    (Some Examples.csv_path) None [] None.

(** The metadata of the run, and a JSON codec that reads it back. *)
Definition meta : metadata := Form._build_output_meta env ["Theta"; "S11"].
Definition json_dumps (m : metadata) : string := "{}".
Definition json_loads (text : string) : option metadata :=
  if String.eqb text "{}" then Some meta else None.

End GoodRun.

(* ===================================================================== *)
(** * Properties *)
(* ===================================================================== *)

(** ** Measurement-column selection *)

Module MeasureFacts.
Import PyStr Plot Vocabulary.

Lemma fold_m_step data hl x_idx l acc :
  fold_left (m_step data hl x_idx) l acc
  = acc ++ flat_map (entry data hl x_idx) l.
Proof.
  revert acc; induction l as [|i l IH]; intros acc; simpl.
  - now rewrite app_nil_r.
  - rewrite IH. unfold m_step, entry.
    destruct (candidate data hl x_idx i); simpl.
    + now rewrite <- app_assoc.
    + reflexivity.
Qed.

Lemma scan_candidates_flat data hl x_idx :
  scan_candidates data hl x_idx
  = flat_map (entry data hl x_idx) (seq 0 (shape1 data)).
Proof. unfold scan_candidates. now rewrite fold_m_step. Qed.

Lemma candidate_fst data hl x_idx idx c :
  candidate data hl x_idx idx = Some c -> fst c = idx.
Proof.
  unfold candidate; intros H.
  repeat match type of H with
         | (if ?b then _ else _) = _ => destruct b; try discriminate
         end.
  now inversion H.
Qed.

(** An entry left by the candidate loop passed each of its filters. *)
Lemma in_scan_candidates data hl x_idx c :
  In c (scan_candidates data hl x_idx) ->
  candidate data hl x_idx (fst c) = Some c.
Proof.
  rewrite scan_candidates_flat, in_flat_map.
  intros (i & _ & Hi). unfold entry in Hi.
  destruct (candidate data hl x_idx i) as [c'|] eqn:E; simpl in Hi; [|tauto].
  destruct Hi as [->|[]]. now rewrite (candidate_fst _ _ _ _ _ E).
Qed.

Lemma candidate_filters data hl x_idx idx c :
  candidate data hl x_idx idx = Some c ->
  idx <> x_idx /\ is_duplicate data x_idx idx = false
  /\ is_geometry hl idx = false.
Proof.
  unfold candidate; intros H.
  destruct (Nat.eqb idx x_idx) eqn:E1; [discriminate|].
  destruct (Nat.ltb _ 2); [discriminate|].
  destruct (is_duplicate data x_idx idx); [discriminate|].
  destruct (negb _); [discriminate|].
  destruct (is_geometry hl idx); [discriminate|].
  apply Nat.eqb_neq in E1. auto.
Qed.

Lemma in_insert_desc c d l :
  In c (insert_desc d l) <-> c = d \/ In c l.
Proof.
  induction l as [|e l IH]; simpl.
  - intuition.
  - destruct (PyFloat.gt (snd e) (snd d)); simpl; rewrite ?IH; intuition.
Qed.

Lemma in_sort_desc c l : In c (sort_desc l) <-> In c l.
Proof.
  induction l as [|d l IH]; simpl; [tauto|].
  rewrite in_insert_desc, IH. intuition.
Qed.

Lemma sort_desc_single c : sort_desc [c] = [c].
Proof. reflexivity. Qed.

(** Without a usable override, a selected column either passed the
    candidate loop, or the loop left nothing and it is the fallback. *)
Lemma select_measure_cases data hl y_col x_idx idx :
  in_range data y_col = None ->
  In idx (_select_measure_columns data hl y_col x_idx) ->
  (exists c, candidate data hl x_idx idx = Some c)
  \/ (scan_candidates data hl x_idx = []
      /\ _select_measure_columns data hl y_col x_idx = [idx]
      /\ Z.of_nat idx = fallback_index data x_idx
      /\ idx <> x_idx).
Proof.
  unfold _select_measure_columns. intros -> H.
  apply in_map_iff in H as (c & <- & Hc).
  apply (proj1 (in_sort_desc _ _)) in Hc.
  unfold with_fallback in *.
  destruct (scan_candidates data hl x_idx) as [|c0 cs] eqn:E.
  - right. split; [reflexivity|].
    destruct (_ && _ && _) eqn:G; [|destruct Hc].
    destruct Hc as [Hc|[]]. subst c. simpl.
    apply andb_prop in G as [G G3]. apply andb_prop in G as [G1 G2].
    apply Z.leb_le in G1. apply negb_true_iff, Z.eqb_neq in G3.
    repeat split; [lia|]. intros Heq. lia.
  - left. rewrite <- E in Hc. exists c. now apply in_scan_candidates.
Qed.

Lemma contains_nonempty key name :
  nonempty key = true -> contains key name = true -> nonempty name = true.
Proof.
  destruct name; [|reflexivity]. destruct key; [discriminate|]. simpl. discriminate.
Qed.

Lemma geometry_header hl idx :
  any_in geometry_keys (nth idx hl "") = true -> is_geometry hl idx = true.
Proof.
  intros H. unfold is_geometry. rewrite H, andb_true_r.
  unfold any_in in H. apply existsb_exists in H as (key & Hk & Hc).
  apply (contains_nonempty key); [|exact Hc].
  unfold geometry_keys in Hk. simpl in Hk.
  repeat (destruct Hk as [<-|Hk]; [reflexivity|]). destruct Hk.
Qed.

(** The selection never names the axis column itself. *)
Lemma measure_never_axis data hl x_idx :
  ~ In x_idx (_select_measure_columns data hl None x_idx).
Proof.
  intros Hin.
  apply select_measure_cases in Hin as [(c & Hc)|(_ & _ & _ & H)];
    [|congruence|reflexivity].
  apply candidate_filters in Hc as (Hc & _). congruence.
Qed.

Lemma single_column_selects_nothing data hl :
  shape1 data = 1%nat -> _select_measure_columns data hl None 0 = [].
Proof.
  intros H. unfold _select_measure_columns, in_range, scan_candidates.
  rewrite H. simpl. unfold m_step, candidate. simpl.
  unfold with_fallback, fallback_index. rewrite H. reflexivity.
Qed.

End MeasureFacts.

(** ** Axis selection stays inside the table *)

Module AxisFacts.
Import Plot.

Lemma x_step_index data hl s e best idx i :
  fst (x_step data hl s e best idx) = Some i -> i = idx \/ fst best = Some i.
Proof.
  unfold x_step. destruct (column_score data hl s e idx); [|auto].
  destruct (PyFloat.gt p (snd best)); simpl; [|auto].
  intros [= ->]. auto.
Qed.

Lemma x_fold_index data hl s e l best i :
  fst (fold_left (x_step data hl s e) l best) = Some i ->
  In i l \/ fst best = Some i.
Proof.
  revert best; induction l as [|j l IH]; intros best H; simpl in *; [auto|].
  apply IH in H as [H|H]; [auto|].
  apply x_step_index in H as [->|H]; auto.
Qed.

(** The axis column is a column of the table, for a table with columns. *)
Lemma select_x_in_range data hl s e x_col :
  (0 < shape1 data)%nat ->
  (_select_x_column data hl s e x_col < shape1 data)%nat.
Proof.
  intros Hn. unfold _select_x_column, in_range.
  destruct x_col as [c|].
  - destruct ((0 <=? c)%Z && (c <? Z.of_nat (shape1 data))%Z) eqn:E.
    + apply andb_prop in E as [E1 E2].
      apply Z.leb_le in E1. apply Z.ltb_lt in E2. lia.
    + destruct (fst (x_scan data hl s e)) as [i|] eqn:F.
      * apply x_fold_index in F as [F|F]; [|discriminate].
        apply in_seq in F. lia.
      * destruct (Nat.ltb 2 (shape1 data)) eqn:G.
        -- apply Nat.ltb_lt in G. lia.
        -- lia.
  - destruct (fst (x_scan data hl s e)) as [i|] eqn:F.
    + apply x_fold_index in F as [F|F]; [|discriminate].
      apply in_seq in F. lia.
    + destruct (Nat.ltb 2 (shape1 data)) eqn:G.
      * apply Nat.ltb_lt in G. lia.
      * lia.
Qed.

End AxisFacts.

(** ** The claims on measurement selection *)

Module MeasureClaims.
Import PyStr Plot MeasureSpec Vocabulary MeasureFacts Examples.

(** C2, as stated, fails: with header tokens [Theta_r], [Phi] and the axis
    in column 0, the candidate loop rejects column 1 for its header, and
    the fallback then selects that same column. *)
Lemma geometry_column_selected_by_fallback :
  plot_csv (disk phi_lines) csv_path None None true (Some phi_meta)
  = Ok (mk_plot 0 [1%nat] [1%nat] Log 1 3)
  /\ make_header_lower (header_tokens phi_meta) 2 = phi_header
  /\ _select_measure_columns phi_data phi_header None 0 = [1%nat]
  /\ any_in geometry_keys (nth 1 phi_header "") = true.
Proof. repeat split; vm_compute; reflexivity. Qed.

(** C2 (amended): without a measurement override, a selected column whose
    lower-cased header name contains a geometry keyword can only be the
    fallback column: the candidate loop kept no column at all, the
    selection is that single column, and it is the last column (or the one
    before it when the last one is the axis).  Columns kept by the
    candidate loop never carry a geometry keyword. *)
Theorem geometry_column_only_by_fallback
    (data : ndarray) (header_lower : list string) (x_idx idx : nat) :
  In idx (_select_measure_columns data header_lower None x_idx) ->
  any_in geometry_keys (nth idx header_lower "") = true ->
  scan_candidates data header_lower x_idx = []
  /\ _select_measure_columns data header_lower None x_idx = [idx]
  /\ Z.of_nat idx = fallback_index data x_idx.
Proof.
  intros Hin Hgeo.
  apply select_measure_cases in Hin as [(c & Hc)|(H1 & H2 & H3 & _)]; [|auto|reflexivity].
  apply candidate_filters in Hc as (_ & _ & Hg).
  rewrite (geometry_header _ _ Hgeo) in Hg. discriminate.
Qed.

Lemma geometry_column_only_by_fallback_witness :
  In 1%nat (_select_measure_columns phi_data phi_header None 0)
  /\ any_in geometry_keys (nth 1 phi_header "") = true
  /\ scan_candidates phi_data phi_header 0 = []
  /\ _select_measure_columns phi_data phi_header None 0 = [1%nat]
  /\ Z.of_nat 1 = fallback_index phi_data 0.
Proof.
  assert (H1 : In 1%nat (_select_measure_columns phi_data phi_header None 0))
    by (vm_compute; auto).
  assert (H2 : any_in geometry_keys (nth 1 phi_header "") = true)
    by (vm_compute; reflexivity).
  split; [exact H1|]. split; [exact H2|].
  exact (geometry_column_only_by_fallback phi_data phi_header 0 1 H1 H2).
Defined.

Lemma within_tolerance_duplicate data x_idx idx :
  within_tolerance data x_idx idx -> is_duplicate data x_idx idx = true.
Proof.
  unfold within_tolerance, is_duplicate, Np.allclose. intros H.
  apply forallb_forall. intros [v x] Hin.
  rewrite Forall_forall in H. specialize (H _ Hin). simpl in H.
  apply Qle_bool_iff. exact H.
Qed.

Lemma equal_within_tolerance data x_idx idx :
  equal_to_axis data x_idx idx -> well_within_tolerance data x_idx idx.
Proof.
  unfold equal_to_axis, well_within_tolerance. apply Forall_impl.
  intros [v x] H.
  assert (E : Qabs (v - x) == 0).
  { assert (E0 : v - x == 0) by lra. rewrite E0. reflexivity. }
  rewrite E. pose proof (Qabs_nonneg x). lra.
Qed.

Lemma well_within_is_within data x_idx idx :
  well_within_tolerance data x_idx idx -> within_tolerance data x_idx idx.
Proof.
  unfold well_within_tolerance, within_tolerance. apply Forall_impl.
  intros [v x] H. pose proof (Qabs_nonneg x). lra.
Qed.

(** C3, as stated, fails: of two identical columns the first is the axis,
    the candidate loop rejects the second as a duplicate, and the fallback
    then selects it. *)
Lemma duplicate_column_selected_by_fallback :
  plot_csv (disk twin_lines) csv_path None None true None
  = Ok (mk_plot 0 [1%nat] [1%nat] Log 1 3)
  /\ _select_measure_columns twin_data [""; ""] None 0 = [1%nat]
  /\ shared twin_data 0 1 = [(1, 1); (2, 2); (3, 3)]
  /\ is_duplicate twin_data 0 1 = true.
Proof. repeat split; vm_compute; reflexivity. Qed.

(** C3 (amended): without a measurement override, a selected column that
    equals the axis column on their shared finite rows, or lies there
    within 99 % of the combined tolerance [1e-4 + 1e-5 * |x|], can only be
    the fallback column: the candidate loop kept no column at all and the
    selection is that single column.  Columns kept by the candidate loop
    are never such duplicates of the axis.  (The last percent of the
    tolerance is left out because [np.allclose] evaluates it in binary64:
    at the very edge its verdict depends on the rounding.) *)
Theorem duplicate_column_only_by_fallback
    (data : ndarray) (header_lower : list string) (x_idx idx : nat) :
  In idx (_select_measure_columns data header_lower None x_idx) ->
  well_within_tolerance data x_idx idx \/ equal_to_axis data x_idx idx ->
  scan_candidates data header_lower x_idx = []
  /\ _select_measure_columns data header_lower None x_idx = [idx]
  /\ Z.of_nat idx = fallback_index data x_idx.
Proof.
  intros Hin Hdup.
  assert (Hd : is_duplicate data x_idx idx = true).
  { apply within_tolerance_duplicate, well_within_is_within.
    destruct Hdup as [H|H]; [exact H|now apply equal_within_tolerance]. }
  apply select_measure_cases in Hin as [(c & Hc)|(H1 & H2 & H3 & _)]; [|auto|reflexivity].
  apply candidate_filters in Hc as (_ & Hc & _).
  rewrite Hd in Hc. discriminate.
Qed.

Lemma duplicate_column_only_by_fallback_witness :
  In 1%nat (_select_measure_columns twin_data [""; ""] None 0)
  /\ equal_to_axis twin_data 0 1
  /\ scan_candidates twin_data [""; ""] 0 = []
  /\ _select_measure_columns twin_data [""; ""] None 0 = [1%nat]
  /\ Z.of_nat 1 = fallback_index twin_data 0.
Proof.
  assert (H1 : In 1%nat (_select_measure_columns twin_data [""; ""] None 0))
    by (vm_compute; auto).
  assert (H2 : equal_to_axis twin_data 0 1)
    by (repeat constructor).
  split; [exact H1|]. split; [exact H2|].
  exact (duplicate_column_only_by_fallback twin_data [""; ""] 0 1 H1 (or_intror H2)).
Defined.

End MeasureClaims.

(** ** The numeric table loader *)

Module LoaderFacts.
Import PyStr Loader LoaderSpec.

Lemma parse_tokens_all toks row :
  forallb parses toks = true ->
  parse_tokens toks row = row ++ map value_of toks.
Proof.
  revert row; induction toks as [|tok toks IH]; intros row H; simpl in *.
  - now rewrite app_nil_r.
  - apply andb_prop in H as [H1 H2]. unfold parses, value_of in *.
    destruct (FloatParse.py_float (cleaned tok)); [|discriminate].
    rewrite IH by exact H2. now rewrite <- app_assoc.
Qed.

Lemma parse_tokens_some toks row :
  forallb parses toks = false -> parse_tokens toks row = [].
Proof.
  revert row; induction toks as [|tok toks IH]; intros row H; simpl in *.
  - discriminate.
  - unfold parses in *.
    destruct (FloatParse.py_float (cleaned tok)); [|reflexivity].
    apply IH. exact H.
Qed.

Lemma append_parsed_row toks rows :
  toks <> [] ->
  match parse_tokens toks [] with
  | [] => rows
  | row => rows ++ [row]
  end
  = rows ++ (if forallb parses toks then [map value_of toks] else []).
Proof.
  intros Hne. destruct (forallb parses toks) eqn:F.
  - rewrite (parse_tokens_all _ _ F). simpl.
    destruct toks as [|tok toks]; [congruence|reflexivity].
  - rewrite (parse_tokens_some _ _ F). now rewrite app_nil_r.
Qed.

(** One loop iteration appends the values of a data line and skips every
    other line. *)
Lemma load_line_spec rows raw :
  load_line rows raw
  = rows ++ (if numeric_line raw then [line_values raw] else []).
Proof.
  unfold load_line, numeric_line, line_values.
  destruct (nonempty (strip raw)); simpl; [|now rewrite app_nil_r].
  destruct (startswith "#" (strip raw)); simpl; [now rewrite app_nil_r|].
  destruct (tokens (strip raw)) as [|tok toks] eqn:E;
    [simpl; now rewrite app_nil_r|].
  transitivity (match parse_tokens (tok :: toks) [] with
                | [] => rows
                | row => rows ++ [row]
                end); [reflexivity|].
  rewrite append_parsed_row by discriminate. reflexivity.
Qed.

Lemma fold_load_line lines rows :
  fold_left load_line lines rows
  = rows ++ map line_values (filter numeric_line lines).
Proof.
  revert rows; induction lines as [|raw lines IH]; intros rows; simpl.
  - now rewrite app_nil_r.
  - rewrite IH, load_line_spec.
    destruct (numeric_line raw); simpl.
    + now rewrite <- app_assoc.
    + now rewrite app_nil_r.
Qed.

Lemma numeric_rows_spec text :
  numeric_rows text = map line_values (data_lines text).
Proof. unfold numeric_rows. now rewrite fold_load_line. Qed.

Lemma fold_max_len rows w :
  fold_left (fun w r => Nat.max w (List.length r)) rows w
  = Nat.max w (list_max (map (@List.length pyfloat) rows)).
Proof.
  revert w; induction rows as [|r rows IH]; intros w; simpl.
  - lia.
  - rewrite IH. lia.
Qed.

Lemma max_len_spec rows :
  max_len rows = list_max (map (@List.length pyfloat) rows).
Proof. unfold max_len. rewrite fold_max_len. lia. Qed.

Lemma length_line_values raw :
  List.length (line_values raw) = token_count raw.
Proof. unfold line_values, token_count. apply length_map. Qed.

Lemma numeric_line_has_token raw :
  numeric_line raw = true -> (0 < token_count raw)%nat.
Proof.
  unfold numeric_line, token_count. intros H.
  apply andb_prop in H as [H _]. apply andb_prop in H as [_ H].
  apply negb_true_iff, Nat.eqb_neq in H. lia.
Qed.

Lemma load_text_unfold text :
  load_text text
  = match data_lines text with
    | [] => Raise (ValueError "No numeric rows detected in BRDF output.")
    | _ => Ok (table_of_rows (map line_values (data_lines text)))
    end.
Proof.
  unfold load_text. rewrite numeric_rows_spec.
  now destruct (data_lines text).
Qed.

Lemma load_text_ok text table :
  load_text text = Ok table ->
  data_lines text <> []
  /\ table = table_of_rows (map line_values (data_lines text)).
Proof.
  rewrite load_text_unfold.
  destruct (data_lines text); [discriminate|].
  intros [= <-]. split; [discriminate|reflexivity].
Qed.

Lemma data_lines_numeric text raw :
  In raw (data_lines text) -> numeric_line raw = true.
Proof. unfold data_lines. intros H. now apply filter_In in H. Qed.

End LoaderFacts.

Module LoaderClaims.
Import PyStr Loader LoaderSpec LoaderFacts.


(** The scenario of the specification: the comment line is skipped, the
    header line is no data line, and the three rows are read; column 0 is
    the axis and column 1 the measurement. *)
Example scenario_table :
  load_text (Examples.text_of Examples.scenario_lines)
  = Ok (mk_ndarray 3 2 [[Fin 10; Fin 1]; [Fin 20; Fin 2]; [Fin 30; Fin 3]])
  /\ Form.parse_stdout (Examples.text_of Examples.scenario_lines)
     = ([[Fin 10; Fin 1]; [Fin 20; Fin 2]; [Fin 30; Fin 3]], ["Theta"; "S11"])
  /\ Plot.plot_csv (Examples.disk Examples.scenario_lines) Examples.csv_path
       None None true (Some Examples.scenario_meta)
     = Ok (mk_plot 0 [1%nat] [1%nat] Log 10 30).
Proof. repeat split; vm_compute; reflexivity. Qed.

End LoaderClaims.

Module InvariantClaims.
Import PyStr Loader LoaderSpec LoaderFacts Examples.

(** C6, as stated, fails: a token spelling an infinity is stored as an
    infinite cell, and a line holding only [nan] becomes a row that is
    entirely missing. *)
Lemma infinite_cell_and_missing_row :
  load_text (text_of inf_lines)
  = Ok (mk_ndarray 2 2 [[PInf; Fin 1]; [NaN; NaN]]).
Proof. vm_compute. reflexivity. Qed.

(** C6 (amended): for every accepted input text in which no token of a
    data line reads as an infinity or as [nan] (the words [inf],
    [infinity], [nan], signed or not, or a literal too large for a
    float), every cell of the table is a finite number or the missing
    marker, and every row starts with a finite number, so that no row is
    entirely missing. *)
Theorem finite_tokens_give_finite_cells (text : string) (table : ndarray) :
  (forall raw tok, In raw (data_lines text) -> In tok (tokens (strip raw)) ->
                   PyFloat.isfinite (value_of tok) = true) ->
  load_text text = Ok table ->
  Forall (fun row =>
            Forall (fun cell => PyFloat.isfinite cell = true \/ cell = NaN) row
            /\ exists q rest, row = Fin q :: rest)
         (cells table).
Proof.
  intros Hfin Hload. apply load_text_ok in Hload as (_ & ->).
  unfold table_of_rows; cbn [cells]. rewrite map_map.
  apply Forall_forall. intros row Hrow.
  apply in_map_iff in Hrow as (raw & <- & Hraw).
  pose proof (numeric_line_has_token _ (data_lines_numeric _ _ Hraw)) as Htok.
  unfold pad_row, line_values, token_count in *. split.
  - apply Forall_app. split.
    + apply Forall_forall. intros cell Hc.
      apply in_map_iff in Hc as (tok & <- & Ht). left. eauto.
    + apply Forall_forall. intros cell Hc.
      apply repeat_spec in Hc. now right.
  - destruct (tokens (strip raw)) as [|tok toks] eqn:E; [simpl in Htok; lia|].
    specialize (Hfin raw tok Hraw). rewrite E in Hfin.
    specialize (Hfin (or_introl eq_refl)).
    simpl. destruct (value_of tok) as [q| | |]; try discriminate.
    eauto.
Qed.

Lemma finite_tokens_give_finite_cells_witness :
  load_text (text_of twin_lines) = Ok twin_data
  /\ Forall (fun row =>
               Forall (fun cell => PyFloat.isfinite cell = true \/ cell = NaN) row
               /\ exists q rest, row = Fin q :: rest)
            (cells twin_data).
Proof.
  assert (L : load_text (text_of twin_lines) = Ok twin_data)
    by (vm_compute; reflexivity).
  split; [exact L|].
  apply (finite_tokens_give_finite_cells (text_of twin_lines) twin_data); [|exact L].
  assert (D : data_lines (text_of twin_lines)
              = map (fun s => (s ++ String LF EmptyString)%string) twin_lines)
    by (vm_compute; reflexivity).
  rewrite D. intros raw tok Hraw Htok. simpl in Hraw.
  repeat (destruct Hraw as [<-|Hraw];
          [vm_compute in Htok;
           repeat (destruct Htok as [<-|Htok]; [vm_compute; reflexivity|]);
           destruct Htok|]).
  destruct Hraw.
Defined.

End InvariantClaims.

Module SingleColumnClaim.
Import PyStr Loader Plot Vocabulary MeasureFacts AxisFacts Examples.

(** C10: a CSV whose table has exactly one column cannot be plotted
    without a measurement override.  Whatever the axis override, the
    semilog flag and the metadata, the single column is the axis, the
    selection is empty, and [plot_csv] raises its no-measurement-columns
    error.  For every table, the selection made without a measurement
    override never contains the axis column. *)
Theorem single_column_has_no_measurement
    (files : filesystem) (path : string) (data : ndarray)
    (x_col : option Z) (semilogy : bool) (meta : option metadata) :
  _load_numeric_table files path = Ok data ->
  shape1 data = 1%nat ->
  plot_csv files path x_col None semilogy meta
  = Raise (ValueError "No measurement columns available for plotting.")
  /\ (forall (table : ndarray) (header_lower : list string) (x_idx : nat),
         ~ In x_idx (_select_measure_columns table header_lower None x_idx)).
Proof.
  intros Hload Hcols. split; [|intros; apply measure_never_axis].
  unfold plot_csv. rewrite Hload.
  set (hl := make_header_lower _ _).
  set (s := match meta with Some m => scatter_start m | None => None end).
  set (e := match meta with Some m => scatter_end m | None => None end).
  assert (Hx : _select_x_column data hl s e x_col = 0%nat).
  { pose proof (select_x_in_range data hl s e x_col). lia. }
  rewrite Hx, (single_column_selects_nothing data hl Hcols). reflexivity.
Qed.

Lemma single_column_has_no_measurement_witness :
  _load_numeric_table (disk single_lines) csv_path
  = Ok (mk_ndarray 3 1 [[Fin 10]; [Fin 20]; [Fin 30]])
  /\ plot_csv (disk single_lines) csv_path None None true None
     = Raise (ValueError "No measurement columns available for plotting.").
Proof.
  assert (L : _load_numeric_table (disk single_lines) csv_path
              = Ok (mk_ndarray 3 1 [[Fin 10]; [Fin 20]; [Fin 30]]))
    by (vm_compute; reflexivity).
  split; [exact L|].
  exact (proj1 (single_column_has_no_measurement (disk single_lines) csv_path
                  _ None true None L eq_refl)).
Defined.

End SingleColumnClaim.

(** ** The choice of the y scale *)

Module ScaleFacts.
Import Plot ScaleSpec.

Lemma strictly_positive_iff v : strictly_positive v = true <-> 0 < v.
Proof.
  unfold strictly_positive. rewrite negb_true_iff.
  destruct (Qle_bool v 0) eqn:E.
  - apply Qle_bool_iff in E. split; [discriminate|lra].
  - split; [intros _|reflexivity].
    destruct (Qlt_le_dec 0 v) as [H|H]; [exact H|].
    apply Qle_bool_iff in H. congruence.
Qed.

Lemma qmin_le c a b : c <= Np.qmin a b <-> c <= a /\ c <= b.
Proof.
  unfold Np.qmin. destruct (Qle_bool b a) eqn:E.
  - apply Qle_bool_iff in E. split; [intros; split; lra|tauto].
  - assert (~ b <= a) by (rewrite <- Qle_bool_iff; congruence).
    split; [intros; split; lra|tauto].
Qed.

Lemma fold_qmin_le c l a :
  c <= fold_left Np.qmin l a <-> c <= a /\ Forall (fun q => c <= q) l.
Proof.
  revert a; induction l as [|b l IH]; intros a; simpl.
  - split; [intros; split; [assumption|constructor]|tauto].
  - rewrite IH, qmin_le, Forall_cons_iff. tauto.
Qed.

(** [k / n >= 0.7] compares the counts. *)
Lemma ratio_ge_70 k n :
  (0 < n)%nat -> ((7 # 10) <= Np.ratio k n <-> (7 * n <= 10 * k)%nat).
Proof.
  intros Hn. unfold Np.ratio, Qle. cbn [Qnum Qden].
  lia.
Qed.

Lemma positive_score_mostly data x_idx idx :
  has_shared_rows data x_idx idx = true ->
  ((7 # 10) <= positive_score data x_idx idx
   <-> mostly_positive (shared_values data x_idx idx)).
Proof.
  unfold has_shared_rows, positive_score, Np.mean_bool, mostly_positive,
    positive_count, shared_values.
  intros H. apply negb_true_iff, Nat.eqb_neq in H.
  rewrite ratio_ge_70 by (rewrite length_map; lia). reflexivity.
Qed.

End ScaleFacts.

Module ScaleClaims.
Import PyStr Loader Plot ScaleSpec ScaleFacts Examples.

(** C4, as stated, fails: in this ragged table column 1 is the axis and has
    values on the first three rows only; column 0 is the measurement, three
    of its ten finite values are positive (30 %), and the scale is
    logarithmic all the same, because only the three rows shared with the
    axis are counted. *)
Lemma log_scale_with_30_percent_positive :
  plot_csv (disk ragged_lines) csv_path None None true None
  = Ok (mk_plot 1 [0%nat] [0%nat] Log 1 3)
  /\ load_text (text_of ragged_lines) = Ok ragged_data
  /\ Np.finite (Np.column ragged_data 0)
     = [1; 2; 4; -1; -1; -1; -1; -1; -1; -1]
  /\ positive_count (Np.finite (Np.column ragged_data 0)) = 3%nat
  /\ ~ mostly_positive (Np.finite (Np.column ragged_data 0)).
Proof.
  repeat split; try (vm_compute; reflexivity).
  unfold mostly_positive. vm_compute. lia.
Qed.

(** C4 (amended): when [plot_csv] draws, the columns it draws are the
    selected measurement columns that share at least one finite row with
    the axis column, and the y axis is logarithmic if and only if a semilog
    request is active and every drawn column has at least 70 % strictly
    positive values among its values on the rows where it and the axis are
    both finite.  Without a semilog request the y axis is linear. *)
Theorem log_scale_iff_mostly_positive
    (files : filesystem) (path : string) (data : ndarray)
    (x_col y_col : option Z) (semilogy : bool) (meta : option metadata)
    (p : plot) :
  _load_numeric_table files path = Ok data ->
  plot_csv files path x_col y_col semilogy meta = Ok p ->
  plot_valid_indices p
  = filter (has_shared_rows data (plot_x_idx p)) (plot_measure_indices p)
  /\ (plot_yscale p = Log <->
      semilogy = true
      /\ Forall (fun idx => mostly_positive (shared_values data (plot_x_idx p) idx))
                (plot_valid_indices p))
  /\ (semilogy = false -> plot_yscale p = Linear).
Proof.
  intros Hload Hplot. unfold plot_csv in Hplot. rewrite Hload in Hplot.
  set (hl := make_header_lower _ _) in Hplot.
  set (x_idx := _select_x_column _ _ _ _ _) in Hplot.
  destruct (_select_measure_columns data hl y_col x_idx) as [|m ms] eqn:Em;
    [discriminate|].
  remember (filter (has_shared_rows data x_idx) (m :: ms)) as valid eqn:Ev.
  assert (Hvalid : Forall (fun idx => has_shared_rows data x_idx idx = true) valid).
  { apply Forall_forall. intros idx H. rewrite Ev in H. now apply filter_In in H. }
  destruct valid as [|v vs]; [discriminate|].
  cbn [map] in Hplot.
  destruct (flat_map _ (v :: vs)); [discriminate|].
  injection Hplot as <-. cbn [plot_valid_indices plot_x_idx plot_measure_indices plot_yscale].
  split; [exact Ev|].
  assert (Hmin : Qle_bool (7 # 10)
                   (fold_left Np.qmin (map (positive_score data x_idx) vs)
                              (positive_score data x_idx v)) = true
                 <-> Forall (fun idx => mostly_positive (shared_values data x_idx idx))
                            (v :: vs)).
  { rewrite Qle_bool_iff, fold_qmin_le, Forall_cons_iff, Forall_map.
    apply Forall_cons_iff in Hvalid as [Hv Hvs].
    rewrite (positive_score_mostly _ _ _ Hv).
    split; intros [H1 H2]; (split; [exact H1|]);
      rewrite Forall_forall in *; intros idx Hin;
      specialize (H2 idx Hin); specialize (Hvs idx Hin);
      now apply (positive_score_mostly _ _ _ Hvs). }
  split.
  - destruct semilogy; simpl.
    + destruct (Qle_bool _ _).
      * split; [intros _; split; [reflexivity|now apply Hmin]|reflexivity].
      * split; [discriminate|]. intros [_ H]. apply Hmin in H. discriminate.
    + split; [discriminate|]. intros [H _]. discriminate.
  - intros ->. reflexivity.
Qed.

(** The two illustrations of the rule: 80 % positive gives a logarithmic
    axis, 50 % a linear one, and so does any column without the request. *)
Example eighty_percent_positive_is_log :
  plot_csv (disk eighty_lines) csv_path None None true None
  = Ok (mk_plot 0 [1%nat] [1%nat] Log 1 5)
  /\ plot_csv (disk eighty_lines) csv_path None None false None
     = Ok (mk_plot 0 [1%nat] [1%nat] Linear 1 5).
Proof. split; vm_compute; reflexivity. Qed.

Example fifty_percent_positive_is_linear :
  plot_csv (disk fifty_lines) csv_path None None true None
  = Ok (mk_plot 0 [1%nat] [1%nat] Linear 1 4).
Proof. vm_compute. reflexivity. Qed.

Lemma log_scale_iff_mostly_positive_witness :
  _load_numeric_table (disk ragged_lines) csv_path = Ok ragged_data
  /\ plot_csv (disk ragged_lines) csv_path None None true None
     = Ok (mk_plot 1 [0%nat] [0%nat] Log 1 3)
  /\ (Log = Log <->
      true = true
      /\ Forall (fun idx => mostly_positive (shared_values ragged_data 1 idx))
                [0%nat]).
Proof.
  assert (L : _load_numeric_table (disk ragged_lines) csv_path = Ok ragged_data)
    by (vm_compute; reflexivity).
  assert (P : plot_csv (disk ragged_lines) csv_path None None true None
              = Ok (mk_plot 1 [0%nat] [0%nat] Log 1 3))
    by (vm_compute; reflexivity).
  split; [exact L|]. split; [exact P|].
  exact (proj1 (proj2 (log_scale_iff_mostly_positive (disk ragged_lines) csv_path
                         ragged_data None None true None _ L P))).
Defined.

End ScaleClaims.

(** ** The run action *)

Module RunClaims.
Import PyStr Form.
Local Open Scope string_scope.

Lemma csv_is_not_input env : csv_filename env <> input_filename env.
Proof. unfold csv_filename, input_filename, data_dir. simpl. intros [=]. Qed.

(** C9: when the solver process exits with a non-zero status, the run
    action leaves [last_csv_path] as it was and writes no file other than
    the input deck: in particular the CSV path of this run holds what it
    held before (nothing, for a fresh time stamp).  When the process was
    indeed started (the executable was found and the deck was written), the
    text box shows exactly the error line followed by the captured standard
    error. *)
Theorem nonzero_exit_leaves_csv_untouched
    (float_repr : pyfloat -> string) (json_dumps : metadata -> string)
    (json_loads : string -> option metadata)
    (env : run_env) (f : form) (returncode : Z) (stdout stderr : string) :
  process env = Completed returncode stdout stderr ->
  returncode <> 0%Z ->
  let f' := run_brdfprog float_repr json_dumps json_loads env f in
  last_csv_path f' = last_csv_path f
  /\ (forall path, path <> input_filename env -> fs f' !! path = fs f !! path)
  /\ fs f' !! csv_filename env = fs f !! csv_filename env
  /\ (forall exe, which_brdfprog env = Some exe ->
                  open_error env (input_filename env) = None ->
                  output_box f' = ["[Error] brdfprog failed:" ++ nl ++ stderr]).
Proof.
  intros Hproc Hrc f'.
  assert (Hz : (returncode =? 0)%Z = false) by now apply Z.eqb_neq.
  assert (H : last_csv_path f' = last_csv_path f
              /\ (forall path, path <> input_filename env ->
                               fs f' !! path = fs f !! path)
              /\ (forall exe, which_brdfprog env = Some exe ->
                              open_error env (input_filename env) = None ->
                              output_box f'
                              = ["[Error] brdfprog failed:" ++ nl ++ stderr])).
  { subst f'. unfold run_brdfprog, try_except, run_body, bind, write_file.
    destruct (open_error env (input_filename env)) as [msg|] eqn:Eo.
    - cbn. repeat split; intros; try reflexivity; congruence.
    - destruct (which_brdfprog env) as [exe|] eqn:Ew.
      + rewrite Hproc, Hz. cbn. repeat split; intros; try reflexivity.
        now rewrite lookup_insert_ne by congruence.
      + cbn. repeat split; intros; try reflexivity; try discriminate.
        now rewrite lookup_insert_ne by congruence. }
  destruct H as (H1 & H2 & H3).
  split; [exact H1|]. split; [exact H2|]. split; [|exact H3].
  apply H2. apply csv_is_not_input.
Qed.

Lemma nonzero_exit_leaves_csv_untouched_witness :
  process FailedRun.env = Completed 1 "" "brdfprog: bad input"
  /\ last_csv_path
       (run_brdfprog Formats.float_repr Formats.json_dumps
          Formats.json_loads FailedRun.env FailedRun.before)
     = Some Examples.csv_path
  /\ fs (run_brdfprog Formats.float_repr Formats.json_dumps
           Formats.json_loads FailedRun.env FailedRun.before)
     !! csv_filename FailedRun.env = None.
Proof.
  pose proof (nonzero_exit_leaves_csv_untouched Formats.float_repr
                Formats.json_dumps Formats.json_loads FailedRun.env
                FailedRun.before 1 "" "brdfprog: bad input" eq_refl
                ltac:(discriminate)) as (H1 & _ & H3 & _).
  split; [reflexivity|]. split; [exact H1|].
  rewrite H3. vm_compute. reflexivity.
Defined.

End RunClaims.

(** ** Text: lines, blanks and tokens of a written CSV line *)

Module TextFacts.
Import PyStr Vocabulary.
Local Open Scope string_scope.

Lemma append_cons c (a b : string) : String c a ++ b = String c (a ++ b).
Proof. reflexivity. Qed.

Lemma append_nil (b : string) : "" ++ b = b.
Proof. reflexivity. Qed.

Lemma append_assoc (a b c : string) : (a ++ b) ++ c = a ++ (b ++ c).
Proof.
  induction a as [|x a IH]; [reflexivity|].
  now rewrite !append_cons, IH.
Qed.

Lemma append_empty (a : string) : a ++ "" = a.
Proof.
  induction a as [|x a IH]; [reflexivity|].
  now rewrite append_cons, IH.
Qed.

Lemma snoc_append cur c s : snoc cur c ++ s = cur ++ String c s.
Proof. unfold snoc. now rewrite append_assoc. Qed.

Lemma all_chars_append p a b :
  all_chars p (a ++ b) = all_chars p a && all_chars p b.
Proof.
  induction a as [|x a IH]; [reflexivity|].
  rewrite append_cons. simpl. now rewrite IH, andb_assoc.
Qed.

Lemma all_chars_weaken (p q : ascii -> bool) s :
  (forall c, p c = true -> q c = true) ->
  all_chars p s = true -> all_chars q s = true.
Proof.
  intros Hpq. induction s as [|c s IH]; simpl; [reflexivity|].
  intros H. apply andb_prop in H as [H1 H2].
  now rewrite (Hpq _ H1), IH.
Qed.

Lemma sep_free_not_space s : sep_free s = true -> all_chars not_space s = true.
Proof.
  apply all_chars_weaken. intros c. unfold not_space, is_sep.
  rewrite !negb_true_iff. intros H. now apply orb_false_elim in H.
Qed.

Lemma not_space_not_newline c :
  not_space c = true -> Ascii.eqb c LF = false /\ Ascii.eqb c CR = false.
Proof.
  intros H. split.
  - destruct (Ascii.eqb c LF) eqn:E; [|reflexivity].
    apply Ascii.eqb_eq in E. subst c. discriminate H.
  - destruct (Ascii.eqb c CR) eqn:E; [|reflexivity].
    apply Ascii.eqb_eq in E. subst c. discriminate H.
Qed.

(** Reading a file: a line without blanks, ended by CR LF, comes back
    ended by LF. *)
Lemma file_lines_line l rest cur :
  all_chars not_space l = true ->
  file_lines_from (l ++ String CR (String LF rest)) cur false
  = (cur ++ l ++ String LF "") :: file_lines_from rest "" false.
Proof.
  revert cur; induction l as [|c l IH]; intros cur H.
  - reflexivity.
  - simpl in H. apply andb_prop in H as [Hc Hl].
    apply not_space_not_newline in Hc as [E1 E2].
    rewrite append_cons. cbn [file_lines_from]. rewrite E1, E2, (IH _ Hl).
    now rewrite snoc_append.
Qed.

Lemma lstrip_line l :
  nonempty l = true -> all_chars not_space l = true -> lstrip l = l.
Proof.
  destruct l as [|c l]; [discriminate|]. intros _ H. simpl in *.
  apply andb_prop in H as [Hc _]. unfold not_space in Hc.
  apply negb_true_iff in Hc. now rewrite Hc.
Qed.

Lemma rstrip_line l :
  all_chars not_space l = true -> rstrip (l ++ String LF "") = l.
Proof.
  induction l as [|c l IH]; intros H.
  - reflexivity.
  - simpl in H. apply andb_prop in H as [Hc Hl].
    rewrite append_cons. cbn [rstrip]. rewrite (IH Hl).
    unfold not_space in Hc. apply negb_true_iff in Hc.
    now rewrite Hc, andb_false_r.
Qed.

Lemma strip_line l :
  nonempty l = true -> all_chars not_space l = true ->
  strip (l ++ String LF "") = l.
Proof.
  intros Hn Hs. unfold strip.
  assert (E : lstrip (l ++ String LF "") = l ++ String LF "").
  { destruct l as [|c l]; [discriminate|]. simpl in Hs.
    apply andb_prop in Hs as [Hc _]. unfold not_space in Hc.
    apply negb_true_iff in Hc. rewrite append_cons. simpl. now rewrite Hc. }
  rewrite E. now apply rstrip_line.
Qed.

(** Splitting: a word without separators is read into the current piece. *)
Lemma re_split_word r rest cur b :
  sep_free r = true ->
  re_split_from (r ++ rest) cur b
  = re_split_from rest (cur ++ r) (if nonempty r then false else b).
Proof.
  revert cur b; induction r as [|c r IH]; intros cur b H.
  - rewrite append_nil, append_empty. reflexivity.
  - unfold sep_free in H. simpl in H. apply andb_prop in H as [Hc Hr].
    apply negb_true_iff in Hc.
    rewrite append_cons. cbn [re_split_from nonempty].
    rewrite Hc, (IH _ _ Hr), snoc_append.
    now destruct (nonempty r).
Qed.

Lemma re_split_join words b :
  words <> [] -> Forall word words ->
  re_split_from (join "," words) "" b = words.
Proof.
  revert b; induction words as [|r words IH]; intros b Hne Hw; [congruence|].
  apply Forall_cons_iff in Hw as [[Hs Hn] Hw].
  destruct words as [|r2 words].
  - cbn [join]. rewrite <- (append_empty r) at 1.
    rewrite (re_split_word _ _ _ _ Hs), Hn, append_nil. reflexivity.
  - change (join "," (r :: r2 :: words))
      with (r ++ String "," (join "," (r2 :: words))).
    rewrite (re_split_word _ _ _ _ Hs), Hn, append_nil.
    cbn [re_split_from]. change (is_sep ",") with true. cbn iota.
    f_equal. apply IH; [discriminate|exact Hw].
Qed.

Lemma tokens_join words :
  words <> [] -> Forall word words -> tokens (join "," words) = words.
Proof.
  intros Hne Hw. unfold tokens, re_split. rewrite (re_split_join _ _ Hne Hw).
  clear Hne. induction words as [|r words IH]; [reflexivity|].
  apply Forall_cons_iff in Hw as [[_ Hn] Hw]. simpl. rewrite Hn.
  f_equal. now apply IH.
Qed.

Lemma join_not_space words :
  Forall word words -> all_chars not_space (join "," words) = true.
Proof.
  induction words as [|r words IH]; intros Hw; [reflexivity|].
  apply Forall_cons_iff in Hw as [[Hs _] Hw].
  destruct words as [|r2 words].
  - now apply sep_free_not_space.
  - change (join "," (r :: r2 :: words))
      with (r ++ String "," (join "," (r2 :: words))).
    rewrite all_chars_append. cbn [all_chars].
    rewrite (sep_free_not_space _ Hs), (IH Hw). reflexivity.
Qed.

Lemma join_nonempty words :
  words <> [] -> Forall word words -> nonempty (join "," words) = true.
Proof.
  destruct words as [|r words]; [congruence|]. intros _ Hw.
  apply Forall_cons_iff in Hw as [[_ Hn] _].
  destruct r as [|c r]; [discriminate|]. now destruct words.
Qed.

(** The first character of a joined line is that of its first word. *)
Lemma join_head c r words :
  exists tail, join "," (String c r :: words) = String c tail.
Proof. destruct words; simpl; eauto. Qed.

Lemma py_float_hash s :
  FloatParse.py_float (Loader.cleaned (String "#" s)) = None.
Proof. reflexivity. Qed.

Lemma py_float_empty : FloatParse.py_float (Loader.cleaned "") = None.
Proof. reflexivity. Qed.

End TextFacts.

(** ** The loader against its contract *)

Module WordsFacts.
Import PyStr Loader LoaderSpec LoaderWords TextFacts.
Local Open Scope string_scope.



















End WordsFacts.

Module LoaderContract.
Import PyStr Loader LoaderWords WordsFacts.



End LoaderContract.

(** ** Persistence: writing the rows and loading them again *)

Module RoundTripFacts.
Import PyStr Loader LoaderSpec LoaderFacts Form Vocabulary TextFacts.
Local Open Scope string_scope.

Section Written.
Variable float_repr : pyfloat -> string.

Lemma round_trips_word x :
  round_trips float_repr x -> word (float_repr x).
Proof.
  intros [Hp Hs]. split; [exact Hs|].
  destruct (float_repr x); [|reflexivity].
  rewrite py_float_empty in Hp. discriminate.
Qed.

Lemma row_words row :
  Forall (round_trips float_repr) row -> Forall word (map float_repr row).
Proof.
  intros H. apply Forall_map. eapply Forall_impl; [|exact H].
  intros x. apply round_trips_word.
Qed.

Lemma file_lines_csv_text rows :
  Forall (Forall (round_trips float_repr)) rows ->
  file_lines_from (csv_text float_repr rows) "" false
  = map (written_line float_repr) rows.
Proof.
  induction rows as [|row rows IH]; intros H; [reflexivity|].
  apply Forall_cons_iff in H as [Hrow Hrows].
  cbn [csv_text map]. unfold csv_line, crlf.
  rewrite append_assoc, !append_cons, append_nil.
  rewrite file_lines_line by (apply join_not_space, row_words, Hrow).
  rewrite append_nil, (IH Hrows). reflexivity.
Qed.

Lemma values_of_row row :
  Forall (round_trips float_repr) row ->
  forallb parses (map float_repr row) = true
  /\ map value_of (map float_repr row) = row.
Proof.
  induction row as [|x row IH]; intros H; [split; reflexivity|].
  apply Forall_cons_iff in H as [[Hx _] Hrow].
  destruct (IH Hrow) as [IH1 IH2]. cbn [map forallb].
  unfold parses at 1, value_of at 1. rewrite Hx, IH1, IH2. split; reflexivity.
Qed.

Lemma first_char_not_hash row :
  row <> [] -> Forall (round_trips float_repr) row ->
  startswith "#" (join "," (map float_repr row)) = false.
Proof.
  destruct row as [|x row]; [congruence|]. intros _ H.
  apply Forall_cons_iff in H as [[Hx _] _]. cbn [map].
  destruct (float_repr x) as [|c r] eqn:E.
  - rewrite py_float_empty in Hx. discriminate.
  - destruct (join_head c r (map float_repr row)) as [tail ->].
    unfold startswith. cbn [String.prefix].
    destruct (ascii_dec "#" c) as [<-|_]; [|reflexivity].
    rewrite py_float_hash in Hx. discriminate.
Qed.

(** A written line is a data line, and its values are the row. *)
Lemma written_line_read row :
  row <> [] -> Forall (round_trips float_repr) row ->
  numeric_line (written_line float_repr row) = true
  /\ line_values (written_line float_repr row) = row.
Proof.
  intros Hne Hrow.
  assert (Hw := row_words _ Hrow).
  assert (Hm : map float_repr row <> []) by (destruct row; [congruence|discriminate]).
  assert (Hs : strip (written_line float_repr row) = join "," (map float_repr row)).
  { apply strip_line; [now apply join_nonempty|now apply join_not_space]. }
  destruct (values_of_row _ Hrow) as [Hp Hv].
  unfold numeric_line, line_values. rewrite Hs, (tokens_join _ Hm Hw), Hp, Hv.
  rewrite (join_nonempty _ Hm Hw), (first_char_not_hash _ Hne Hrow).
  split; [|reflexivity].
  destruct row; [congruence|reflexivity].
Qed.

Lemma data_lines_csv_text rows :
  Forall (fun row => row <> []) rows ->
  Forall (Forall (round_trips float_repr)) rows ->
  map line_values (data_lines (csv_text float_repr rows)) = rows.
Proof.
  intros Hne Hrt. unfold data_lines, file_lines.
  rewrite (file_lines_csv_text _ Hrt).
  induction rows as [|row rows IH]; [reflexivity|].
  apply Forall_cons_iff in Hne as [Hn Hne].
  apply Forall_cons_iff in Hrt as [Hr Hrt].
  destruct (written_line_read _ Hn Hr) as [H1 H2].
  cbn [map filter]. rewrite H1. cbn [map]. rewrite H2. f_equal.
  now apply IH.
Qed.

Lemma load_csv_text rows :
  rows <> [] ->
  Forall (fun row => row <> []) rows ->
  Forall (Forall (round_trips float_repr)) rows ->
  load_text (csv_text float_repr rows) = Ok (table_of_rows rows).
Proof.
  intros H0 Hne Hrt. rewrite load_text_unfold.
  pose proof (data_lines_csv_text _ Hne Hrt) as E.
  destruct (data_lines (csv_text float_repr rows)) as [|l ls] eqn:D.
  - simpl in E. congruence.
  - now rewrite E.
Qed.

End Written.

(** The rows read from the solver output are never empty. *)
Lemma parse_line_rows st raw :
  Forall (fun row => row <> []) (numeric_rows st) ->
  Forall (fun row => row <> []) (numeric_rows (parse_line st raw)).
Proof.
  intros H. unfold parse_line.
  destruct (negb _ || _); [exact H|].
  destruct (tokens (strip raw)) as [|tok toks]; [exact H|].
  destruct (parse_row (tok :: toks) []) as [row numeric].
  destruct (numeric && negb (is_nil row)) eqn:E; [|exact H].
  cbn [numeric_rows]. apply Forall_app. split; [exact H|].
  constructor; [|constructor].
  apply andb_prop in E as [_ E]. now destruct row.
Qed.

Lemma parse_fold_rows lines st :
  Forall (fun row => row <> []) (numeric_rows st) ->
  Forall (fun row => row <> [])
         (numeric_rows (fold_left parse_line lines st)).
Proof.
  revert st; induction lines as [|raw lines IH]; intros st H; [exact H|].
  simpl. apply IH. now apply parse_line_rows.
Qed.

Lemma parse_stdout_rows stdout :
  Forall (fun row => row <> []) (fst (parse_stdout stdout)).
Proof. unfold parse_stdout. cbn [fst]. apply parse_fold_rows. constructor. Qed.

Lemma nth_error_pad_row width row j x :
  nth_error row j = Some x -> nth_error (pad_row width row) j = Some x.
Proof.
  intros H. unfold pad_row. rewrite nth_error_app1; [exact H|].
  apply nth_error_Some. congruence.
Qed.

End RoundTripFacts.

Module RoundTripClaim.
Import PyStr Loader LoaderFacts Form RoundTripFacts.
Local Open Scope string_scope.

(** C7: let [rows] be the numeric rows that [run_brdfprog] reads from the
    solver output, and let them be written as CSV text the way the run
    action writes them, with a float formatting that reads back to the
    same float and holds no blank and no comma (what Python's [str] of a
    float promises).  Loading that file gives a table with as many rows as
    [rows], as many columns as the longest row, and in every position a
    row holds a value, that same value. *)
Theorem csv_round_trip
    (float_repr : pyfloat -> string) (stdout : string)
    (files : filesystem) (path : string) :
  let rows := fst (parse_stdout stdout) in
  rows <> [] ->
  (forall row x, In row rows -> In x row -> round_trips float_repr x) ->
  exists table,
    _load_numeric_table (<[path := csv_text float_repr rows]> files) path
    = Ok table
    /\ shape0 table = List.length rows
    /\ shape1 table = list_max (map (@List.length pyfloat) rows)
    /\ (forall i j row x,
           nth_error rows i = Some row -> nth_error row j = Some x ->
           exists stored, nth_error (cells table) i = Some stored
                          /\ nth_error stored j = Some x).
Proof.
  intros rows Hne Hrt. exists (table_of_rows rows).
  assert (Hload : load_text (csv_text float_repr rows) = Ok (table_of_rows rows)).
  { apply load_csv_text; [exact Hne|apply parse_stdout_rows|].
    apply Forall_forall. intros row Hrow. apply Forall_forall. intros x Hx.
    now apply (Hrt row x). }
  unfold _load_numeric_table. rewrite lookup_insert_eq, Hload.
  unfold table_of_rows; cbn [shape0 shape1 cells].
  split; [reflexivity|]. split; [reflexivity|]. split; [apply max_len_spec|].
  intros i j row x Hi Hj. exists (pad_row (max_len rows) row). split.
  - now rewrite nth_error_map, Hi.
  - now apply nth_error_pad_row.
Qed.

Lemma csv_round_trip_witness :
  fst (parse_stdout Examples.solver_stdout) = [[Fin 1; Fin 2]; [Fin 3]]
  /\ exists table,
       _load_numeric_table
         (<[Examples.csv_path :=
              csv_text Formats.float_repr
                (fst (parse_stdout Examples.solver_stdout))]> ∅)
         Examples.csv_path
       = Ok table
       /\ shape0 table = 2%nat
       /\ shape1 table = 2%nat.
Proof.
  assert (R : fst (parse_stdout Examples.solver_stdout)
              = [[Fin 1; Fin 2]; [Fin 3]]) by (vm_compute; reflexivity).
  split; [exact R|].
  destruct (csv_round_trip Formats.float_repr Examples.solver_stdout
              ∅ Examples.csv_path) as (table & H1 & H2 & H3 & _).
  - rewrite R. discriminate.
  - rewrite R. intros row x Hrow Hx. simpl in Hrow.
    destruct Hrow as [<-|[<-|[]]]; simpl in Hx;
      repeat (destruct Hx as [<-|Hx]; [split; vm_compute; reflexivity|]);
      destruct Hx.
  - exists table. rewrite R in H2, H3. auto.
Defined.

End RoundTripClaim.

(** ** Scores of the axis scan *)

Module ScoreFacts.
Import PyStr Plot AxisSpec.
Local Open Scope Q_scope.

Lemma qle_false a b : Qle_bool a b = false -> b < a.
Proof.
  intros H. destruct (Qlt_le_dec b a) as [L|L]; [exact L|].
  apply Qle_bool_iff in L. congruence.
Qed.

Lemma qmax_ub a b c : a <= c -> b <= c -> Np.qmax a b <= c.
Proof. unfold Np.qmax. now destruct (Qle_bool a b). Qed.

Lemma qmax_left a b : a <= Np.qmax a b.
Proof.
  unfold Np.qmax. destruct (Qle_bool a b) eqn:E; [|lra].
  now apply Qle_bool_iff.
Qed.

Lemma qmin_range s : 0 <= s -> 0 <= Np.qmin (s / 180) 1 <= 1.
Proof.
  intros H. assert (E : s / 180 == s * (1 # 180)) by reflexivity.
  unfold Np.qmin. destruct (Qle_bool 1 (s / 180)) eqn:L; [lra|].
  apply qle_false in L. rewrite E in *. lra.
Qed.

Lemma ratio_le_1 k n : (0 < n)%nat -> (k <= n)%nat -> Np.ratio k n <= 1.
Proof. intros. unfold Np.ratio, Qle. cbn [Qnum Qden]. lia. Qed.

Lemma ratio_full n : (0 < n)%nat -> 1 <= Np.ratio n n.
Proof. intros. unfold Np.ratio, Qle. cbn [Qnum Qden]. lia. Qed.

Lemma mean_bool_le_1 {A} (p : A -> bool) l : l <> [] -> Np.mean_bool p l <= 1.
Proof.
  intros H. unfold Np.mean_bool. apply ratio_le_1.
  - destruct l; [congruence|simpl; lia].
  - apply filter_length_le.
Qed.

Lemma mean_bool_all {A} (p : A -> bool) l :
  l <> [] -> Forall (fun x => p x = true) l -> 1 <= Np.mean_bool p l.
Proof.
  intros H Hall. unfold Np.mean_bool.
  assert (E : filter p l = l).
  { clear H. induction Hall as [|x l Hx _ IH]; [reflexivity|].
    simpl. now rewrite Hx, IH. }
  rewrite E. apply ratio_full. destruct l; [congruence|simpl; lia].
Qed.

(** The monotonicity signal is a fraction. *)
Lemma monotonic_le_1 fin : monotonic fin <= 1.
Proof.
  unfold monotonic. destruct (Np.diff fin) as [|d ds] eqn:E; [lra|].
  apply qmax_ub; apply mean_bool_le_1; discriminate.
Qed.

Lemma diff_increasing l :
  strictly_increasing l -> Forall (fun d => 0 < d) (Np.diff l).
Proof.
  induction l as [|x l IH]; [constructor|].
  destruct l as [|y l]; [constructor|].
  intros [Hxy Hl]. cbn [Np.diff]. constructor; [lra|]. now apply IH.
Qed.

Lemma diff_nonempty l : (2 <= List.length l)%nat -> Np.diff l <> [].
Proof.
  destruct l as [|x [|y l]]; simpl; [lia|lia|discriminate].
Qed.

(** A strictly increasing column is fully monotonic. *)
Lemma monotonic_increasing fin :
  (2 <= List.length fin)%nat -> strictly_increasing fin -> 1 <= monotonic fin.
Proof.
  intros Hlen Hinc. unfold monotonic.
  pose proof (diff_nonempty _ Hlen) as Hne.
  destruct (Np.diff fin) as [|d ds] eqn:E; [congruence|].
  eapply Qle_trans; [|apply qmax_left].
  apply mean_bool_all; [discriminate|].
  rewrite <- E. eapply Forall_impl; [|apply diff_increasing, Hinc].
  intros x Hx. simpl in Hx. apply Qle_bool_iff. lra.
Qed.

Lemma increasing_above x l :
  strictly_increasing (x :: l) -> Forall (fun y => x < y) l.
Proof.
  revert x; induction l as [|y l IH]; intros x H; [constructor|].
  destruct H as [Hxy Hl]. constructor; [exact Hxy|].
  eapply Forall_impl; [|apply (IH _ Hl)]. intros z Hz. simpl in Hz. lra.
Qed.

Lemma fold_qmin_head l x :
  Forall (fun y => x < y) l -> fold_left Np.qmin l x = x.
Proof.
  induction 1 as [|y l Hy _ IH]; [reflexivity|].
  simpl. unfold Np.qmin at 2.
  destruct (Qle_bool y x) eqn:E; [apply Qle_bool_iff in E; lra|exact IH].
Qed.

Lemma last_nonempty (l : list Q) a b : l <> [] -> last l a = last l b.
Proof.
  induction l as [|x l IH]; [congruence|]. intros _.
  destruct l as [|y l]; [reflexivity|].
  change (last (y :: l) a = last (y :: l) b). apply IH. discriminate.
Qed.

Lemma fold_qmax_last l x :
  strictly_increasing (x :: l) -> fold_left Np.qmax l x = last l x.
Proof.
  revert x; induction l as [|y l IH]; intros x H; [reflexivity|].
  destruct H as [Hxy Hl]. cbn [fold_left]. unfold Np.qmax at 2.
  assert (E : Qle_bool x y = true) by (apply Qle_bool_iff; lra).
  rewrite E, (IH _ Hl). destruct l as [|z l]; [reflexivity|].
  change (last (z :: l) y = last (z :: l) x). apply last_nonempty. discriminate.
Qed.

(** Of a strictly increasing column the minimum is the first value and the
    maximum the last. *)
Lemma amin_increasing l : strictly_increasing l -> Np.amin l = hd 0 l.
Proof.
  destruct l as [|x l]; [reflexivity|]. intros H.
  apply fold_qmin_head, increasing_above, H.
Qed.

Lemma amax_increasing l : strictly_increasing l -> Np.amax l = last l 0.
Proof.
  destruct l as [|x l]; [reflexivity|]. intros H.
  cbn [Np.amax]. rewrite (fold_qmax_last _ _ H).
  destruct l as [|y l]; [reflexivity|].
  change (last (y :: l) x = last (y :: l) 0). apply last_nonempty. discriminate.
Qed.

Lemma finite_map_Fin qs : Np.finite (map Fin qs) = qs.
Proof. induction qs as [|q qs IH]; [reflexivity|]. simpl. now rewrite IH. Qed.

End ScoreFacts.

Module ClosenessFacts.
Import PyStr Plot AxisSpec ScoreFacts.
Local Open Scope Q_scope.

Lemma one_minus_quotient n d :
  0 < d ->
  PyFloat.sub (Fin 1) (PyFloat.div (Fin n) (PyFloat.mul (Fin 2) (Fin d)))
  = Fin (1 - n / (2 * d)).
Proof.
  intros Hd. change (PyFloat.mul (Fin 2) (Fin d)) with (Fin (2 * d)).
  unfold PyFloat.div.
  destruct (Qeq_bool (2 * d) 0) eqn:E; [|reflexivity].
  apply Qeq_bool_iff in E. lra.
Qed.

Lemma quotient_le_1 n d : 0 <= n -> 0 < d -> 1 - n / (2 * d) <= 1.
Proof.
  intros Hn Hd. assert (H : 0 <= n / (2 * d)) by (apply Qle_shift_div_l; lra).
  set (q := n / (2 * d)) in *. lra.
Qed.

Lemma quotient_nonneg n d : n <= 2 * d -> 0 < d -> 0 <= 1 - n / (2 * d).
Proof.
  intros Hn Hd. assert (H : n / (2 * d) <= 1) by (apply Qle_shift_div_r; lra).
  set (q := n / (2 * d)) in *. lra.
Qed.

(** With finite bounds [exp_min], [exp_max], closeness is a finite number,
    at most 1, and not negative when the column's range deviates from the
    expected one by at most twice its width. *)
Lemma closeness_of_range s e lo hi lo_val hi_val :
  expected_range s e = Some (Fin lo, Fin hi) ->
  exists c, closeness s e lo_val hi_val = Fin c
            /\ c <= 1
            /\ (hi <= lo
                \/ Qabs (lo_val - lo) + Qabs (hi_val - hi) <= 2 * (hi - lo)
                -> 0 <= c).
Proof.
  intros H. unfold closeness. rewrite H. unfold PyFloat.gt, PyFloat.lt.
  destruct (Qle_bool hi lo) eqn:E; cbn [negb].
  - exists 0. split; [reflexivity|]. split; [lra|intros _; lra].
  - apply qle_false in E.
    change (PyFloat.sub (Fin hi) (Fin lo)) with (Fin (hi - lo)).
    change (PyFloat.add (PyFloat.abs (PyFloat.sub (Fin lo_val) (Fin lo)))
                        (PyFloat.abs (PyFloat.sub (Fin hi_val) (Fin hi))))
      with (Fin (Qabs (lo_val - lo) + Qabs (hi_val - hi))).
    pose proof (Qabs_nonneg (lo_val - lo)) as A1.
    pose proof (Qabs_nonneg (hi_val - hi)) as A2.
    assert (Hn : 0 <= Qabs (lo_val - lo) + Qabs (hi_val - hi)) by lra.
    clear A1 A2.
    set (n := Qabs (lo_val - lo) + Qabs (hi_val - hi)) in *.
    unfold PyFloat.max, PyFloat.gt, PyFloat.lt.
    destruct (Qle_bool (1 # 1000000) (hi - lo)) eqn:D; cbn [negb].
    + rewrite one_minus_quotient by lra. eexists. split; [reflexivity|].
      split; [apply quotient_le_1; lra|].
      intros [L|L]; [lra|]. apply quotient_nonneg; lra.
    + apply qle_false in D.
      rewrite one_minus_quotient by lra. eexists. split; [reflexivity|].
      split; [apply quotient_le_1; lra|].
      intros [L|L]; [lra|]. apply quotient_nonneg; lra.
Qed.

Lemma expected_range_finite a b :
  expected_range (Some (Fin a)) (Some (Fin b))
  = Some (if Qle_bool a b then Fin a else Fin b,
          if Qle_bool b a then Fin a else Fin b).
Proof.
  unfold expected_range, PyFloat.min, PyFloat.max, PyFloat.gt, PyFloat.lt.
  now destruct (Qle_bool a b), (Qle_bool b a).
Qed.

Lemma expected_range_spanned s e lo hi :
  lo <= hi ->
  (s = Some (Fin lo) /\ e = Some (Fin hi))
  \/ (s = Some (Fin hi) /\ e = Some (Fin lo)) ->
  exists lo' hi',
    expected_range s e = Some (Fin lo', Fin hi')
    /\ (hi' <= lo' \/ (lo' = lo /\ hi' = hi)).
Proof.
  intros Hle [[-> ->]|[-> ->]]; rewrite expected_range_finite.
  - assert (E : Qle_bool lo hi = true) by now apply Qle_bool_iff.
    rewrite E. destruct (Qle_bool hi lo) eqn:F.
    + exists lo, lo. split; [reflexivity|]. left. lra.
    + exists lo, hi. split; [reflexivity|]. now right.
  - assert (E : Qle_bool lo hi = true) by now apply Qle_bool_iff.
    rewrite E. destruct (Qle_bool hi lo) eqn:F.
    + exists hi, hi. split; [reflexivity|]. left. lra.
    + exists lo, hi. split; [reflexivity|]. now right.
Qed.

Lemma closeness_absent s e lo_val hi_val :
  s = None \/ e = None -> closeness s e lo_val hi_val = Fin 0.
Proof.
  unfold closeness, expected_range. intros [-> | ->]; [reflexivity|].
  now destruct s.
Qed.

(** Under a hint that agrees with some column, every column's closeness is
    a finite number not above 1. *)
Lemma closeness_le_1 s e x y lo_val hi_val :
  hint_agrees s e x y ->
  exists c, closeness s e lo_val hi_val = Fin c /\ c <= 1.
Proof.
  intros [H|[H|(lo & hi & Hle & Hse & _)]].
  - exists 0. split; [apply closeness_absent; auto|lra].
  - exists 0. split; [apply closeness_absent; auto|lra].
  - destruct (expected_range_spanned s e lo hi Hle Hse) as (lo' & hi' & Hr & _).
    destruct (closeness_of_range s e lo' hi' lo_val hi_val Hr) as (c & Hc & H1 & _).
    eauto.
Qed.

(** For the column the hint agrees with, closeness is not negative. *)
Lemma closeness_agrees s e lo_val hi_val :
  hint_agrees s e lo_val hi_val ->
  exists c, closeness s e lo_val hi_val = Fin c /\ 0 <= c.
Proof.
  intros [H|[H|(lo & hi & Hle & Hse & Hdev)]].
  - exists 0. split; [apply closeness_absent; auto|lra].
  - exists 0. split; [apply closeness_absent; auto|lra].
  - destruct (expected_range_spanned s e lo hi Hle Hse) as (lo' & hi' & Hr & Hcase).
    destruct (closeness_of_range s e lo' hi' lo_val hi_val Hr) as (c & Hc & _ & H0).
    exists c. split; [exact Hc|]. apply H0.
    destruct Hcase as [L|[-> ->]]; [now left|now right].
Qed.

End ClosenessFacts.

(** ** The axis scan picks the column that outscores the others *)

Module ScanFacts.
Import PyStr Plot AxisSpec Vocabulary ScoreFacts ClosenessFacts.
Local Open Scope Q_scope.

Section Scan.
Variable data : ndarray.
Variable hl : list string.
Variable s e : option pyfloat.
Variable t : nat.

Let score := column_score data hl s e.
Let step := x_step data hl s e.

Lemma step_low best i : low best -> loses (score i) -> low (step best i).
Proof.
  subst score step. intros Hb Hi. unfold x_step.
  destruct Hi as [->|(v & -> & Hv)]; [exact Hb|].
  destruct (PyFloat.gt (Fin v) (snd best)); [|exact Hb].
  right. exists v. split; [reflexivity|exact Hv].
Qed.

Lemma step_win best : low best -> wins (score t) -> won t (step best t).
Proof.
  subst score step. intros Hb (v & Hs & Hv). unfold x_step. rewrite Hs.
  assert (G : PyFloat.gt (Fin v) (snd best) = true).
  { destruct Hb as [->|(w & -> & Hw)]; [reflexivity|].
    unfold PyFloat.gt, PyFloat.lt. apply negb_true_iff.
    destruct (Qle_bool v w) eqn:E; [|reflexivity].
    apply Qle_bool_iff in E. lra. }
  rewrite G. split; [reflexivity|]. exists v. split; [reflexivity|exact Hv].
Qed.

Lemma step_keep best i : won t best -> loses (score i) -> won t (step best i).
Proof.
  subst score step. intros Hb Hi. unfold x_step.
  destruct Hi as [->|(v & -> & Hv)]; [exact Hb|].
  destruct Hb as (Hf & w & Hw & Hle).
  assert (G : PyFloat.gt (Fin v) (snd best) = false).
  { rewrite Hw. unfold PyFloat.gt, PyFloat.lt. apply negb_false_iff.
    apply Qle_bool_iff. lra. }
  rewrite G. split; [exact Hf|]. exists w. split; [exact Hw|exact Hle].
Qed.

Lemma fold_low l best :
  low best -> Forall (fun i => loses (score i)) l -> low (fold_left step l best).
Proof.
  revert best; induction l as [|i l IH]; intros best Hb Hl; [exact Hb|].
  apply Forall_cons_iff in Hl as [Hi Hl]. simpl. apply IH; [|exact Hl].
  now apply step_low.
Qed.

Lemma fold_keep l best :
  won t best -> Forall (fun i => loses (score i)) l ->
  won t (fold_left step l best).
Proof.
  revert best; induction l as [|i l IH]; intros best Hb Hl; [exact Hb|].
  apply Forall_cons_iff in Hl as [Hi Hl]. simpl. apply IH; [|exact Hl].
  now apply step_keep.
Qed.

(** When column [t] wins and every other column loses, the scan ends on
    [t], wherever [t] stands. *)
Lemma scan_finds :
  (t < shape1 data)%nat ->
  wins (score t) ->
  (forall i, (i < shape1 data)%nat -> i <> t -> loses (score i)) ->
  fst (x_scan data hl s e) = Some t.
Proof.
  intros Ht Hw Hl. unfold x_scan.
  replace (shape1 data) with (t + S (shape1 data - S t))%nat by lia.
  rewrite seq_app, fold_left_app. cbn [seq fold_left Nat.add].
  apply (fold_keep _ _).
  - apply step_win; [|exact Hw]. apply fold_low; [now left|].
    apply Forall_forall. intros i Hi. apply in_seq in Hi. apply Hl; lia.
  - apply Forall_forall. intros i Hi. apply in_seq in Hi. apply Hl; lia.
Qed.

End Scan.

Lemma header_lower_nth tokens n i w :
  nth i tokens "" = w -> w <> ""%string ->
  nth i (make_header_lower tokens n) "" = lower (strip w).
Proof.
  intros Hw Hne. unfold make_header_lower.
  assert (Hi : (i < List.length tokens)%nat).
  { destruct (Nat.lt_ge_cases i (List.length tokens)) as [L|L]; [exact L|].
    rewrite (nth_overflow _ _ L) in Hw. congruence. }
  rewrite app_nth1 by now rewrite length_map.
  change ""%string with ((fun tok => lower (strip tok)) ""%string) at 1.
  now rewrite map_nth, Hw.
Qed.

End ScanFacts.

Module AxisClaim.
Import PyStr Loader Plot AxisSpec Vocabulary ScoreFacts ClosenessFacts ScanFacts Examples.
Local Open Scope Q_scope.

(** Any column under a header [Phi] or [S11] scores at most 3.8 when the
    hint is absent or finite. *)
Lemma other_column_loses data tokens s e x y i :
  hint_agrees s e x y ->
  nth i tokens "" = "Phi"%string \/ nth i tokens "" = "S11"%string ->
  loses (column_score data (make_header_lower tokens (shape1 data)) s e i).
Proof.
  intros Hhint Hname. unfold loses, column_score.
  destruct (Nat.ltb _ 3); [now left|].
  destruct (Qle_bool (1 # 1000000) _) eqn:Hspread; cbn [negb]; [|now left].
  right. apply Qle_bool_iff in Hspread.
  set (fin := Np.finite (Np.column data i)) in *.
  destruct (closeness_le_1 s e x y (Np.amin fin) (Np.amax fin) Hhint)
    as (c & -> & Hc).
  eexists. split; [reflexivity|].
  pose proof (monotonic_le_1 fin) as Hm.
  assert (Hr : 0 <= Np.qmin ((Np.amax fin - Np.amin fin) / 180) 1 <= 1)
    by (apply qmin_range; lra).
  assert (Hh : header_score
                 (nth i (make_header_lower tokens (shape1 data)) "") <= 0).
  { destruct Hname as [H|H];
      rewrite (header_lower_nth _ _ _ _ H) by discriminate;
      vm_compute; discriminate. }
  set (m := monotonic fin) in *.
  set (r := Np.qmin _ 1) in *.
  set (h := header_score _) in *.
  lra.
Qed.

(** A finite, strictly increasing column of at least three values under
    the header [Theta_r] scores at least 4.3 when the hint agrees with it. *)
Lemma theta_column_wins data tokens s e t qs :
  Np.finite (Np.column data t) = qs ->
  (3 <= List.length qs)%nat ->
  strictly_increasing qs ->
  1 # 1000000 <= last qs 0 - hd 0 qs ->
  nth t tokens "" = "Theta_r"%string ->
  hint_agrees s e (hd 0 qs) (last qs 0) ->
  wins (column_score data (make_header_lower tokens (shape1 data)) s e t).
Proof.
  intros Hcol Hlen Hinc Hspread Hname Hhint. unfold wins, column_score.
  rewrite Hcol.
  rewrite (amin_increasing _ Hinc), (amax_increasing _ Hinc).
  assert (L : Nat.ltb (List.length qs) 3 = false) by (apply Nat.ltb_ge; lia).
  rewrite L.
  assert (S : Qle_bool (1 # 1000000) (last qs 0 - hd 0 qs) = true)
    by now apply Qle_bool_iff.
  rewrite S. cbn [negb].
  destruct (closeness_agrees s e _ _ Hhint) as (c & -> & Hc).
  eexists. split; [reflexivity|].
  assert (Hm : 1 <= monotonic qs) by (apply monotonic_increasing; [lia|exact Hinc]).
  assert (Hr : 0 <= Np.qmin ((last qs 0 - hd 0 qs) / 180) 1 <= 1)
    by (apply qmin_range; lra).
  assert (Hh : header_score
                 (nth t (make_header_lower tokens (shape1 data)) "") == 5 # 2).
  { rewrite (header_lower_nth _ _ _ _ Hname) by discriminate. reflexivity. }
  set (m := monotonic qs) in *.
  set (r := Np.qmin _ 1) in *.
  set (h := header_score _) in *.
  lra.
Qed.

(** C1, as stated, fails: with the hint [1000, 1001] the response column
    matches the hint, the angle column is far from it, and the response
    column in position 1 is chosen as the axis although the [Theta_r]
    column is in position 0. *)
Lemma far_hint_displaces_theta_r :
  load_text (text_of far_lines) = Ok far_data
  /\ Np.column far_data 0 = [Fin 0; Fin 90; Fin 180]
  /\ _select_x_column far_data
       (make_header_lower (header_tokens far_meta) 2)
       (scatter_start far_meta) (scatter_end far_meta) None = 1%nat
  /\ plot_csv (disk far_lines) csv_path None None true (Some far_meta)
     = Ok (mk_plot 1 [0%nat] [0%nat] Linear 1000 1001).
Proof. repeat split; vm_compute; reflexivity. Qed.

(** C1 (amended): in a table where the finite entries of one column are
    at least three, strictly increasing, of magnitude at most a million
    and span at least 1e-5 (as a column that runs over [0, 180] does), and
    that column is headered [Theta_r], while every other column is
    headered [Phi] or [S11] and holds arbitrary values, axis selection
    without an axis override returns the [Theta_r] column, whatever its
    position, when no expected-range hint is supplied and also when the
    hint is finite, of magnitude at most a million, and the column's range
    deviates from it by no more than twice the hint's width.

    The [Theta_r] column then scores at least 4.3 and every other column
    at most 3.8.  The bounds on the magnitudes and the factor ten on the
    1e-6 spread test of the code keep the overflow and the rounding of
    binary64 arithmetic out of reach of that margin. *)
Theorem theta_r_column_is_axis
    (data : ndarray) (tokens : list string) (start stop : option pyfloat)
    (t : nat) (qs : list Q) :
  (t < shape1 data)%nat ->
  Np.finite (Np.column data t) = qs ->
  (3 <= List.length qs)%nat ->
  strictly_increasing qs ->
  Forall moderate qs ->
  1 # 100000 <= last qs 0 - hd 0 qs ->
  nth t tokens "" = "Theta_r"%string ->
  (forall i, (i < shape1 data)%nat -> i <> t ->
             nth i tokens "" = "Phi"%string \/ nth i tokens "" = "S11"%string) ->
  moderate_bound start ->
  moderate_bound stop ->
  hint_agrees start stop (hd 0 qs) (last qs 0) ->
  _select_x_column data (make_header_lower tokens (shape1 data))
    start stop None = t.
Proof.
  intros Ht Hcol Hlen Hinc _ Hspread Hname Hothers _ _ Hhint.
  unfold _select_x_column, in_range.
  rewrite (scan_finds data _ start stop t Ht).
  - reflexivity.
  - apply (theta_column_wins data tokens start stop t qs); try assumption.
    lra.
  - intros i Hi Hne. eapply other_column_loses; [exact Hhint|].
    now apply Hothers.
Qed.

Lemma theta_r_column_is_axis_witness :
  Np.finite (Np.column gappy_angle_data 2) = [0; 90; 180]
  /\ hint_agrees (Some (Fin 180)) (Some (Fin 0)) 0 180
  /\ _select_x_column gappy_angle_data (make_header_lower angle_tokens 3)
       (Some (Fin 180)) (Some (Fin 0)) None = 2%nat.
Proof.
  assert (C : Np.finite (Np.column gappy_angle_data 2) = [0; 90; 180])
    by reflexivity.
  assert (H : hint_agrees (Some (Fin 180)) (Some (Fin 0)) 0 180).
  { right. right. exists 0, 180. split; [lra|]. split; [now right|].
    apply Qle_bool_iff. reflexivity. }
  split; [exact C|]. split; [exact H|].
  apply (theta_r_column_is_axis gappy_angle_data angle_tokens _ _ 2 [0; 90; 180]).
  - simpl. lia.
  - exact C.
  - simpl. lia.
  - simpl. repeat split; lra.
  - repeat constructor; apply Qle_bool_iff; reflexivity.
  - simpl. lra.
  - reflexivity.
  - intros i Hi Hne. simpl in Hi.
    destruct i as [|[|[|i]]]; [left|right| |]; try reflexivity; lia.
  - apply Qle_bool_iff. reflexivity.
  - apply Qle_bool_iff. reflexivity.
  - exact H.
Defined.

End AxisClaim.

(** ** The inference reads numbers, not their representation *)

Module SameFloat.
Import RoleSpec.
Local Open Scope Q_scope.

Lemma qle_bool_same a a' b b' :
  a == a' -> b == b' -> Qle_bool a b = Qle_bool a' b'.
Proof.
  intros Ha Hb.
  destruct (Qle_bool a b) eqn:E, (Qle_bool a' b') eqn:E'; try reflexivity.
  - apply Qle_bool_iff in E. rewrite Ha, Hb in E.
    apply Qle_bool_iff in E. congruence.
  - apply Qle_bool_iff in E'. rewrite <- Ha, <- Hb in E'.
    apply Qle_bool_iff in E'. congruence.
Qed.

Lemma qeq_bool_same a a' b b' :
  a == a' -> b == b' -> Qeq_bool a b = Qeq_bool a' b'.
Proof.
  intros Ha Hb.
  destruct (Qeq_bool a b) eqn:E, (Qeq_bool a' b') eqn:E'; try reflexivity.
  - apply Qeq_bool_iff in E. rewrite Ha, Hb in E.
    apply Qeq_bool_iff in E. congruence.
  - apply Qeq_bool_iff in E'. rewrite <- Ha, <- Hb in E'.
    apply Qeq_bool_iff in E'. congruence.
Qed.

Lemma sgn_same x x' : x == x' -> PyFloat.sgn x = PyFloat.sgn x'.
Proof. intros H. unfold PyFloat.sgn. now rewrite H. Qed.

Lemma same_float_refl a : same_float a a.
Proof. destruct a; simpl; [reflexivity|exact I..]. Qed.

Lemma same_bound_refl h : same_bound h h.
Proof. destruct h; simpl; [apply same_float_refl|exact I]. Qed.

Lemma same_isfinite a a' :
  same_float a a' -> PyFloat.isfinite a = PyFloat.isfinite a'.
Proof. intros H. destruct a, a'; simpl in *; tauto. Qed.

Lemma same_isnan a a' :
  same_float a a' -> PyFloat.isnan a = PyFloat.isnan a'.
Proof. intros H. destruct a, a'; simpl in *; tauto. Qed.

Lemma same_lt a a' b b' :
  same_float a a' -> same_float b b' -> PyFloat.lt a b = PyFloat.lt a' b'.
Proof.
  intros Ha Hb. destruct a, a'; cbn [same_float] in Ha; try contradiction;
    destruct b, b'; cbn [same_float] in Hb; try contradiction; try reflexivity.
  cbn [PyFloat.lt]. f_equal. now apply qle_bool_same.
Qed.

Lemma same_gt a a' b b' :
  same_float a a' -> same_float b b' -> PyFloat.gt a b = PyFloat.gt a' b'.
Proof. intros Ha Hb. unfold PyFloat.gt. now apply same_lt. Qed.

Lemma same_neg a a' : same_float a a' -> same_float (PyFloat.neg a) (PyFloat.neg a').
Proof.
  intros Ha. destruct a, a'; cbn [same_float] in Ha; try contradiction;
    cbn [PyFloat.neg same_float]; try exact I. now rewrite Ha.
Qed.

Lemma same_add a a' b b' :
  same_float a a' -> same_float b b' ->
  same_float (PyFloat.add a b) (PyFloat.add a' b').
Proof.
  intros Ha Hb. destruct a, a'; cbn [same_float] in Ha; try contradiction;
    destruct b, b'; cbn [same_float] in Hb; try contradiction;
    cbn [PyFloat.add same_float]; try exact I.
  now rewrite Ha, Hb.
Qed.

Lemma same_sub a a' b b' :
  same_float a a' -> same_float b b' ->
  same_float (PyFloat.sub a b) (PyFloat.sub a' b').
Proof. intros Ha Hb. unfold PyFloat.sub. apply same_add; [exact Ha|now apply same_neg]. Qed.

Lemma same_abs a a' : same_float a a' -> same_float (PyFloat.abs a) (PyFloat.abs a').
Proof.
  intros Ha. destruct a, a'; cbn [same_float] in Ha; try contradiction;
    cbn [PyFloat.abs same_float]; try exact I. now rewrite Ha.
Qed.

Lemma same_mul a a' b b' :
  same_float a a' -> same_float b b' ->
  same_float (PyFloat.mul a b) (PyFloat.mul a' b').
Proof.
  intros Ha Hb. destruct a, a'; cbn [same_float] in Ha; try contradiction;
    destruct b, b'; cbn [same_float] in Hb; try contradiction;
    cbn [PyFloat.mul same_float]; try exact I;
    try (now rewrite Ha, Hb);
    try (rewrite (sgn_same _ _ Ha); destruct (PyFloat.sgn _); exact I);
    try (rewrite (sgn_same _ _ Hb); destruct (PyFloat.sgn _); exact I).
Qed.

Lemma same_div a a' b b' :
  same_float a a' -> same_float b b' ->
  same_float (PyFloat.div a b) (PyFloat.div a' b').
Proof.
  intros Ha Hb. destruct a, a'; cbn [same_float] in Ha; try contradiction;
    destruct b, b'; cbn [same_float] in Hb; try contradiction;
    cbn [PyFloat.div same_float PyFloat.neg]; try exact I; try reflexivity;
    try (rewrite (sgn_same _ _ Hb); destruct (PyFloat.sgn _); exact I).
  rewrite (qeq_bool_same _ _ 0 0 Hb (Qeq_refl 0)).
  destruct (Qeq_bool q2 0); cbn [same_float]; [exact I|].
  now rewrite Ha, Hb.
Qed.

Lemma same_min a a' b b' :
  same_float a a' -> same_float b b' ->
  same_float (PyFloat.min a b) (PyFloat.min a' b').
Proof.
  intros Ha Hb. unfold PyFloat.min. rewrite (same_lt _ _ _ _ Hb Ha).
  now destruct (PyFloat.lt b' a').
Qed.

Lemma same_max a a' b b' :
  same_float a a' -> same_float b b' ->
  same_float (PyFloat.max a b) (PyFloat.max a' b').
Proof.
  intros Ha Hb. unfold PyFloat.max. rewrite (same_gt _ _ _ _ Hb Ha).
  now destruct (PyFloat.gt b' a').
Qed.

End SameFloat.

Module SameArray.
Import RoleSpec Vocabulary SameFloat.
Local Open Scope Q_scope.

Lemma same_nth r1 r2 i :
  Forall2 same_float r1 r2 -> same_float (nth i r1 NaN) (nth i r2 NaN).
Proof.
  intros H. revert i. induction H as [|a b r1 r2 Hab _ IH]; intros i.
  - destruct i; exact I.
  - destruct i; [exact Hab|apply IH].
Qed.

Lemma same_column d1 d2 i :
  same_table d1 d2 -> Forall2 same_float (Np.column d1 i) (Np.column d2 i).
Proof.
  intros [_ H]. unfold Np.column.
  induction H as [|r1 r2 l1 l2 Hr _ IH]; simpl; constructor;
    [now apply same_nth|exact IH].
Qed.

Lemma same_finite c1 c2 :
  Forall2 same_float c1 c2 -> Forall2 Qeq (Np.finite c1) (Np.finite c2).
Proof.
  induction 1 as [|a b c1 c2 Hab _ IH]; [constructor|].
  destruct a, b; cbn [same_float] in Hab; try contradiction;
    cbn [Np.finite]; [constructor; assumption|exact IH..].
Qed.

Lemma same_both_finite a1 a2 b1 b2 :
  Forall2 same_float a1 a2 -> Forall2 same_float b1 b2 ->
  Forall2 same_pair (Np.both_finite a1 b1) (Np.both_finite a2 b2).
Proof.
  intros Ha. revert b1 b2. induction Ha as [|x y a1 a2 Hxy _ IH]; intros b1 b2 Hb.
  - destruct b1, b2; constructor.
  - destruct Hb as [|u v b1 b2 Huv Hb].
    + destruct x, y; constructor.
    + destruct x, y; cbn [same_float] in Hxy; try contradiction;
        destruct u, v; cbn [same_float] in Huv; try contradiction;
        cbn [Np.both_finite]; try (apply IH; exact Hb).
      constructor; [split; assumption|apply IH; exact Hb].
Qed.

Lemma same_length {A B} (R : A -> B -> Prop) l1 l2 :
  Forall2 R l1 l2 -> List.length l1 = List.length l2.
Proof. induction 1; simpl; congruence. Qed.

Lemma same_filter_length {A B} (R : A -> B -> Prop) p1 p2 l1 l2 :
  (forall x y, R x y -> p1 x = p2 y) ->
  Forall2 R l1 l2 ->
  List.length (filter p1 l1) = List.length (filter p2 l2).
Proof.
  intros Hp. induction 1 as [|x y l1 l2 Hxy _ IH]; [reflexivity|].
  simpl. rewrite (Hp _ _ Hxy). destruct (p2 y); simpl; congruence.
Qed.

Lemma same_mean_bool {A B} (R : A -> B -> Prop) p1 p2 l1 l2 :
  (forall x y, R x y -> p1 x = p2 y) ->
  Forall2 R l1 l2 -> Np.mean_bool p1 l1 = Np.mean_bool p2 l2.
Proof.
  intros Hp H. unfold Np.mean_bool.
  now rewrite (same_filter_length R p1 p2 l1 l2 Hp H), (same_length R l1 l2 H).
Qed.

Lemma same_qmax a a' b b' : a == a' -> b == b' -> Np.qmax a b == Np.qmax a' b'.
Proof.
  intros Ha Hb. unfold Np.qmax. rewrite (qle_bool_same _ _ _ _ Ha Hb).
  now destruct (Qle_bool a' b').
Qed.

Lemma same_qmin a a' b b' : a == a' -> b == b' -> Np.qmin a b == Np.qmin a' b'.
Proof.
  intros Ha Hb. unfold Np.qmin. rewrite (qle_bool_same _ _ _ _ Hb Ha).
  now destruct (Qle_bool b' a').
Qed.

Lemma same_fold (f : Q -> Q -> Q) l1 l2 x1 x2 :
  (forall a a' b b', a == a' -> b == b' -> f a b == f a' b') ->
  Forall2 Qeq l1 l2 -> x1 == x2 -> fold_left f l1 x1 == fold_left f l2 x2.
Proof.
  intros Hf H. revert x1 x2. induction H as [|a b l1 l2 Hab _ IH]; intros x1 x2 Hx.
  - exact Hx.
  - simpl. apply IH. now apply Hf.
Qed.

Lemma same_amax l1 l2 : Forall2 Qeq l1 l2 -> Np.amax l1 == Np.amax l2.
Proof.
  destruct 1 as [|a b l1 l2 Hab H]; [reflexivity|].
  apply same_fold; [apply same_qmax|exact H|exact Hab].
Qed.

Lemma same_amin l1 l2 : Forall2 Qeq l1 l2 -> Np.amin l1 == Np.amin l2.
Proof.
  destruct 1 as [|a b l1 l2 Hab H]; [reflexivity|].
  apply same_fold; [apply same_qmin|exact H|exact Hab].
Qed.

Lemma same_diff l1 l2 : Forall2 Qeq l1 l2 -> Forall2 Qeq (Np.diff l1) (Np.diff l2).
Proof.
  induction 1 as [|a b l1 l2 Hab H IH]; [constructor|].
  destruct H as [|c d l1 l2 Hcd H]; [constructor|].
  cbn [Np.diff]. constructor; [lra|exact IH].
Qed.

Lemma same_sum l1 l2 : Forall2 Qeq l1 l2 -> Np.sum l1 == Np.sum l2.
Proof.
  intros H. unfold Np.sum. apply same_fold; [|exact H|reflexivity].
  intros a a' b b' Ha Hb. lra.
Qed.

Lemma same_mean l1 l2 : Forall2 Qeq l1 l2 -> Np.mean l1 == Np.mean l2.
Proof.
  intros H. unfold Np.mean.
  now rewrite (same_sum _ _ H), (same_length _ _ _ H).
Qed.

Lemma same_deviations m1 m2 l1 l2 :
  m1 == m2 -> Forall2 Qeq l1 l2 ->
  Forall2 Qeq (map (fun v => (v - m1) * (v - m1)) l1)
              (map (fun v => (v - m2) * (v - m2)) l2).
Proof.
  intros Hm. induction 1 as [|a b l1 l2 Hab _ IH]; [constructor|].
  simpl. constructor; [|exact IH]. apply Qmult_comp; lra.
Qed.

Lemma same_var l1 l2 : Forall2 Qeq l1 l2 -> Np.var l1 == Np.var l2.
Proof.
  intros H. unfold Np.var. apply same_mean.
  apply same_deviations; [now apply same_mean|exact H].
Qed.

Lemma same_map_fst l1 l2 :
  Forall2 same_pair l1 l2 -> Forall2 Qeq (map fst l1) (map fst l2).
Proof. induction 1 as [|p q l1 l2 [H _] _ IH]; simpl; constructor; assumption. Qed.

Lemma same_map_snd l1 l2 :
  Forall2 same_pair l1 l2 -> Forall2 Qeq (map snd l1) (map snd l2).
Proof. induction 1 as [|p q l1 l2 [_ H] _ IH]; simpl; constructor; assumption. Qed.

Lemma same_allclose rtol atol l1 l2 :
  Forall2 same_pair l1 l2 ->
  Np.allclose rtol atol l1 = Np.allclose rtol atol l2.
Proof.
  unfold Np.allclose.
  induction 1 as [|[a b] [a' b'] l1 l2 [Ha Hb] _ IH]; [reflexivity|].
  simpl in Ha, Hb. cbn [forallb]. rewrite IH. f_equal.
  apply qle_bool_same; now rewrite ?Ha, ?Hb.
Qed.

Lemma same_filter_notnan c1 c2 :
  Forall2 same_float c1 c2 ->
  Forall2 same_float (filter (fun v => negb (PyFloat.isnan v)) c1)
                     (filter (fun v => negb (PyFloat.isnan v)) c2).
Proof.
  induction 1 as [|a b c1 c2 Hab _ IH]; [constructor|].
  simpl. rewrite (same_isnan _ _ Hab).
  destruct (PyFloat.isnan b); simpl; [exact IH|now constructor].
Qed.

Lemma same_forallb_isfinite c1 c2 :
  Forall2 same_float c1 c2 ->
  forallb PyFloat.isfinite c1 = forallb PyFloat.isfinite c2.
Proof.
  induction 1 as [|a b c1 c2 Hab _ IH]; [reflexivity|].
  simpl. now rewrite (same_isfinite _ _ Hab), IH.
Qed.

Lemma same_nanstd_key c1 c2 :
  Forall2 same_float c1 c2 ->
  same_float (Np.nanstd_key c1) (Np.nanstd_key c2).
Proof.
  intros H. unfold Np.nanstd_key.
  pose proof (same_filter_notnan _ _ H) as Hk.
  destruct Hk as [|a b k1 k2 Hab Hk]; [exact I|].
  rewrite (same_forallb_isfinite (a :: k1) (b :: k2)) by now constructor.
  destruct (forallb PyFloat.isfinite (b :: k2)); [|exact I].
  cbn [same_float]. apply same_var, same_finite. now constructor.
Qed.

End SameArray.

Module SameRoles.
Import PyStr Plot RoleSpec Vocabulary SameFloat SameArray.
Local Open Scope Q_scope.

Lemma same_monotonic f1 f2 :
  Forall2 Qeq f1 f2 -> monotonic f1 = monotonic f2.
Proof.
  intros H. unfold monotonic. pose proof (same_diff _ _ H) as Hd.
  destruct Hd as [|a b d1 d2 Hab Hd]; [reflexivity|].
  assert (Hc : Forall2 Qeq (a :: d1) (b :: d2)) by now constructor.
  f_equal; apply (same_mean_bool Qeq); try exact Hc; intros x y Hxy;
    apply qle_bool_same; lra.
Qed.

Lemma same_closeness s1 s2 e1 e2 lo1 lo2 hi1 hi2 :
  same_bound s1 s2 -> same_bound e1 e2 -> lo1 == lo2 -> hi1 == hi2 ->
  same_float (closeness s1 e1 lo1 hi1) (closeness s2 e2 lo2 hi2).
Proof.
  intros Hs He Hlo Hhi. unfold closeness, expected_range.
  destruct s1 as [a1|], s2 as [a2|]; cbn [same_bound] in Hs; try contradiction;
    [|exact (Qeq_refl 0)].
  destruct e1 as [b1|], e2 as [b2|]; cbn [same_bound] in He; try contradiction;
    [|exact (Qeq_refl 0)].
  pose proof (same_min _ _ _ _ Hs He) as Hmin.
  pose proof (same_max _ _ _ _ Hs He) as Hmax.
  rewrite (same_gt _ _ _ _ Hmax Hmin).
  destruct (PyFloat.gt (PyFloat.max a2 b2) (PyFloat.min a2 b2));
    [|exact (Qeq_refl 0)].
  apply same_sub; [exact (Qeq_refl 1)|].
  apply same_div.
  - apply same_add; apply same_abs; apply same_sub; assumption.
  - apply same_mul; [exact (Qeq_refl 2)|].
    apply same_max; [now apply same_sub|exact (Qeq_refl _)].
Qed.

Section Same.
Variables d1 d2 : ndarray.
Variable hl : list string.
Variables s1 s2 e1 e2 : option pyfloat.
Hypothesis Hdata : same_table d1 d2.
Hypothesis Hstart : same_bound s1 s2.
Hypothesis Hstop : same_bound e1 e2.

Lemma same_column_score i :
  same_score (column_score d1 hl s1 e1 i) (column_score d2 hl s2 e2 i).
Proof using Hdata Hstart Hstop.
  unfold column_score.
  pose proof (same_finite _ _ (same_column d1 d2 i Hdata)) as Hf.
  rewrite (same_length _ _ _ Hf).
  destruct (Nat.ltb _ 3); [exact I|].
  pose proof (same_amax _ _ Hf) as Hmax. pose proof (same_amin _ _ Hf) as Hmin.
  rewrite (qle_bool_same (1 # 1000000) (1 # 1000000)
             (Np.amax (Np.finite (Np.column d1 i)) - Np.amin (Np.finite (Np.column d1 i)))
             (Np.amax (Np.finite (Np.column d2 i)) - Np.amin (Np.finite (Np.column d2 i))))
    by lra.
  destruct (negb _); [exact I|]. cbn [same_score].
  apply same_add; [|now apply same_closeness].
  cbn [same_float]. rewrite (same_monotonic _ _ Hf).
  assert (Hr : Np.qmin ((Np.amax (Np.finite (Np.column d1 i))
                         - Np.amin (Np.finite (Np.column d1 i))) / 180) 1
               == Np.qmin ((Np.amax (Np.finite (Np.column d2 i))
                            - Np.amin (Np.finite (Np.column d2 i))) / 180) 1).
  { apply same_qmin; [|reflexivity]. apply Qmult_comp; [lra|reflexivity]. }
  lra.
Qed.

Lemma same_x_step b1 b2 i :
  same_best b1 b2 ->
  same_best (x_step d1 hl s1 e1 b1 i) (x_step d2 hl s2 e2 b2 i).
Proof using Hdata Hstart Hstop.
  intros [Hi Hb]. unfold x_step. pose proof (same_column_score i) as Hs.
  destruct (column_score d1 hl s1 e1 i) as [x|],
           (column_score d2 hl s2 e2 i) as [y|];
    cbn [same_score] in Hs; try contradiction; [|now split].
  rewrite (same_gt _ _ _ _ Hs Hb).
  destruct (PyFloat.gt y (snd b2)); split; assumption || reflexivity.
Qed.

Lemma same_x_fold l b1 b2 :
  same_best b1 b2 ->
  same_best (fold_left (x_step d1 hl s1 e1) l b1)
            (fold_left (x_step d2 hl s2 e2) l b2).
Proof using Hdata Hstart Hstop.
  revert b1 b2; induction l as [|i l IH]; intros b1 b2 Hb; [exact Hb|].
  simpl. apply IH. now apply same_x_step.
Qed.

Lemma same_select_x x_col :
  _select_x_column d1 hl s1 e1 x_col = _select_x_column d2 hl s2 e2 x_col.
Proof using Hdata Hstart Hstop.
  unfold _select_x_column, in_range, x_scan.
  destruct Hdata as [Hn _]. rewrite <- Hn.
  pose proof (same_x_fold (seq 0 (shape1 d1)) (None, NInf) (None, NInf)
                (conj eq_refl I)) as [Hf _].
  now rewrite Hf.
Qed.

Lemma same_shared x_idx idx :
  Forall2 same_pair (shared d1 x_idx idx) (shared d2 x_idx idx).
Proof using Hdata.
  unfold shared. apply same_both_finite; now apply same_column.
Qed.

Lemma same_candidate x_idx idx :
  match candidate d1 hl x_idx idx, candidate d2 hl x_idx idx with
  | Some c1, Some c2 => same_entry c1 c2
  | None, None => True
  | _, _ => False
  end.
Proof using Hdata.
  unfold candidate, is_duplicate.
  destruct (Nat.eqb idx x_idx); [exact I|].
  pose proof (same_shared x_idx idx) as Hp.
  rewrite (same_length _ _ _ Hp).
  destruct (Nat.ltb _ 2); [exact I|].
  rewrite (same_allclose _ _ _ _ Hp).
  destruct (Np.allclose _ _ _); [exact I|].
  pose proof (same_map_fst _ _ Hp) as Hv.
  pose proof (same_amax _ _ Hv) as Hmax. pose proof (same_amin _ _ Hv) as Hmin.
  rewrite (qle_bool_same (1 # 1000000000000) (1 # 1000000000000)
             (Np.amax (map fst (shared d1 x_idx idx))
              - Np.amin (map fst (shared d1 x_idx idx)))
             (Np.amax (map fst (shared d2 x_idx idx))
              - Np.amin (map fst (shared d2 x_idx idx))))
    by lra.
  destruct (negb _); [exact I|].
  destruct (is_geometry hl idx); [exact I|].
  split; [reflexivity|]. cbn [snd same_float]. now apply same_var.
Qed.

Lemma same_m_step x_idx c1 c2 idx :
  Forall2 same_entry c1 c2 ->
  Forall2 same_entry (m_step d1 hl x_idx c1 idx) (m_step d2 hl x_idx c2 idx).
Proof using Hdata.
  intros Hc. unfold m_step. pose proof (same_candidate x_idx idx) as H.
  destruct (candidate d1 hl x_idx idx), (candidate d2 hl x_idx idx);
    try contradiction; [|exact Hc].
  apply Forall2_app; [exact Hc|]. now constructor.
Qed.

Lemma same_scan_candidates x_idx :
  Forall2 same_entry (scan_candidates d1 hl x_idx) (scan_candidates d2 hl x_idx).
Proof using Hdata.
  unfold scan_candidates. destruct Hdata as [Hn _]. rewrite <- Hn.
  assert (G : forall l c1 c2,
             Forall2 same_entry c1 c2 ->
             Forall2 same_entry (fold_left (m_step d1 hl x_idx) l c1)
                                (fold_left (m_step d2 hl x_idx) l c2)).
  { induction l as [|i l IH]; intros c1 c2 Hc; [exact Hc|].
    simpl. apply IH. now apply same_m_step. }
  apply G. constructor.
Qed.

Lemma same_with_fallback x_idx c1 c2 :
  Forall2 same_entry c1 c2 ->
  Forall2 same_entry (with_fallback d1 x_idx c1) (with_fallback d2 x_idx c2).
Proof using Hdata.
  intros Hc. unfold with_fallback, fallback_index.
  destruct Hc as [|a b c1 c2 Hab Hc]; [|now constructor].
  destruct Hdata as [Hn _]. rewrite <- Hn.
  destruct (_ && _ && _); [|constructor].
  constructor; [|constructor]. split; [reflexivity|].
  cbn [snd]. apply same_nanstd_key. now apply same_column.
Qed.

End Same.

Lemma same_insert_desc c1 c2 l1 l2 :
  same_entry c1 c2 -> Forall2 same_entry l1 l2 ->
  Forall2 same_entry (insert_desc c1 l1) (insert_desc c2 l2).
Proof.
  intros Hc. induction 1 as [|a b l1 l2 Hab Hl IH]; simpl.
  - constructor; [exact Hc|constructor].
  - rewrite (same_gt _ _ _ _ (proj2 Hab) (proj2 Hc)).
    destruct (PyFloat.gt (snd b) (snd c2)).
    + constructor; [exact Hab|exact IH].
    + constructor; [exact Hc|]. constructor; [exact Hab|exact Hl].
Qed.

Lemma same_sort_desc l1 l2 :
  Forall2 same_entry l1 l2 -> Forall2 same_entry (sort_desc l1) (sort_desc l2).
Proof.
  induction 1 as [|a b l1 l2 Hab _ IH]; [constructor|].
  simpl. now apply same_insert_desc.
Qed.

Lemma same_indices l1 l2 :
  Forall2 same_entry l1 l2 -> map fst l1 = map fst l2.
Proof.
  induction 1 as [|a b l1 l2 [Hab _] _ IH]; [reflexivity|].
  simpl. now rewrite Hab, IH.
Qed.

Lemma same_select_measure d1 d2 hl y_col x_idx :
  same_table d1 d2 ->
  _select_measure_columns d1 hl y_col x_idx
  = _select_measure_columns d2 hl y_col x_idx.
Proof.
  intros Hdata. unfold _select_measure_columns, in_range.
  rewrite <- (proj1 Hdata).
  destruct y_col as [c|]; [destruct (_ && _); [reflexivity|]|];
    apply same_indices, same_sort_desc, same_with_fallback; try exact Hdata;
    now apply same_scan_candidates.
Qed.

End SameRoles.

Module DeterminismClaim.
Import PyStr Loader Plot RoleSpec Vocabulary SameFloat SameArray SameRoles Examples.

(** The roles [plot_csv] works with are those of [infer_roles]. *)
Lemma plot_csv_roles files path data x_col y_col semilogy meta p :
  _load_numeric_table files path = Ok data ->
  plot_csv files path x_col y_col semilogy meta = Ok p ->
  mk_roles (plot_x_idx p) (plot_measure_indices p)
  = infer_roles data
      (match meta with Some m => header_tokens m | None => [] end)
      (match meta with Some m => scatter_start m | None => None end)
      (match meta with Some m => scatter_end m | None => None end)
      x_col y_col.
Proof.
  intros Hload Hplot. unfold plot_csv in Hplot. rewrite Hload in Hplot.
  unfold infer_roles.
  destruct (_select_measure_columns _ _ _ _) as [|m ms]; [discriminate|].
  destruct (map _ (filter _ _)); [discriminate|].
  destruct (flat_map _ _); [discriminate|].
  now injection Hplot as <-.
Qed.

(** C8: the role inference is a function of its inputs, and of the numbers
    in them only.  Two invocations on the same table (as many columns, the
    same floats cell by cell), the same header tokens, the same
    expected-range hint and the same overrides return the same axis column
    and the same ordered list of measurement columns; in particular two
    invocations on identical inputs do. *)
Theorem role_inference_is_deterministic
    (d1 d2 : ndarray) (tokens : list string)
    (start1 start2 stop1 stop2 : option pyfloat) (x_col y_col : option Z) :
  same_table d1 d2 ->
  same_bound start1 start2 ->
  same_bound stop1 stop2 ->
  infer_roles d1 tokens start1 stop1 x_col y_col
  = infer_roles d2 tokens start2 stop2 x_col y_col.
Proof.
  intros Hdata Hstart Hstop. unfold infer_roles.
  rewrite <- (proj1 Hdata).
  rewrite (same_select_x d1 d2 _ start1 start2 stop1 stop2 Hdata Hstart Hstop).
  f_equal. now apply same_select_measure.
Qed.

Lemma role_inference_is_deterministic_witness :
  same_table phi_data phi_data_again
  /\ infer_roles phi_data ["Theta_r"; "Phi"] (Some (Fin 1)) (Some (Fin 3)) None None
     = infer_roles phi_data_again ["Theta_r"; "Phi"]
         (Some (Fin (2 # 2))) (Some (Fin (6 # 2))) None None
  /\ infer_roles phi_data ["Theta_r"; "Phi"] (Some (Fin 1)) (Some (Fin 3)) None None
     = mk_roles 0 [1%nat].
Proof.
  assert (T : same_table phi_data phi_data_again).
  { split; [reflexivity|]. repeat constructor. }
  split; [exact T|]. split; [|vm_compute; reflexivity].
  apply (role_inference_is_deterministic phi_data phi_data_again);
    [exact T|reflexivity|reflexivity].
Defined.

End DeterminismClaim.

(* ===================================================================== *)
(** * Further properties of the inference and of the run action *)
(* ===================================================================== *)

From Stdlib Require Import Sorting.Permutation.

(** ** The measurement selection: what is kept, and in which order *)

Module SelectionFacts.
Import PyStr Plot Vocabulary SelectionSpec MeasureFacts.

Lemma candidate_passes data hl x_idx idx :
  candidate data hl x_idx idx = Some (idx, Fin (spread_key data x_idx idx))
  <-> passes data hl x_idx idx.
Proof.
  unfold candidate, passes, spread_key, shared_vals. split.
  - intros H.
    destruct (Nat.eqb idx x_idx) eqn:E1; [discriminate|].
    destruct (Nat.ltb _ 2) eqn:E2; [discriminate|].
    destruct (is_duplicate data x_idx idx); [discriminate|].
    destruct (Qle_bool _ _) eqn:E3; [|discriminate].
    destruct (is_geometry hl idx); [discriminate|].
    apply Nat.eqb_neq in E1. apply Nat.ltb_ge in E2.
    apply Qle_bool_iff in E3. auto.
  - intros (H1 & H2 & H3 & H4 & H5).
    apply Nat.eqb_neq in H1. apply Nat.ltb_ge in H2.
    apply Qle_bool_iff in H4. now rewrite H1, H2, H3, H4, H5.
Qed.

Lemma candidate_some data hl x_idx idx c :
  candidate data hl x_idx idx = Some c ->
  c = (idx, Fin (spread_key data x_idx idx)).
Proof.
  unfold candidate, spread_key, shared_vals. intros H.
  repeat match type of H with
         | (if ?b then _ else _) = _ => destruct b; try discriminate
         end.
  now inversion H.
Qed.

Lemma candidate_some_passes data hl x_idx idx c :
  candidate data hl x_idx idx = Some c -> passes data hl x_idx idx.
Proof.
  intros H. apply candidate_passes.
  now rewrite <- (candidate_some _ _ _ _ _ H).
Qed.

(** The indices of the candidate list are the passing columns, in column
    order. *)
Lemma scan_indices data hl x_idx l :
  map fst (flat_map (entry data hl x_idx) l)
  = filter (fun i => match candidate data hl x_idx i with
                     | Some _ => true
                     | None => false
                     end) l.
Proof.
  induction l as [|i l IH]; [reflexivity|].
  cbn [flat_map filter]. rewrite map_app, IH. unfold entry.
  destruct (candidate data hl x_idx i) as [c|] eqn:E; [|reflexivity].
  rewrite (candidate_some _ _ _ _ _ E). reflexivity.
Qed.

Lemma in_scan_iff data hl x_idx c :
  In c (scan_candidates data hl x_idx)
  <-> (fst c < shape1 data)%nat /\ candidate data hl x_idx (fst c) = Some c.
Proof.
  rewrite scan_candidates_flat, in_flat_map. unfold entry. split.
  - intros (i & Hi & Hc).
    destruct (candidate data hl x_idx i) as [c'|] eqn:E; [|destruct Hc].
    destruct Hc as [<-|[]]. rewrite (candidate_fst _ _ _ _ _ E).
    apply in_seq in Hi. split; [lia|exact E].
  - intros [Hlt Hc]. exists (fst c). split; [apply in_seq; lia|].
    rewrite Hc. now left.
Qed.

Lemma sort_desc_permutation l : Permutation (sort_desc l) l.
Proof.
  induction l as [|c l IH]; [constructor|].
  cbn [sort_desc fold_right]. fold (sort_desc l).
  assert (G : forall m, Permutation (insert_desc c m) (c :: m)).
  { induction m as [|d m IHm]; [reflexivity|].
    cbn [insert_desc]. destruct (PyFloat.gt (snd d) (snd c)); [|reflexivity].
    rewrite IHm. apply perm_swap. }
  rewrite G. now constructor.
Qed.

End SelectionFacts.

Module SelectionExtras.
Import PyStr Loader Plot Vocabulary SelectionSpec MeasureFacts SelectionFacts
  AxisFacts LoaderSpec LoaderFacts Examples.

(** When at least one column passes the tests of the candidate loop, the
    selection made without a measurement override is the set of passing
    columns, each listed once. *)
Lemma selection_iff_passes data header_lower x_idx :
  (exists i, (i < shape1 data)%nat /\ passes data header_lower x_idx i) ->
  (forall idx,
      In idx (_select_measure_columns data header_lower None x_idx)
      <-> (idx < shape1 data)%nat /\ passes data header_lower x_idx idx)
  /\ NoDup (_select_measure_columns data header_lower None x_idx).
Proof.
  intros (i & Hi & Hp).
  assert (Hin : In (i, Fin (spread_key data x_idx i))
                   (scan_candidates data header_lower x_idx)).
  { apply in_scan_iff. split; [exact Hi|]. now apply candidate_passes. }
  unfold _select_measure_columns, in_range, with_fallback.
  destruct (scan_candidates data header_lower x_idx) as [|c cs] eqn:E;
    [destruct Hin|].
  rewrite <- E. clear Hin. split.
  - intros idx. rewrite in_map_iff. split.
    + intros (d & <- & Hd). apply (proj1 (in_sort_desc _ _)) in Hd.
      apply in_scan_iff in Hd as [Hlt Hd]. split; [exact Hlt|].
      now apply (candidate_some_passes _ _ _ _ d).
    + intros [Hlt Hpass]. exists (idx, Fin (spread_key data x_idx idx)).
      split; [reflexivity|]. apply in_sort_desc, in_scan_iff.
      split; [exact Hlt|]. now apply candidate_passes.
  - eapply Permutation_NoDup.
    + apply Permutation_map. symmetry. apply sort_desc_permutation.
    + rewrite scan_candidates_flat, scan_indices.
      apply NoDup_filter, seq_NoDup.
Qed.

Lemma surely_passes_passes data hl x_idx idx :
  surely_passes data hl x_idx idx -> passes data hl x_idx idx.
Proof.
  intros (H1 & H2 & H3 & H4 & H5).
  split; [exact H1|]. split; [exact H2|]. split; [|split; [lra|exact H5]].
  unfold is_duplicate, Np.allclose.
  apply Exists_exists in H3 as ([v x] & Hin & Hfar).
  destruct (forallb _ _) eqn:F; [|reflexivity].
  rewrite forallb_forall in F. specialize (F _ Hin).
  apply Qle_bool_iff in F. pose proof (Qabs_nonneg x). lra.
Qed.

Lemma passes_may_pass data hl x_idx idx :
  passes data hl x_idx idx -> may_pass data hl x_idx idx.
Proof.
  intros (H1 & H2 & H3 & H4 & H5).
  split; [exact H1|]. split; [exact H2|]. split; [|split; [lra|exact H5]].
  intros Hw.
  assert (Hd : is_duplicate data x_idx idx = true).
  { unfold is_duplicate, Np.allclose. apply forallb_forall. intros [v x] Hin.
    unfold MeasureSpec.well_within_tolerance in Hw.
    rewrite Forall_forall in Hw. specialize (Hw _ Hin). cbv beta iota in Hw.
    apply Qle_bool_iff. pose proof (Qabs_nonneg x). lra. }
  congruence.
Qed.

(** X2: when at least one column passes the tests of the candidate loop
    with room to spare, the selection made without a measurement override
    holds every column that does, and only columns that the tests do not
    rule out, each listed once: the fallback adds nothing, and no column
    is selected that is the axis, shares fewer than two finite rows with
    it, is a duplicate of it, is flat, or has a geometry header.  The
    verdict on a column at the very edge of the tolerance or of the spread
    test depends on the rounding of binary64 and is left open. *)
Theorem measures_are_the_passing_columns
    (data : ndarray) (header_lower : list string) (x_idx : nat) :
  (exists i, (i < shape1 data)%nat /\ surely_passes data header_lower x_idx i) ->
  (forall idx, (idx < shape1 data)%nat ->
               surely_passes data header_lower x_idx idx ->
               In idx (_select_measure_columns data header_lower None x_idx))
  /\ (forall idx,
        In idx (_select_measure_columns data header_lower None x_idx) ->
        (idx < shape1 data)%nat /\ may_pass data header_lower x_idx idx)
  /\ NoDup (_select_measure_columns data header_lower None x_idx).
Proof.
  intros (i & Hi & Hp).
  destruct (selection_iff_passes data header_lower x_idx) as [Hiff Hnd].
  { exists i. split; [exact Hi|now apply surely_passes_passes]. }
  split; [|split; [|exact Hnd]].
  - intros idx Hlt Hs. apply Hiff. split; [exact Hlt|].
    now apply surely_passes_passes.
  - intros idx Hin. apply Hiff in Hin as [Hlt Hpass].
    split; [exact Hlt|now apply passes_may_pass].
Qed.

Lemma measures_are_the_passing_columns_witness :
  surely_passes wide_data ["theta_r"; "s11"; "s12"] 0 1
  /\ _select_measure_columns wide_data ["theta_r"; "s11"; "s12"] None 0
     = [2%nat; 1%nat]
  /\ NoDup (_select_measure_columns wide_data ["theta_r"; "s11"; "s12"] None 0).
Proof.
  assert (P : surely_passes wide_data ["theta_r"; "s11"; "s12"] 0 1).
  { split; [discriminate|]. split; [simpl; lia|]. split.
    - apply Exists_cons_hd. apply Qle_bool_iff. reflexivity.
    - split; [apply Qle_bool_iff; reflexivity|reflexivity]. }
  split; [exact P|]. split; [vm_compute; reflexivity|].
  apply (measures_are_the_passing_columns wide_data
           ["theta_r"; "s11"; "s12"] 0).
  exists 1%nat. split; [simpl; lia|exact P].
Defined.

(** Every selected column is a column of the table. *)
Lemma measures_in_range data hl y_col x_idx :
  Forall (fun idx => (idx < shape1 data)%nat)
         (_select_measure_columns data hl y_col x_idx).
Proof.
  apply Forall_forall. intros idx Hin.
  unfold _select_measure_columns in Hin.
  destruct (in_range data y_col) as [c|] eqn:R.
  - destruct Hin as [<-|[]]. unfold in_range in R.
    destruct y_col as [z|]; [|discriminate].
    destruct ((0 <=? z)%Z && (z <? Z.of_nat (shape1 data))%Z) eqn:B;
      [|discriminate].
    injection R as <-. apply andb_prop in B as [B1 B2].
    apply Z.leb_le in B1. apply Z.ltb_lt in B2. lia.
  - apply in_map_iff in Hin as (d & <- & Hd).
    apply (proj1 (in_sort_desc _ _)) in Hd. unfold with_fallback in Hd.
    destruct (scan_candidates data hl x_idx) as [|c cs] eqn:E.
    + destruct (_ && _ && _) eqn:B; [|destruct Hd].
      destruct Hd as [<-|[]]. cbn [fst].
      apply andb_prop in B as [B _]. apply andb_prop in B as [B1 B2].
      apply Z.leb_le in B1. apply Z.ltb_lt in B2. lia.
    + rewrite <- E in Hd. now apply in_scan_iff in Hd.
Qed.

(** With two columns or more something is always selected. *)
Lemma measures_nonempty data hl y_col x_idx :
  (2 <= shape1 data)%nat ->
  _select_measure_columns data hl y_col x_idx <> [].
Proof.
  intros Hn. unfold _select_measure_columns.
  destruct (in_range data y_col); [discriminate|].
  unfold with_fallback.
  destruct (scan_candidates data hl x_idx) as [|c cs] eqn:E.
  - unfold fallback_index.
    destruct ((Z.of_nat (shape1 data) - 1 =? Z.of_nat x_idx)%Z
              && (0 <? Z.of_nat (shape1 data) - 1)%Z) eqn:B.
    + apply andb_prop in B as [B1 B2]. apply Z.eqb_eq in B1.
      assert (G : (0 <=? Z.of_nat (shape1 data) - 1 - 1)%Z
                  && (Z.of_nat (shape1 data) - 1 - 1 <? Z.of_nat (shape1 data))%Z
                  && negb (Z.of_nat (shape1 data) - 1 - 1 =? Z.of_nat x_idx)%Z
                  = true).
      { rewrite !andb_true_iff, negb_true_iff.
        repeat split; [apply Z.leb_le|apply Z.ltb_lt|apply Z.eqb_neq]; lia. }
      rewrite G. discriminate.
    + assert (G : (0 <=? Z.of_nat (shape1 data) - 1)%Z
                  && (Z.of_nat (shape1 data) - 1 <? Z.of_nat (shape1 data))%Z
                  && negb (Z.of_nat (shape1 data) - 1 =? Z.of_nat x_idx)%Z
                  = true).
      { rewrite !andb_true_iff, negb_true_iff.
        apply andb_false_iff in B.
        rewrite Z.eqb_neq, Z.ltb_ge in B.
        repeat split; [apply Z.leb_le|apply Z.ltb_lt|apply Z.eqb_neq]; lia. }
      rewrite G. discriminate.
  - intros H. apply (f_equal (@List.length nat)) in H.
    rewrite length_map in H.
    rewrite (Permutation_length (sort_desc_permutation (c :: cs))) in H.
    discriminate.
Qed.

Lemma loaded_table_has_a_column text data :
  load_text text = Ok data -> (1 <= shape1 data)%nat /\ (1 <= shape0 data)%nat.
Proof.
  intros H. apply load_text_ok in H as [Hne ->].
  unfold table_of_rows; cbn [shape0 shape1].
  rewrite max_len_spec, length_map.
  destruct (data_lines text) as [|raw lines] eqn:E; [congruence|].
  split; [|simpl; lia].
  assert (Hn : numeric_line raw = true).
  { apply (data_lines_numeric text). rewrite E. now left. }
  apply numeric_line_has_token in Hn.
  cbn [map list_max fold_right]. rewrite length_line_values. lia.
Qed.

Lemma load_via_filesystem files path data :
  _load_numeric_table files path = Ok data ->
  exists text, files !! path = Some text /\ load_text text = Ok data.
Proof.
  unfold _load_numeric_table. destruct (files !! path) as [text|]; [|discriminate].
  eauto.
Qed.

Lemma fold_qmin_below l a : fold_left Np.qmin l a <= a.
Proof.
  revert a; induction l as [|b l IH]; intros a; [simpl; lra|].
  simpl. eapply Qle_trans; [apply IH|].
  unfold Np.qmin. destruct (Qle_bool b a) eqn:E; [now apply Qle_bool_iff|lra].
Qed.

Lemma fold_qmax_above l a : a <= fold_left Np.qmax l a.
Proof.
  revert a; induction l as [|b l IH]; intros a; [simpl; lra|].
  simpl. eapply Qle_trans; [|apply IH].
  unfold Np.qmax. destruct (Qle_bool a b) eqn:E; [now apply Qle_bool_iff|lra].
Qed.

Lemma amin_le_amax l : Np.amin l <= Np.amax l.
Proof.
  destruct l as [|x l]; [simpl; lra|].
  cbn [Np.amin Np.amax].
  eapply Qle_trans; [apply fold_qmin_below|apply fold_qmax_above].
Qed.

(** X3: whatever [plot_csv] draws, it stays inside the table: the axis
    column and every selected column are columns of the table, the drawn
    columns are selected columns, at least one column is drawn, and the
    lower x bound is not above the upper one. *)
Theorem plot_stays_inside_the_table
    (files : filesystem) (path : string) (data : ndarray)
    (x_col y_col : option Z) (semilogy : bool) (meta : option metadata)
    (p : plot) :
  _load_numeric_table files path = Ok data ->
  plot_csv files path x_col y_col semilogy meta = Ok p ->
  (plot_x_idx p < shape1 data)%nat
  /\ Forall (fun idx => (idx < shape1 data)%nat) (plot_measure_indices p)
  /\ incl (plot_valid_indices p) (plot_measure_indices p)
  /\ plot_valid_indices p <> []
  /\ plot_xmin p <= plot_xmax p.
Proof.
  intros Hload Hplot.
  destruct (load_via_filesystem _ _ _ Hload) as (text & _ & Htext).
  destruct (loaded_table_has_a_column _ _ Htext) as [Hcols _].
  unfold plot_csv in Hplot. rewrite Hload in Hplot.
  set (hl := make_header_lower _ _) in Hplot.
  set (x_idx := _select_x_column _ _ _ _ _) in Hplot.
  assert (Hx : (x_idx < shape1 data)%nat) by (apply select_x_in_range; lia).
  pose proof (measures_in_range data hl y_col x_idx) as Hm.
  destruct (_select_measure_columns data hl y_col x_idx) as [|m ms] eqn:Em;
    [discriminate|].
  remember (filter (has_shared_rows data x_idx) (m :: ms)) as valid eqn:Ev.
  destruct valid as [|v vs]; [discriminate|]. cbn [map] in Hplot.
  destruct (flat_map _ (v :: vs)) as [|x xs] eqn:Ex; [discriminate|].
  injection Hplot as <-.
  cbn [plot_x_idx plot_measure_indices plot_valid_indices plot_xmin plot_xmax].
  split; [exact Hx|]. split; [exact Hm|]. split.
  - intros i Hi. rewrite Ev in Hi. now apply filter_In in Hi.
  - split; [discriminate|apply (amin_le_amax (x :: xs))].
Qed.

Lemma plot_stays_inside_the_table_witness :
  _load_numeric_table (disk phi_lines) csv_path = Ok phi_data
  /\ plot_csv (disk phi_lines) csv_path None None true (Some phi_meta)
     = Ok (mk_plot 0 [1%nat] [1%nat] Log 1 3)
  /\ (0 < shape1 phi_data)%nat.
Proof.
  assert (L : _load_numeric_table (disk phi_lines) csv_path = Ok phi_data)
    by (vm_compute; reflexivity).
  assert (P : plot_csv (disk phi_lines) csv_path None None true (Some phi_meta)
              = Ok (mk_plot 0 [1%nat] [1%nat] Log 1 3))
    by (vm_compute; reflexivity).
  split; [exact L|]. split; [exact P|].
  exact (proj1 (plot_stays_inside_the_table (disk phi_lines) csv_path phi_data
                  None None true (Some phi_meta) _ L P)).
Defined.

(** X4: a table with two columns or more never meets the
    no-measurement-columns error, with or without overrides: together with
    the single-column case, that error is raised exactly for the tables of
    one column (when no usable measurement override is given). *)
Theorem two_columns_always_select
    (files : filesystem) (path : string) (data : ndarray)
    (x_col y_col : option Z) (semilogy : bool) (meta : option metadata) :
  _load_numeric_table files path = Ok data ->
  (2 <= shape1 data)%nat ->
  plot_csv files path x_col y_col semilogy meta
  <> Raise (ValueError "No measurement columns available for plotting.").
Proof.
  intros Hload Hn. unfold plot_csv. rewrite Hload.
  set (hl := make_header_lower _ _).
  set (x_idx := _select_x_column _ _ _ _ _).
  pose proof (measures_nonempty data hl y_col x_idx Hn) as Hne.
  destruct (_select_measure_columns data hl y_col x_idx) as [|m ms];
    [congruence|].
  destruct (map _ _); [discriminate|].
  destruct (flat_map _ _); discriminate.
Qed.

Lemma two_columns_always_select_witness :
  _load_numeric_table (disk twin_lines) csv_path = Ok twin_data
  /\ plot_csv (disk twin_lines) csv_path None None true None
     <> Raise (ValueError "No measurement columns available for plotting.").
Proof.
  assert (L : _load_numeric_table (disk twin_lines) csv_path = Ok twin_data)
    by (vm_compute; reflexivity).
  split; [exact L|].
  apply (two_columns_always_select (disk twin_lines) csv_path twin_data
           None None true None L).
  simpl. lia.
Defined.

(** X5: when the file is an ASCII text whose table holds binary64 numbers
    (every literal is one exactly) and, whichever column is taken as the
    axis, some column passes the tests of the candidate loop with room to
    spare, [plot_csv] succeeds without a measurement override and draws
    every selected column: none is left out for want of finite points. *)
Theorem passing_column_makes_plot_succeed
    (files : filesystem) (path : string) (text : string) (data : ndarray)
    (x_col : option Z) (semilogy : bool) (meta : option metadata) :
  files !! path = Some text ->
  LoaderWords.ascii_text text = true ->
  _load_numeric_table files path = Ok data ->
  Binary64.float_table data = true ->
  (forall x_idx, (x_idx < shape1 data)%nat ->
     exists i, (i < shape1 data)%nat
               /\ surely_passes data
                    (make_header_lower
                       (match meta with Some m => header_tokens m | None => [] end)
                       (shape1 data))
                    x_idx i) ->
  exists p, plot_csv files path x_col None semilogy meta = Ok p
            /\ plot_valid_indices p = plot_measure_indices p.
Proof.
  intros _ _ Hload _ Hall.
  destruct (load_via_filesystem _ _ _ Hload) as (text' & _ & Htext).
  destruct (loaded_table_has_a_column _ _ Htext) as [Hcols _].
  unfold plot_csv. rewrite Hload.
  set (hl := make_header_lower _ _) in *.
  set (x_idx := _select_x_column _ _ _ _ _) in *.
  assert (Hx : (x_idx < shape1 data)%nat) by (apply select_x_in_range; lia).
  destruct (Hall x_idx Hx) as (i & Hi & Hp).
  destruct (selection_iff_passes data hl x_idx) as [Hiff _].
  { exists i. split; [exact Hi|now apply surely_passes_passes]. }
  assert (Hin : In i (_select_measure_columns data hl None x_idx)).
  { apply Hiff. split; [exact Hi|now apply surely_passes_passes]. }
  assert (Hfilter : filter (has_shared_rows data x_idx)
                      (_select_measure_columns data hl None x_idx)
                    = _select_measure_columns data hl None x_idx).
  { apply forallb_filter_id. apply forallb_forall. intros j Hj.
    apply Hiff in Hj as [_ (_ & Hrows & _)].
    unfold has_shared_rows. unfold shared in Hrows.
    apply negb_true_iff, Nat.eqb_neq. lia. }
  destruct (_select_measure_columns data hl None x_idx) as [|m ms] eqn:Em;
    [destruct Hin|].
  rewrite Hfilter. cbn [map].
  destruct (flat_map _ (m :: ms)) as [|x xs] eqn:Ex.
  - exfalso. cbn [flat_map] in Ex. apply app_eq_nil in Ex as [Ex _].
    assert (Hm : In m (m :: ms)) by now left.
    apply Hiff in Hm as [_ (_ & Hrows & _)].
    unfold shared in Hrows. apply (f_equal (@List.length Q)) in Ex.
    rewrite length_map in Ex. simpl in Ex. lia.
  - eexists. split; [reflexivity|reflexivity].
Qed.

Lemma passing_column_makes_plot_succeed_witness :
  _load_numeric_table (disk far_lines) csv_path = Ok far_data
  /\ Binary64.float_table far_data = true
  /\ exists p, plot_csv (disk far_lines) csv_path None None true (Some far_meta)
               = Ok p
               /\ plot_valid_indices p = plot_measure_indices p.
Proof.
  assert (L : _load_numeric_table (disk far_lines) csv_path = Ok far_data)
    by (vm_compute; reflexivity).
  assert (F : Binary64.float_table far_data = true) by (vm_compute; reflexivity).
  split; [exact L|]. split; [exact F|].
  apply (passing_column_makes_plot_succeed (disk far_lines) csv_path
           (text_of far_lines) far_data None true (Some far_meta)
           ltac:(vm_compute; reflexivity) ltac:(vm_compute; reflexivity) L F).
  intros x_idx Hx. simpl in Hx.
  destruct x_idx as [|[|x_idx]]; [exists 1%nat|exists 0%nat|lia].
  - split; [simpl; lia|]. split; [discriminate|]. split; [simpl; lia|]. split.
    + apply Exists_cons_hd. apply Qle_bool_iff. reflexivity.
    + split; [apply Qle_bool_iff; reflexivity|reflexivity].
  - split; [simpl; lia|]. split; [discriminate|]. split; [simpl; lia|]. split.
    + apply Exists_cons_hd. apply Qle_bool_iff. reflexivity.
    + split; [apply Qle_bool_iff; reflexivity|reflexivity].
Defined.

End SelectionExtras.

(** ** The axis scan: the best score wins, the earliest among equals *)

Module ArgmaxFacts.
Import PyStr Plot Vocabulary SelectionSpec.

Lemma gt_irreflexive s : PyFloat.gt s s = false.
Proof.
  destruct s as [q| | |]; try reflexivity.
  unfold PyFloat.gt, PyFloat.lt. apply negb_false_iff, Qle_bool_iff. lra.
Qed.

Lemma gt_fin a b : PyFloat.gt (Fin a) (Fin b) = true <-> b < a.
Proof.
  unfold PyFloat.gt, PyFloat.lt. rewrite negb_true_iff. split.
  - intros H. destruct (Qlt_le_dec b a) as [L|L]; [exact L|].
    apply Qle_bool_iff in L. congruence.
  - intros H. destruct (Qle_bool a b) eqn:E; [|reflexivity].
    apply Qle_bool_iff in E. lra.
Qed.

Lemma gt_fin_false a b : PyFloat.gt (Fin a) (Fin b) = false <-> a <= b.
Proof.
  unfold PyFloat.gt, PyFloat.lt. rewrite negb_false_iff. apply Qle_bool_iff.
Qed.

(** A score that does not beat the old best does not beat a better one. *)
Lemma gt_stays_below x b n :
  PyFloat.gt b NInf = true -> PyFloat.gt x b = false ->
  PyFloat.gt n b = true -> PyFloat.gt x n = false.
Proof.
  intros Hb Hx Hn.
  destruct b as [b| | |]; try discriminate;
    destruct n as [n| | |]; try discriminate;
    destruct x as [x| | |]; try discriminate; try reflexivity.
  apply gt_fin in Hn. apply gt_fin_false in Hx. apply gt_fin_false. lra.
Qed.

(** ... and is strictly below it, unless it is [nan]. *)
Lemma gt_strictly_below x b n :
  PyFloat.gt b NInf = true -> PyFloat.gt x b = false ->
  PyFloat.gt n b = true -> x = NaN \/ PyFloat.gt n x = true.
Proof.
  intros Hb Hx Hn.
  destruct b as [b| | |]; try discriminate;
    destruct n as [n| | |]; try discriminate;
    destruct x as [x| | |]; try discriminate; auto.
  right. apply gt_fin in Hn. apply gt_fin_false in Hx. apply gt_fin. lra.
Qed.

Lemma gt_above_floor n b :
  PyFloat.gt n b = true -> PyFloat.gt b NInf = true -> PyFloat.gt n NInf = true.
Proof.
  destruct b as [b| | |]; try discriminate;
    destruct n as [n| | |]; try discriminate; reflexivity.
Qed.

Lemma never_wins_below x n :
  PyFloat.gt x NInf = false -> PyFloat.gt n NInf = true ->
  PyFloat.gt x n = false /\ (x = NaN \/ PyFloat.gt n x = true).
Proof.
  destruct x as [x| | |]; try discriminate;
    destruct n as [n| | |]; try discriminate; auto.
Qed.

Section Argmax.
Variable data : ndarray.
Variable hl : list string.
Variable s e : option pyfloat.

Lemma scanned_step k best :
  scanned data hl s e k best ->
  scanned data hl s e (S k) (x_step data hl s e best k).
Proof.
  unfold scanned, x_step. cbv zeta. intros H.
  destruct (column_score data hl s e k) as [sk|] eqn:Ek.
  - destruct (PyFloat.gt sk (snd best)) eqn:G.
    + cbn [fst snd]. destruct (fst best) as [b|].
      * destruct H as (Hb & Hsb & Hfloor & Hmax & Htie).
        split; [lia|]. split; [exact Ek|].
        split; [now apply (gt_above_floor _ (snd best))|]. split.
        -- intros i Hi. destruct (Nat.eq_dec i k) as [->|Hne].
           ++ rewrite Ek. unfold not_above. apply gt_irreflexive.
           ++ specialize (Hmax i ltac:(lia)). unfold not_above in *.
              destruct (column_score data hl s e i) as [si|]; [|exact I].
              now apply (gt_stays_below si (snd best) sk).
        -- intros i si Hi Hsi. specialize (Hmax i ltac:(lia)).
           unfold not_above in Hmax. rewrite Hsi in Hmax.
           now apply (gt_strictly_below si (snd best) sk).
      * destruct H as (Hbest & Hnone). rewrite Hbest in G.
        split; [lia|]. split; [exact Ek|]. split; [exact G|]. split.
        -- intros i Hi. destruct (Nat.eq_dec i k) as [->|Hne].
           ++ rewrite Ek. unfold not_above. apply gt_irreflexive.
           ++ specialize (Hnone i ltac:(lia)). unfold not_above, never_wins in *.
              destruct (column_score data hl s e i) as [si|]; [|exact I].
              now apply (never_wins_below si sk).
        -- intros i si Hi Hsi. specialize (Hnone i Hi).
           unfold never_wins in Hnone. rewrite Hsi in Hnone.
           now apply (never_wins_below si sk).
    + destruct (fst best) as [b|].
      * destruct H as (Hb & Hsb & Hfloor & Hmax & Htie).
        split; [lia|]. split; [exact Hsb|]. split; [exact Hfloor|].
        split; [|exact Htie].
        intros i Hi. destruct (Nat.eq_dec i k) as [->|Hne].
        -- rewrite Ek. exact G.
        -- apply Hmax. lia.
      * destruct H as (Hbest & Hnone). split; [exact Hbest|].
        intros i Hi. destruct (Nat.eq_dec i k) as [->|Hne].
        -- rewrite Ek. unfold never_wins. rewrite <- Hbest. exact G.
        -- apply Hnone. lia.
  - destruct (fst best) as [b|].
    + destruct H as (Hb & Hsb & Hfloor & Hmax & Htie).
      split; [lia|]. split; [exact Hsb|]. split; [exact Hfloor|].
      split; [|exact Htie].
      intros i Hi. destruct (Nat.eq_dec i k) as [->|Hne].
      * rewrite Ek. exact I.
      * apply Hmax. lia.
    + destruct H as (Hbest & Hnone). split; [exact Hbest|].
      intros i Hi. destruct (Nat.eq_dec i k) as [->|Hne].
      * rewrite Ek. exact I.
      * apply Hnone. lia.
Qed.

Lemma scanned_all n :
  scanned data hl s e n (fold_left (x_step data hl s e) (seq 0 n) (None, NInf)).
Proof.
  induction n as [|n IH].
  - split; [reflexivity|]. intros i Hi. lia.
  - rewrite seq_S, fold_left_app. cbn [fold_left Nat.add].
    now apply scanned_step.
Qed.

End Argmax.

Lemma scanned_scan data hl s e :
  scanned data hl s e (shape1 data) (x_scan data hl s e).
Proof. apply scanned_all. Qed.

End ArgmaxFacts.

Module AxisExtras.
Import PyStr Plot Vocabulary SelectionSpec ArgmaxFacts Examples.

(** A column with a score has at least three finite values, spread over
    at least 1e-6. *)
Lemma scored_column_qualifies data hl s e i sc :
  column_score data hl s e i = Some sc -> could_be_scored data i = true.
Proof.
  unfold column_score, could_be_scored, finite_spread. cbv zeta. intros H.
  destruct (Nat.ltb (List.length (Np.finite (Np.column data i))) 3) eqn:L;
    [discriminate|].
  apply Nat.ltb_ge in L.
  destruct (Qle_bool (1 # 1000000)
              (Np.amax (Np.finite (Np.column data i))
               - Np.amin (Np.finite (Np.column data i)))) eqn:Q;
    [|discriminate].
  apply Qle_bool_iff in Q.
  apply andb_true_intro. split; [now apply Nat.leb_le|].
  apply Qle_bool_iff. lra.
Qed.

(** A column without the qualities of a scored one is skipped. *)
Lemma unqualified_column_is_skipped data hl s e i :
  could_be_scored data i = false -> column_score data hl s e i = None.
Proof.
  intros H. destruct (column_score data hl s e i) as [sc|] eqn:E; [|reflexivity].
  apply scored_column_qualifies in E. congruence.
Qed.

(** Without a complete hint, a column spread over 1e-5 has a finite
    score. *)
Lemma surely_scored_without_hint data hl s e i :
  s = None \/ e = None -> surely_scored data i = true ->
  exists q, column_score data hl s e i = Some (Fin q).
Proof.
  intros Hh H. unfold surely_scored, finite_spread in H.
  apply andb_prop in H. destruct H as [L Q].
  apply Nat.leb_le in L. apply Qle_bool_iff in Q.
  unfold column_score. cbv zeta.
  assert (L' : Nat.ltb (List.length (Np.finite (Np.column data i))) 3 = false)
    by (apply Nat.ltb_ge; exact L).
  rewrite L'.
  assert (Q' : Qle_bool (1 # 1000000)
                 (Np.amax (Np.finite (Np.column data i))
                  - Np.amin (Np.finite (Np.column data i))) = true)
    by (apply Qle_bool_iff; lra).
  rewrite Q'. cbn [negb].
  assert (C : forall lo hi, closeness s e lo hi = Fin 0).
  { intros lo hi. unfold closeness, expected_range.
    destruct Hh as [-> | ->]; [reflexivity|]. now destruct s. }
  rewrite C. eexists. reflexivity.
Qed.

(** X6: without an axis override, the axis is a column the scan can have
    scored (at least three finite values, spread over at least 5e-7, half
    of the 1e-6 of the spread test) or the default column (column 2 of a
    table with more than two columns, the last column otherwise).  When
    no column of the table can have been scored, the axis is the default
    column.  When the hint is not complete and some column has at least
    three finite values spread over at least 1e-5, the axis is a column
    of the table that can have been scored. *)
Theorem axis_is_a_scored_column
    (data : ndarray) (header_lower : list string)
    (start stop : option pyfloat) :
  let x := _select_x_column data header_lower start stop None in
  (((x < shape1 data)%nat /\ could_be_scored data x = true)
   \/ x = default_axis data)
  /\ ((forall i, (i < shape1 data)%nat -> could_be_scored data i = false) ->
      x = default_axis data)
  /\ (start = None \/ stop = None ->
      (exists i, (i < shape1 data)%nat /\ surely_scored data i = true) ->
      (x < shape1 data)%nat /\ could_be_scored data x = true).
Proof.
  intros x. subst x.
  pose proof (scanned_scan data header_lower start stop) as H.
  unfold _select_x_column, in_range, scanned, default_axis in *. cbv zeta in H.
  destruct (fst (x_scan data header_lower start stop)) as [b|].
  - destruct H as (Hb & Hsb & _).
    pose proof (scored_column_qualifies _ _ _ _ _ _ Hsb) as Hq.
    split; [left; split; assumption|]. split.
    + intros Hnone. rewrite (Hnone b Hb) in Hq. discriminate.
    + intros _ _. split; assumption.
  - destruct H as (_ & Hnone).
    assert (D : Z.to_nat
                  (Z.max 0 (if Nat.ltb 2 (shape1 data) then 2%Z
                            else (Z.of_nat (shape1 data) - 1)%Z))
                = if Nat.ltb 2 (shape1 data) then 2%nat else (shape1 data - 1)%nat)
      by (destruct (Nat.ltb 2 (shape1 data)); [reflexivity|lia]).
    rewrite D. split; [right; reflexivity|]. split; [reflexivity|].
    intros Hh (i & Hi & Hs). exfalso.
    destruct (surely_scored_without_hint data header_lower start stop i Hh Hs)
      as (q & Hq).
    specialize (Hnone i Hi). unfold never_wins in Hnone. rewrite Hq in Hnone.
    discriminate.
Qed.

Lemma axis_is_a_scored_column_witness :
  (_select_x_column twin_data [""; ""] None None None < shape1 twin_data)%nat
  /\ could_be_scored twin_data
       (_select_x_column twin_data [""; ""] None None None) = true.
Proof.
  apply (axis_is_a_scored_column twin_data [""; ""] None None).
  - left. reflexivity.
  - exists 1%nat. split; [simpl; lia|vm_compute; reflexivity].
Defined.

(** No finite value, no score: a column with fewer than three finite
    values is skipped. *)
Lemma short_column_has_no_score data hl s e i :
  (List.length (cells data) < 3)%nat -> column_score data hl s e i = None.
Proof.
  intros H. unfold column_score.
  assert (L : (List.length (Np.finite (Np.column data i)) < 3)%nat).
  { assert (G : forall col, (List.length (Np.finite col) <= List.length col)%nat).
    { induction col as [|[q| | |] col IH]; simpl; lia. }
    specialize (G (Np.column data i)). unfold Np.column in G at 2.
    rewrite length_map in G. lia. }
  apply Nat.ltb_lt in L. now rewrite L.
Qed.

(** X7: a table with fewer than three rows has no column fit to be the
    axis; without an axis override the axis is then column 2 when the
    table has at least three columns, and the last column otherwise,
    whatever the headers and the hint. *)
Theorem few_rows_take_the_default_axis
    (data : ndarray) (header_lower : list string)
    (start stop : option pyfloat) :
  (List.length (cells data) < 3)%nat ->
  _select_x_column data header_lower start stop None
  = if Nat.ltb 2 (shape1 data) then 2%nat else (shape1 data - 1)%nat.
Proof.
  intros Hrows.
  pose proof (scanned_scan data header_lower start stop) as H.
  unfold _select_x_column, in_range, scanned in *. cbv zeta in H.
  destruct (fst (x_scan data header_lower start stop)) as [b|].
  - destruct H as (_ & Hsb & _).
    rewrite (short_column_has_no_score _ _ _ _ _ Hrows) in Hsb. discriminate.
  - destruct (Nat.ltb 2 (shape1 data)); [reflexivity|lia].
Qed.

Lemma few_rows_take_the_default_axis_witness :
  _select_x_column (mk_ndarray 2 2 [[Fin 1; Fin 5]; [Fin 2; Fin 6]])
    ["theta_r"; "s11"] None None None = 1%nat.
Proof.
  apply (few_rows_take_the_default_axis
           (mk_ndarray 2 2 [[Fin 1; Fin 5]; [Fin 2; Fin 6]])).
  simpl. lia.
Defined.

End AxisExtras.

(** ** The parser of the run action *)

Module ParseFacts.
Import PyStr Loader LoaderSpec LoaderFacts Form ParseSpec TextFacts.
Local Open Scope string_scope.

Lemma parse_row_all toks row :
  forallb parses toks = true ->
  parse_row toks row = ((row ++ map value_of toks)%list, true).
Proof.
  revert row; induction toks as [|tok toks IH]; intros row H; simpl in *.
  - now rewrite app_nil_r.
  - apply andb_prop in H as [H1 H2]. unfold parses, value_of in *.
    destruct (FloatParse.py_float (cleaned tok)); [|discriminate].
    rewrite IH by exact H2. now rewrite <- app_assoc.
Qed.

Lemma parse_row_some toks row :
  forallb parses toks = false -> snd (parse_row toks row) = false.
Proof.
  revert row; induction toks as [|tok toks IH]; intros row H; simpl in *.
  - discriminate.
  - unfold parses in *.
    destruct (FloatParse.py_float (cleaned tok)); [|reflexivity].
    apply IH. exact H.
Qed.

(** One iteration of the line loop, by the kind of the line. *)
Lemma parse_line_spec st raw :
  parse_line st raw
  = if numeric_line raw then
      mk_parse_state (Form.numeric_rows st ++ [line_values raw])%list
        (if is_nil (header_toks st) && negb (is_nil (last_text_tokens st))
         then last_text_tokens st else header_toks st)
        (last_text_tokens st)
    else if text_line raw then
      mk_parse_state (Form.numeric_rows st) (header_toks st) (tokens (strip raw))
    else st.
Proof.
  unfold parse_line, numeric_line, text_line, line_values.
  destruct (nonempty (strip raw)); cbn [negb orb andb]; [|reflexivity].
  destruct (startswith "#" (strip raw)); cbn [negb orb andb]; [reflexivity|].
  destruct (tokens (strip raw)) as [|tok toks] eqn:E; [reflexivity|].
  cbn [List.length Nat.eqb negb andb].
  destruct (forallb parses (tok :: toks)) eqn:F.
  - rewrite (parse_row_all _ _ F). cbn [app map is_nil negb andb]. reflexivity.
  - pose proof (parse_row_some (tok :: toks) [] F) as G.
    destruct (parse_row (tok :: toks) []) as [row numeric].
    cbn [snd] in G. subst numeric. reflexivity.
Qed.

Lemma blank_snoc_rstrip a c :
  is_space c = true -> rstrip (snoc a c) = rstrip a.
Proof.
  intros Hc. unfold snoc. induction a as [|x a IH].
  - rewrite append_nil. cbn [rstrip nonempty negb andb]. now rewrite Hc.
  - rewrite append_cons. cbn [rstrip]. now rewrite IH.
Qed.

Lemma blank_snoc_lstrip a c :
  is_space c = true ->
  lstrip (snoc a c) = if nonempty (lstrip a) then snoc (lstrip a) c else "".
Proof.
  intros Hc. unfold snoc. induction a as [|x a IH].
  - rewrite append_nil. cbn [lstrip nonempty]. now rewrite Hc.
  - rewrite append_cons. cbn [lstrip].
    destruct (is_space x); [exact IH|]. cbn [nonempty]. now rewrite append_cons.
Qed.

(** Stripping forgets a trailing blank. *)
Lemma strip_snoc_blank a c :
  is_space c = true -> strip (snoc a c) = strip a.
Proof.
  intros Hc. unfold strip. rewrite (blank_snoc_lstrip _ _ Hc).
  destruct (lstrip a) as [|x r] eqn:E; [reflexivity|].
  cbn [nonempty]. now apply blank_snoc_rstrip.
Qed.

(** The two ways of cutting a text into lines give the same lines once
    stripped. *)
Lemma lines_agree text cur after_cr :
  plain_breaks text = true ->
  map strip (file_lines_from text cur after_cr)
  = map strip (splitlines_from text cur after_cr).
Proof.
  unfold plain_breaks. revert cur after_cr.
  induction text as [|c text IH]; intros cur after_cr H; [reflexivity|].
  cbn [all_chars] in H. apply andb_prop in H as [Hc H].
  cbn [file_lines_from splitlines_from].
  destruct (Ascii.eqb c LF) eqn:E1.
  - apply Ascii.eqb_eq in E1. subst c.
    destruct after_cr; cbn [andb]; [now apply IH|].
    change (is_linebreak LF) with true. cbn iota.
    change (Ascii.eqb LF CR) with false.
    cbn [map]. rewrite (IH _ _ H). f_equal.
    now apply strip_snoc_blank.
  - cbn [andb]. destruct (Ascii.eqb c CR) eqn:E2.
    + apply Ascii.eqb_eq in E2. subst c.
      change (is_linebreak CR) with true. cbn iota.
      cbn [map]. rewrite (IH _ _ H). f_equal.
      now apply strip_snoc_blank.
    + rewrite !orb_false_r in Hc. apply negb_true_iff in Hc.
      rewrite Hc. now apply IH.
Qed.

Lemma numeric_line_strip a b :
  strip a = strip b ->
  numeric_line a = numeric_line b /\ line_values a = line_values b.
Proof. unfold numeric_line, line_values. now intros ->. Qed.

Lemma parse_fold_rows_spec lines st :
  Form.numeric_rows (fold_left parse_line lines st)
  = (Form.numeric_rows st
     ++ map line_values (filter numeric_line lines))%list.
Proof.
  revert st; induction lines as [|raw lines IH]; intros st.
  - cbn. now rewrite app_nil_r.
  - cbn [fold_left filter]. rewrite IH, parse_line_spec.
    destruct (numeric_line raw).
    + cbn [Form.numeric_rows map]. now rewrite <- app_assoc.
    + destruct (text_line raw); reflexivity.
Qed.

Lemma filtered_values l1 l2 :
  map strip l1 = map strip l2 ->
  map line_values (filter numeric_line l1)
  = map line_values (filter numeric_line l2).
Proof.
  revert l2; induction l1 as [|a l1 IH]; intros [|b l2] H;
    try discriminate; [reflexivity|].
  cbn [map] in H. injection H as Hab H.
  destruct (numeric_line_strip _ _ Hab) as [E1 E2].
  cbn [filter]. rewrite E1. destruct (numeric_line b); cbn [map].
  - rewrite E2. f_equal. now apply IH.
  - now apply IH.
Qed.

Lemma text_line_tokens raw : text_line raw = true -> tokens (strip raw) <> [].
Proof.
  unfold text_line. intros H. apply andb_prop in H as [H _].
  apply andb_prop in H as [_ H]. apply negb_true_iff, Nat.eqb_neq in H.
  now destruct (tokens (strip raw)).
Qed.

Lemma text_line_not_numeric raw : text_line raw = true -> numeric_line raw = false.
Proof.
  unfold text_line, numeric_line. intros H. apply andb_prop in H as [_ H].
  apply negb_true_iff in H. rewrite H. apply andb_false_r.
Qed.

(** Lines without a data line leave the rows and the header alone. *)
Lemma fold_without_data lines st :
  Forall (fun raw => numeric_line raw = false) lines ->
  Form.numeric_rows (fold_left parse_line lines st) = Form.numeric_rows st
  /\ header_toks (fold_left parse_line lines st) = header_toks st.
Proof.
  intros H. revert st. induction H as [|raw lines Hraw _ IH]; intros st.
  - split; reflexivity.
  - cbn [fold_left]. destruct (IH (parse_line st raw)) as [-> ->].
    rewrite parse_line_spec, Hraw. now destruct (text_line raw).
Qed.

Lemma fold_skipped lines st :
  Forall (fun raw => skipped_line raw = true) lines ->
  fold_left parse_line lines st = st.
Proof.
  intros H. revert st. induction H as [|raw lines Hraw _ IH]; intros st.
  - reflexivity.
  - cbn [fold_left]. rewrite parse_line_spec.
    unfold skipped_line in Hraw. apply andb_prop in Hraw as [H1 H2].
    apply negb_true_iff in H1, H2. rewrite H1, H2. apply IH.
Qed.

(** A header, once taken, is kept. *)
Lemma header_kept lines st :
  header_toks st <> [] ->
  header_toks (fold_left parse_line lines st) = header_toks st.
Proof.
  revert st; induction lines as [|raw lines IH]; intros st H; [reflexivity|].
  cbn [fold_left].
  assert (E : header_toks (parse_line st raw) = header_toks st).
  { rewrite parse_line_spec. destruct (numeric_line raw).
    - cbn [header_toks]. destruct (header_toks st); [congruence|reflexivity].
    - now destruct (text_line raw). }
  rewrite IH; rewrite E; [reflexivity|exact H].
Qed.

(** What the loop knows of the text lines it has met. *)
Lemma parse_fold_text lines :
  let st := fold_left parse_line lines (mk_parse_state [] [] []) in
  (last_text_tokens st = [] <-> Forall (fun raw => text_line raw = false) lines)
  /\ (last_text_tokens st <> [] ->
      exists raw, In raw lines /\ text_line raw = true
                  /\ last_text_tokens st = tokens (strip raw))
  /\ (header_toks st <> [] ->
      exists raw, In raw lines /\ text_line raw = true
                  /\ header_toks st = tokens (strip raw)).
Proof.
  induction lines as [|raw lines IH] using rev_ind.
  - cbn. split; [split; [constructor|reflexivity]|]. split; congruence.
  - cbv zeta in *. rewrite fold_left_app. cbn [fold_left].
    set (st := fold_left parse_line lines (mk_parse_state [] [] [])) in *.
    destruct IH as (IH1 & IH2 & IH3).
    rewrite parse_line_spec.
    destruct (numeric_line raw) eqn:N; [|destruct (text_line raw) eqn:T].
    + assert (T : text_line raw = false).
      { destruct (text_line raw) eqn:T; [|reflexivity].
        apply text_line_not_numeric in T. congruence. }
      cbn [last_text_tokens header_toks]. split; [|split].
      * rewrite IH1, Forall_app. split; [intros H; split; [exact H|now constructor]|tauto].
      * intros H. destruct (IH2 H) as (r & Hr & Hrest).
        exists r. split; [apply in_or_app; now left|exact Hrest].
      * intros H.
        destruct (is_nil (header_toks st) && negb (is_nil (last_text_tokens st))).
        -- destruct (IH2 H) as (r & Hr & Hrest).
           exists r. split; [apply in_or_app; now left|exact Hrest].
        -- destruct (IH3 H) as (r & Hr & Hrest).
           exists r. split; [apply in_or_app; now left|exact Hrest].
    + cbn [last_text_tokens header_toks]. split; [|split].
      * split.
        -- intros H. now apply text_line_tokens in T.
        -- intros H. apply Forall_app in H as [_ H].
           apply Forall_cons_iff in H as [H _]. congruence.
      * intros _. exists raw. split; [apply in_or_app; right; now left|auto].
      * intros H. destruct (IH3 H) as (r & Hr & Hrest).
        exists r. split; [apply in_or_app; now left|exact Hrest].
    + split; [|split].
      * rewrite IH1, Forall_app. split; [intros H; split; [exact H|now constructor]|tauto].
      * intros H. destruct (IH2 H) as (r & Hr & Hrest).
        exists r. split; [apply in_or_app; now left|exact Hrest].
      * intros H. destruct (IH3 H) as (r & Hr & Hrest).
        exists r. split; [apply in_or_app; now left|exact Hrest].
Qed.

End ParseFacts.

Module ParseExtras.
Import PyStr Loader LoaderSpec LoaderFacts Form ParseSpec ParseFacts Examples.
Local Open Scope string_scope.

(** X8: the parser of the run action and the loader of the plot module
    read the same rows from an ASCII text whose only line terminators are
    LF and CR: what the form writes to the CSV is what the plot module
    would have read from the solver output itself.  (Outside ASCII,
    [str.splitlines] also breaks a line at U+0085, U+2028 and U+2029,
    where the iteration over a file does not.) *)
Theorem form_and_loader_read_the_same_rows (text : string) :
  LoaderWords.ascii_text text = true ->
  plain_breaks text = true ->
  fst (parse_stdout text) = Loader.numeric_rows text.
Proof.
  intros _ H. unfold parse_stdout. cbn [fst].
  rewrite parse_fold_rows_spec, numeric_rows_spec. cbn [Form.numeric_rows app].
  unfold data_lines, file_lines, splitlines.
  symmetry. apply filtered_values. now apply lines_agree.
Qed.

Lemma form_and_loader_read_the_same_rows_witness :
  LoaderWords.ascii_text solver_stdout = true
  /\ plain_breaks solver_stdout = true
  /\ fst (parse_stdout solver_stdout) = [[Fin 1; Fin 2]; [Fin 3]]
  /\ Loader.numeric_rows solver_stdout = [[Fin 1; Fin 2]; [Fin 3]].
Proof.
  assert (A : LoaderWords.ascii_text solver_stdout = true)
    by (vm_compute; reflexivity).
  assert (P : plain_breaks solver_stdout = true) by (vm_compute; reflexivity).
  split; [exact A|]. split; [exact P|].
  rewrite <- (form_and_loader_read_the_same_rows solver_stdout A P).
  split; vm_compute; reflexivity.
Defined.

(** X9: when the solver output is some lines without data, then a text
    line, then lines the parser passes over (blank lines, comments), then a
    data line, the detected header is the token list of that text line:
    the last text line before the first data row. *)
Theorem header_is_last_text_line_before_data
    (stdout : string) (pre : list string) (h : string)
    (skipped : list string) (d : string) (post : list string) :
  splitlines stdout = (pre ++ h :: skipped ++ d :: post)%list ->
  Forall (fun raw => numeric_line raw = false) pre ->
  text_line h = true ->
  Forall (fun raw => skipped_line raw = true) skipped ->
  numeric_line d = true ->
  snd (parse_stdout stdout) = tokens (strip h).
Proof.
  intros Hlines Hpre Hh Hskip Hd. unfold parse_stdout. cbn [snd].
  rewrite Hlines, fold_left_app. cbn [fold_left].
  rewrite fold_left_app. cbn [fold_left].
  set (st0 := fold_left parse_line pre (mk_parse_state [] [] [])).
  destruct (fold_without_data pre (mk_parse_state [] [] []) Hpre) as [_ H0].
  fold st0 in H0. cbn [header_toks] in H0.
  assert (E1 : parse_line st0 h
               = mk_parse_state (Form.numeric_rows st0) [] (tokens (strip h))).
  { rewrite parse_line_spec, (text_line_not_numeric _ Hh), Hh. now rewrite H0. }
  rewrite E1, (fold_skipped _ _ Hskip).
  pose proof (text_line_tokens _ Hh) as Hne.
  assert (E2 : header_toks
                 (parse_line (mk_parse_state (Form.numeric_rows st0) []
                                (tokens (strip h))) d)
               = tokens (strip h)).
  { rewrite parse_line_spec, Hd. cbn [header_toks last_text_tokens is_nil].
    now destruct (tokens (strip h)). }
  rewrite (header_kept post) by (rewrite E2; exact Hne).
  rewrite E2. now destruct (tokens (strip h)).
Qed.

Lemma header_is_last_text_line_before_data_witness :
  splitlines (text_of scenario_lines)
  = (["# comment"] ++ "Theta S11" :: [] ++ "10 1.0" :: ["20 2.0"; "30 3.0"])%list
  /\ snd (parse_stdout (text_of scenario_lines)) = ["Theta"; "S11"].
Proof.
  assert (L : splitlines (text_of scenario_lines)
              = (["# comment"] ++ "Theta S11" :: [] ++ "10 1.0"
                   :: ["20 2.0"; "30 3.0"])%list)
    by (vm_compute; reflexivity).
  split; [exact L|].
  rewrite (header_is_last_text_line_before_data (text_of scenario_lines)
             ["# comment"] "Theta S11" [] "10 1.0" ["20 2.0"; "30 3.0"] L).
  - vm_compute. reflexivity.
  - repeat constructor.
  - vm_compute. reflexivity.
  - constructor.
  - vm_compute. reflexivity.
Defined.

(** X10: the detected header is empty exactly when the solver output has
    no text line; otherwise it is the token list of one of its text lines,
    so it always holds a token that is not a number. *)
Theorem header_empty_iff_no_text_line (stdout : string) :
  (snd (parse_stdout stdout) = []
   <-> Forall (fun raw => text_line raw = false) (splitlines stdout))
  /\ (snd (parse_stdout stdout) <> [] ->
      exists raw, In raw (splitlines stdout) /\ text_line raw = true
                  /\ snd (parse_stdout stdout) = tokens (strip raw)).
Proof.
  unfold parse_stdout. cbn [snd].
  pose proof (parse_fold_text (splitlines stdout)) as H. cbv zeta in H.
  set (st := fold_left parse_line (splitlines stdout) (mk_parse_state [] [] []))
    in *.
  destruct H as (H1 & H2 & H3).
  destruct (header_toks st) as [|t ts] eqn:Eh.
  - cbn [is_nil andb]. destruct (last_text_tokens st) as [|u us] eqn:El.
    + cbn [is_nil negb]. split; [split; [intros _; now apply H1|reflexivity]|].
      congruence.
    + cbn [is_nil negb]. split.
      * split; [discriminate|]. intros H. apply H1 in H. discriminate.
      * intros _. apply H2. discriminate.
  - cbn [is_nil andb]. split.
    + split; [discriminate|]. intros H.
      destruct (H3 ltac:(discriminate)) as (raw & Hin & Ht & _).
      rewrite Forall_forall in H. specialize (H raw Hin). congruence.
    + intros _. apply H3. discriminate.
Qed.

End ParseExtras.

(** ** Rendering a CSV *)

Module RenderFacts.
Import PyStr Plot Form RenderSpec.
Local Open Scope string_scope.

(** The form after a render, field by field. *)
Lemma render_spec json_loads csv_path f :
  let meta := resolved_meta json_loads csv_path f in
  let r := plot_csv (fs f) csv_path None None true meta in
  render_with_external json_loads csv_path f
  = (mk_form (fs f) (last_input_path f) (last_stdout_path f) (last_csv_path f)
       (match meta with Some m => Some m | None => last_output_meta f end)
       ((output_box f ++ ["brdfplot resolved via: import brdfplot"])
          ++ [render_message r])%list
       (shown r),
     Next tt).
Proof.
  cbv zeta. unfold render_with_external, resolved_meta, sidecar, bind,
    set_canvas, get, _load_output_meta, ret, set_last_output_meta, append.
  cbn [fst snd fs last_input_path last_stdout_path last_csv_path
       last_output_meta output_box canvas].
  destruct (last_output_meta f) as [m|] eqn:Em.
  - destruct (String.eqb (meta_csv_path m) csv_path) eqn:Eq.
    + cbn [fs last_input_path last_stdout_path last_csv_path
           last_output_meta output_box canvas].
      destruct (plot_csv (fs f) csv_path None None true (Some m)) as [p|[path|msg]];
        reflexivity.
    + cbn [fs last_input_path last_stdout_path last_csv_path
           last_output_meta output_box canvas].
      destruct (fs f !! (csv_path ++ ".meta.json")) as [text|].
      * destruct (json_loads text) as [m'|];
          cbn [fs last_input_path last_stdout_path last_csv_path
               last_output_meta output_box canvas];
          match goal with
          | |- context [plot_csv ?a ?b ?c ?d ?e ?g] =>
              destruct (plot_csv a b c d e g) as [p|[path|msg]]
          end; reflexivity.
      * cbn [fs last_input_path last_stdout_path last_csv_path
             last_output_meta output_box canvas].
        destruct (plot_csv (fs f) csv_path None None true None) as [p|[path|msg]];
          reflexivity.
  - cbn [fs last_input_path last_stdout_path last_csv_path
         last_output_meta output_box canvas].
    destruct (fs f !! (csv_path ++ ".meta.json")) as [text|].
    + destruct (json_loads text) as [m'|];
        cbn [fs last_input_path last_stdout_path last_csv_path
             last_output_meta output_box canvas];
        match goal with
        | |- context [plot_csv ?a ?b ?c ?d ?e ?g] =>
            destruct (plot_csv a b c d e g) as [p|[path|msg]]
        end; reflexivity.
    + cbn [fs last_input_path last_stdout_path last_csv_path
           last_output_meta output_box canvas].
      destruct (plot_csv (fs f) csv_path None None true None) as [p|[path|msg]];
        reflexivity.
Qed.

(** The plot depends on the disk through the CSV file alone. *)
Lemma plot_csv_reads_one_file files1 files2 path x_col y_col semilogy meta :
  files1 !! path = files2 !! path ->
  plot_csv files1 path x_col y_col semilogy meta
  = plot_csv files2 path x_col y_col semilogy meta.
Proof.
  intros H. unfold plot_csv, Loader._load_numeric_table. now rewrite H.
Qed.

End RenderFacts.

(** ** The files of a run *)

Module RunFacts.
Import PyStr Plot Form RenderSpec RunSpec RenderFacts TextFacts.
Local Open Scope string_scope.

Lemma append_cancel (a b c : string) : a ++ b = a ++ c -> b = c.
Proof.
  induction a as [|x a IH]; [now rewrite !append_nil|].
  rewrite !append_cons. intros [= H]. now apply IH.
Qed.

Lemma input_is_not_output env : input_filename env <> output_filename env.
Proof. unfold input_filename, output_filename, data_dir. intros [=]. Qed.

Lemma input_is_not_csv env : input_filename env <> csv_filename env.
Proof. unfold input_filename, csv_filename, data_dir. intros [=]. Qed.

Lemma input_is_not_meta env : input_filename env <> meta_filename env.
Proof.
  unfold meta_filename, input_filename, csv_filename, data_dir. intros [=].
Qed.

Lemma output_is_not_csv env : output_filename env <> csv_filename env.
Proof.
  unfold output_filename, csv_filename, data_dir. intros H.
  apply append_cancel in H. apply append_cancel in H.
  apply append_cancel in H. discriminate.
Qed.

Lemma output_is_not_meta env : output_filename env <> meta_filename env.
Proof.
  unfold meta_filename, output_filename, csv_filename, data_dir. intros H.
  rewrite !append_assoc in H.
  apply append_cancel in H. apply append_cancel in H.
  apply append_cancel in H. discriminate.
Qed.

Lemma csv_is_not_meta env : csv_filename env <> meta_filename env.
Proof.
  unfold meta_filename. intros H.
  rewrite <- (append_empty (csv_filename env)) in H at 1.
  apply append_cancel in H. discriminate.
Qed.

Section Branches.
Variable float_repr : pyfloat -> string.
Variable json_dumps : metadata -> string.
Variable json_loads : string -> option metadata.
Variable env : run_env.

Let run := run_brdfprog float_repr json_dumps json_loads env.
Let input := input_filename env.
Let output := output_filename env.
Let csv := csv_filename env.

Ltac step :=
  cbn -[render_with_external input_filename output_filename csv_filename
        meta_filename _build_output_meta join csv_text parse_stdout
        write_file try_except deck].

(** The form after a run, branch by branch. *)
Lemma run_spec f :
  run f =
  match open_error env input with
  | Some msg =>
      mk_form (fs f) (last_input_path f) (last_stdout_path f) (last_csv_path f)
        (last_output_meta f) ["[Exception] " ++ msg] (canvas f)
  | None =>
      let fs1 := <[input := deck env]> (fs f) in
      match which_brdfprog env with
      | None =>
          mk_form fs1 (last_input_path f) (last_stdout_path f) (last_csv_path f)
            (last_output_meta f)
            ["[Error] 'brdfprog' not found. Ensure it is on PATH or next to the app."
             ++ nl ++ "Current PATH includes: " ++ scatmech_bin env] (canvas f)
      | Some exe =>
          let stopped line :=
            mk_form fs1 (Some input) (last_stdout_path f) (last_csv_path f)
              (last_output_meta f) [line] (canvas f) in
          match process env with
          | LaunchError e => stopped ("[Error] Could not invoke brdfprog: " ++ e)
          | Completed returncode stdout stderr =>
              if negb (returncode =? 0)%Z
              then stopped ("[Error] brdfprog failed:" ++ nl ++ stderr)
              else
                match open_error env output with
                | Some msg => stopped ("[Exception] " ++ msg)
                | None =>
                    let kept box :=
                      mk_form (raw_files env f stdout) (Some input) (Some output)
                        (last_csv_path f) (last_output_meta f) box (canvas f) in
                    match parse_stdout stdout with
                    | ([], _) =>
                        kept ["Saved input deck: " ++ input ++ nl
                                ++ "Running BRDFProg: " ++ exe;
                              "brdfprog completed. Parsing output table…";
                              "No numeric data detected in BRDFProg output; graph not updated."]
                    | (rows, header) =>
                        match open_error env csv with
                        | Some msg => kept ["[Exception] " ++ msg]
                        | None =>
                            fst (render_with_external json_loads csv
                              (mk_form
                                 (stored_files float_repr json_dumps env f stdout rows header)
                                 (Some input) (Some output) (Some csv)
                                 (Some (_build_output_meta env header))
                                 (run_log env exe header) (canvas f)))
                        end
                    end
                end
          end
      end
  end.
Proof.
  subst run input output csv.
  unfold run_brdfprog, try_except at 1, run_body.
  unfold bind at 1. unfold write_file at 1. fold (deck env).
  destruct (open_error env (input_filename env)) as [msg|]; [reflexivity|].
  destruct (which_brdfprog env) as [exe|]; [|reflexivity].
  step.
  destruct (process env) as [e|rc stdout stderr]; [reflexivity|].
  destruct (negb (rc =? 0)%Z); [reflexivity|].
  unfold bind at 1. unfold write_file at 1.
  destruct (open_error env (output_filename env)) as [msg|]; [reflexivity|].
  step. fold (raw_files env f stdout).
  destruct (parse_stdout stdout) as [rows header].
  destruct rows as [|r rows]; [reflexivity|].
  unfold bind at 1. unfold write_file at 1.
  destruct (open_error env (csv_filename env)) as [msg|]; [reflexivity|].
  step.
  unfold bind at 1. unfold write_file at 1. fold (meta_filename env).
  unfold stored_files, run_log.
  destruct (open_error env (meta_filename env)) as [msg|];
    unfold try_except; step;
    destruct (is_nil header); unfold bind at 1, append;
    rewrite !render_spec; reflexivity.
Qed.

(** The form after a run that wrote its CSV. *)
Lemma run_wrote_csv f exe stdout stderr :
  which_brdfprog env = Some exe ->
  process env = Completed 0 stdout stderr ->
  open_error env input = None ->
  open_error env output = None ->
  open_error env csv = None ->
  fst (parse_stdout stdout) <> [] ->
  let rows := fst (parse_stdout stdout) in
  let header := snd (parse_stdout stdout) in
  let meta := _build_output_meta env header in
  let files := stored_files float_repr json_dumps env f stdout rows header in
  let r := plot_csv files csv None None true (Some meta) in
  run f
  = mk_form files (Some input) (Some output) (Some csv) (Some meta)
      ((run_log env exe header ++ ["brdfplot resolved via: import brdfplot"])
         ++ [render_message r])%list
      (shown r).
Proof.
  intros Hw Hp Hi Ho Hc Hrows. rewrite run_spec, Hi, Hw, Hp, Ho, Hc.
  cbn [negb Z.eqb]. cbv zeta.
  destruct (parse_stdout stdout) as [rows header]; cbn [fst snd] in *.
  destruct rows as [|row rows]; [congruence|].
  rewrite render_spec. unfold resolved_meta.
  cbn [last_output_meta fs last_input_path last_stdout_path last_csv_path
       output_box _build_output_meta meta_csv_path].
  subst csv. now rewrite String.eqb_refl.
Qed.

(** The form after a zero exit whose raw output was written and whose CSV
    was not: the output held no number, or the CSV could not be opened. *)
Lemma run_without_csv f exe stdout stderr :
  which_brdfprog env = Some exe ->
  process env = Completed 0 stdout stderr ->
  open_error env input = None ->
  open_error env output = None ->
  fst (parse_stdout stdout) = [] \/ open_error env csv <> None ->
  exists box,
    run f = mk_form (raw_files env f stdout) (Some input) (Some output)
              (last_csv_path f) (last_output_meta f) box (canvas f).
Proof.
  intros Hw Hp Hi Ho H. rewrite run_spec, Hi, Hw, Hp, Ho.
  cbn [negb Z.eqb]. cbv zeta.
  destruct (parse_stdout stdout) as [rows header]; cbn [fst] in H.
  destruct rows as [|row rows]; [eexists; reflexivity|].
  destruct H as [H|H]; [discriminate|].
  destruct (open_error env csv); [eexists; reflexivity|congruence].
Qed.

End Branches.

End RunFacts.

(** ** The render action *)

Module RenderExtras.
Import PyStr Plot Form RenderSpec RenderFacts.
Local Open Scope string_scope.

Lemma resolved_meta_stable json_loads csv_path f :
  resolved_meta json_loads csv_path
    (fst (render_with_external json_loads csv_path f))
  = resolved_meta json_loads csv_path f.
Proof.
  rewrite render_spec. cbn [fst]. unfold resolved_meta at 1, sidecar.
  cbn [last_output_meta fs].
  fold (sidecar json_loads csv_path f).
  destruct (resolved_meta json_loads csv_path f) as [m|] eqn:E.
  - destruct (String.eqb (meta_csv_path m) csv_path) eqn:Em; [reflexivity|].
    unfold resolved_meta in E.
    destruct (last_output_meta f) as [m0|]; [|exact E].
    destruct (String.eqb (meta_csv_path m0) csv_path) eqn:E0; [|exact E].
    congruence.
  - exact E.
Qed.

(** X11: a render of a named CSV writes no file and moves none of the three
    path pointers, and rendering the same CSV a second time shows the same
    figure and keeps the same metadata in memory. *)
Theorem render_writes_nothing_and_repeats
    (json_loads : string -> option metadata) (csv_path : string) (f : form) :
  csv_path <> "" ->
  let f1 := fst (render_with_external json_loads csv_path f) in
  let f2 := fst (render_with_external json_loads csv_path f1) in
  fs f1 = fs f
  /\ last_input_path f1 = last_input_path f
  /\ last_stdout_path f1 = last_stdout_path f
  /\ last_csv_path f1 = last_csv_path f
  /\ canvas f2 = canvas f1
  /\ last_output_meta f2 = last_output_meta f1.
Proof.
  intros _ f1 f2.
  pose proof (resolved_meta_stable json_loads csv_path f) as Hm.
  fold f1 in Hm.
  assert (Hfs : fs f1 = fs f) by (subst f1; now rewrite render_spec).
  split; [exact Hfs|].
  split; [subst f1; now rewrite render_spec|].
  split; [subst f1; now rewrite render_spec|].
  split; [subst f1; now rewrite render_spec|].
  assert (H1 : canvas f1
               = shown (plot_csv (fs f) csv_path None None true
                          (resolved_meta json_loads csv_path f))
               /\ last_output_meta f1
                  = match resolved_meta json_loads csv_path f with
                    | Some m => Some m
                    | None => last_output_meta f
                    end).
  { subst f1. rewrite render_spec. split; reflexivity. }
  destruct H1 as [Hc1 Hl1].
  subst f2. rewrite render_spec. cbn [fst canvas last_output_meta].
  rewrite Hm, Hfs. split; [now rewrite Hc1|].
  rewrite Hl1. now destruct (resolved_meta json_loads csv_path f).
Qed.

Lemma render_writes_nothing_and_repeats_witness :
  let f1 := fst (render_with_external Formats.json_loads Examples.csv_path
                   FailedRun.before) in
  fs f1 = fs FailedRun.before
  /\ canvas (fst (render_with_external Formats.json_loads Examples.csv_path f1))
     = canvas f1.
Proof.
  pose proof (render_writes_nothing_and_repeats Formats.json_loads
                Examples.csv_path FailedRun.before ltac:(discriminate))
    as (H1 & _ & _ & _ & H5 & _).
  split; [exact H1|exact H5].
Defined.

(** X12: after a render of a named CSV the figure holds a plot exactly when
    the last line of the text box is the success line: on any error of
    [plot_csv] the figure, cleared before the call, is left blank, whatever
    it showed before. *)
Theorem figure_is_blank_exactly_on_render_error
    (json_loads : string -> option metadata) (csv_path : string) (f : form) :
  csv_path <> "" ->
  let f1 := fst (render_with_external json_loads csv_path f) in
  (canvas f1 <> None
   <-> last (output_box f1) "" = "Plot updated via brdfplot.plot_csv")
  /\ (canvas f1 = None
      <-> exists msg, last (output_box f1) "" = "brdfplot render error: " ++ msg).
Proof.
  intros _ f1. subst f1. rewrite render_spec. cbn [fst canvas output_box].
  rewrite last_last.
  destruct (plot_csv (fs f) csv_path None None true
              (resolved_meta json_loads csv_path f)) as [p|[path|msg]];
    cbn [shown render_message].
  - split; split.
    + reflexivity.
    + discriminate.
    + discriminate.
    + intros [msg [=]].
  - split; split.
    + congruence.
    + intros [=].
    + intros _. now exists ("No such file: " ++ path).
    + reflexivity.
  - split; split.
    + congruence.
    + intros [=].
    + intros _. now exists msg.
    + reflexivity.
Qed.

Lemma figure_is_blank_exactly_on_render_error_witness :
  canvas (fst (render_with_external Formats.json_loads "missing.csv"
                 FailedRun.before)) = None
  /\ exists msg,
       last (output_box (fst (render_with_external Formats.json_loads
                                "missing.csv" FailedRun.before))) ""
       = "brdfplot render error: " ++ msg.
Proof.
  pose proof (figure_is_blank_exactly_on_render_error Formats.json_loads
                "missing.csv" FailedRun.before ltac:(discriminate))
    as [_ [H _]].
  assert (Hc : canvas (fst (render_with_external Formats.json_loads
                              "missing.csv" FailedRun.before)) = None)
    by (vm_compute; reflexivity).
  split; [exact Hc|exact (H Hc)].
Defined.

End RenderExtras.

(** ** The run action *)

Module RunExtras.
Import PyStr Loader Plot Form RenderSpec RunSpec RenderFacts RunFacts.
Local Open Scope string_scope.

Section Disk.
Variable float_repr : pyfloat -> string.
Variable json_dumps : metadata -> string.
Variable env : run_env.

Lemma raw_files_input f stdout :
  raw_files env f stdout !! input_filename env = Some (deck env).
Proof.
  unfold raw_files.
  rewrite lookup_insert_ne by (intros E; symmetry in E; now apply input_is_not_output in E).
  apply lookup_insert_eq.
Qed.

Lemma raw_files_output f stdout :
  raw_files env f stdout !! output_filename env = Some stdout.
Proof. unfold raw_files. apply lookup_insert_eq. Qed.

Lemma raw_files_other f stdout path :
  path <> input_filename env -> path <> output_filename env ->
  raw_files env f stdout !! path = fs f !! path.
Proof.
  intros H1 H2. unfold raw_files.
  now rewrite !lookup_insert_ne by congruence.
Qed.

Lemma stored_files_csv f stdout rows header :
  stored_files float_repr json_dumps env f stdout rows header !! csv_filename env
  = Some (csv_text float_repr rows).
Proof.
  unfold stored_files.
  destruct (open_error env (meta_filename env)).
  - apply lookup_insert_eq.
  - rewrite lookup_insert_ne
      by (intros E; symmetry in E; now apply csv_is_not_meta in E).
    apply lookup_insert_eq.
Qed.

Lemma stored_files_raw f stdout rows header path :
  path <> csv_filename env -> path <> meta_filename env ->
  stored_files float_repr json_dumps env f stdout rows header !! path
  = raw_files env f stdout !! path.
Proof.
  intros H1 H2. unfold stored_files.
  destruct (open_error env (meta_filename env));
    now rewrite !lookup_insert_ne by congruence.
Qed.

Lemma stored_files_meta f stdout rows header :
  stored_files float_repr json_dumps env f stdout rows header !! meta_filename env
  = match open_error env (meta_filename env) with
    | None => Some (json_dumps (_build_output_meta env header))
    | Some _ => fs f !! meta_filename env
    end.
Proof.
  unfold stored_files.
  destruct (open_error env (meta_filename env)).
  - rewrite lookup_insert_ne by apply csv_is_not_meta.
    apply raw_files_other.
    + intros E; symmetry in E; now apply input_is_not_meta in E.
    + intros E; symmetry in E; now apply output_is_not_meta in E.
  - apply lookup_insert_eq.
Qed.

End Disk.

(** The state after a run that wrote its CSV. *)
Lemma successful_run_state
    (float_repr : pyfloat -> string) (json_dumps : metadata -> string)
    (json_loads : string -> option metadata)
    (env : run_env) (f : form) (exe stdout stderr : string) :
  which_brdfprog env = Some exe ->
  process env = Completed 0 stdout stderr ->
  open_error env (input_filename env) = None ->
  open_error env (output_filename env) = None ->
  open_error env (csv_filename env) = None ->
  fst (parse_stdout stdout) <> [] ->
  let f' := run_brdfprog float_repr json_dumps json_loads env f in
  let rows := fst (parse_stdout stdout) in
  let meta := _build_output_meta env (snd (parse_stdout stdout)) in
  last_input_path f' = Some (input_filename env)
  /\ last_stdout_path f' = Some (output_filename env)
  /\ last_csv_path f' = Some (csv_filename env)
  /\ fs f' !! input_filename env = Some (deck env)
  /\ fs f' !! output_filename env = Some stdout
  /\ fs f' !! csv_filename env = Some (csv_text float_repr rows)
  /\ fs f' !! meta_filename env
     = match open_error env (meta_filename env) with
       | None => Some (json_dumps meta)
       | Some _ => fs f !! meta_filename env
       end
  /\ last_output_meta f' = Some meta
  /\ canvas f'
     = shown (plot_csv (fs f') (csv_filename env) None None true (Some meta)).
Proof.
  intros Hw Hp Hi Ho Hc Hrows f' rows meta. subst f'.
  rewrite (run_wrote_csv float_repr json_dumps json_loads env f exe stdout stderr)
    by assumption.
  cbn [fs last_input_path last_stdout_path last_csv_path last_output_meta canvas].
  repeat split.
  - rewrite stored_files_raw
      by (apply input_is_not_csv || apply input_is_not_meta).
    apply raw_files_input.
  - rewrite stored_files_raw
      by (apply output_is_not_csv || apply output_is_not_meta).
    apply raw_files_output.
  - apply stored_files_csv.
  - apply stored_files_meta.
Qed.

(** X13: when the solver exits with status 0, the deck, the raw output and
    the CSV can be written and the output holds a numeric row, the run
    leaves the three path pointers on the files of this run, each holding
    what was written (the deck, the raw output, the rows as CSV), keeps the
    metadata built from the header in memory, and shows exactly what
    [plot_csv] makes of that CSV with that metadata.  None of this depends
    on the sidecar: when it cannot be written its path keeps its content. *)
Theorem successful_run_plots_its_csv
    (float_repr : pyfloat -> string) (json_dumps : metadata -> string)
    (json_loads : string -> option metadata)
    (env : run_env) (f : form) (exe stdout stderr : string) :
  which_brdfprog env = Some exe ->
  process env = Completed 0 stdout stderr ->
  open_error env (input_filename env) = None ->
  open_error env (output_filename env) = None ->
  open_error env (csv_filename env) = None ->
  fst (parse_stdout stdout) <> [] ->
  let f' := run_brdfprog float_repr json_dumps json_loads env f in
  let rows := fst (parse_stdout stdout) in
  let meta := _build_output_meta env (snd (parse_stdout stdout)) in
  last_input_path f' = Some (input_filename env)
  /\ last_stdout_path f' = Some (output_filename env)
  /\ last_csv_path f' = Some (csv_filename env)
  /\ fs f' !! input_filename env = Some (deck env)
  /\ fs f' !! output_filename env = Some stdout
  /\ fs f' !! csv_filename env = Some (csv_text float_repr rows)
  /\ fs f' !! meta_filename env
     = match open_error env (meta_filename env) with
       | None => Some (json_dumps meta)
       | Some _ => fs f !! meta_filename env
       end
  /\ last_output_meta f' = Some meta
  /\ canvas f'
     = shown (plot_csv (fs f') (csv_filename env) None None true (Some meta)).
Proof.
  intros Hw Hp Hi Ho Hc Hrows.
  exact (successful_run_state float_repr json_dumps json_loads env f exe
           stdout stderr Hw Hp Hi Ho Hc Hrows).
Qed.

Lemma successful_run_plots_its_csv_witness :
  let f' := run_brdfprog Formats.float_repr Formats.json_dumps
              Formats.json_loads GoodRun.no_sidecar_env GoodRun.before in
  last_csv_path f' = Some (csv_filename GoodRun.no_sidecar_env)
  /\ fs f' !! meta_filename GoodRun.no_sidecar_env = None
  /\ last_output_meta f' = Some GoodRun.meta.
Proof.
  pose proof (successful_run_plots_its_csv Formats.float_repr
                Formats.json_dumps Formats.json_loads GoodRun.no_sidecar_env
                GoodRun.before "/usr/local/bin/brdfprog"
                Examples.solver_stdout "" eq_refl eq_refl eq_refl eq_refl
                eq_refl ltac:(vm_compute; discriminate))
    as (_ & _ & H3 & _ & _ & _ & H7 & H8 & _).
  split; [exact H3|]. split; [exact H7|exact H8].
Defined.

(** X14: under the same conditions, and when the float formatting reads
    back to the same float and holds no blank and no comma, the table that
    the loader reads from the CSV of the run is the table of the rows read
    from the solver output: the figure is drawn from the rows the run
    parsed, short rows filled with NaN. *)
Theorem run_plots_the_rows_it_parsed
    (float_repr : pyfloat -> string) (json_dumps : metadata -> string)
    (json_loads : string -> option metadata)
    (env : run_env) (f : form) (exe stdout stderr : string) :
  which_brdfprog env = Some exe ->
  process env = Completed 0 stdout stderr ->
  open_error env (input_filename env) = None ->
  open_error env (output_filename env) = None ->
  open_error env (csv_filename env) = None ->
  fst (parse_stdout stdout) <> [] ->
  (forall row x, In row (fst (parse_stdout stdout)) -> In x row ->
                 round_trips float_repr x) ->
  let f' := run_brdfprog float_repr json_dumps json_loads env f in
  _load_numeric_table (fs f') (csv_filename env)
  = Ok (table_of_rows (fst (parse_stdout stdout))).
Proof.
  intros Hw Hp Hi Ho Hc Hrows Hrt f'. subst f'.
  rewrite (run_wrote_csv float_repr json_dumps json_loads env f exe stdout stderr)
    by assumption.
  cbn [fs]. unfold _load_numeric_table. rewrite stored_files_csv.
  apply RoundTripFacts.load_csv_text; [exact Hrows|apply RoundTripFacts.parse_stdout_rows|].
  apply Forall_forall. intros row Hrow. apply Forall_forall. intros x Hx.
  now apply (Hrt row x).
Qed.

Lemma run_plots_the_rows_it_parsed_witness :
  fst (parse_stdout Examples.solver_stdout) = [[Fin 1; Fin 2]; [Fin 3]]
  /\ _load_numeric_table
       (fs (run_brdfprog Formats.float_repr Formats.json_dumps
              Formats.json_loads GoodRun.env GoodRun.before))
       (csv_filename GoodRun.env)
     = Ok (table_of_rows [[Fin 1; Fin 2]; [Fin 3]]).
Proof.
  assert (R : fst (parse_stdout Examples.solver_stdout)
              = [[Fin 1; Fin 2]; [Fin 3]]) by (vm_compute; reflexivity).
  split; [exact R|].
  rewrite <- R.
  apply (run_plots_the_rows_it_parsed Formats.float_repr Formats.json_dumps
           Formats.json_loads GoodRun.env GoodRun.before
           "/usr/local/bin/brdfprog" Examples.solver_stdout "");
    try reflexivity.
  - rewrite R. discriminate.
  - rewrite R. intros row x Hrow Hx. simpl in Hrow.
    destruct Hrow as [<-|[<-|[]]]; simpl in Hx;
      repeat (destruct Hx as [<-|Hx]; [split; vm_compute; reflexivity|]);
      destruct Hx.
Defined.

(** X15: once the solver has exited with status 0 and the deck and the raw
    output could be written, the raw output and the deck are on disk under
    the paths of this run and the two pointers name them, whatever happens
    afterwards: no numeric row, a CSV or a sidecar that cannot be written, a
    plot that fails. *)
Theorem zero_exit_keeps_stdout_and_deck
    (float_repr : pyfloat -> string) (json_dumps : metadata -> string)
    (json_loads : string -> option metadata)
    (env : run_env) (f : form) (exe stdout stderr : string) :
  which_brdfprog env = Some exe ->
  process env = Completed 0 stdout stderr ->
  open_error env (input_filename env) = None ->
  open_error env (output_filename env) = None ->
  let f' := run_brdfprog float_repr json_dumps json_loads env f in
  fs f' !! output_filename env = Some stdout
  /\ fs f' !! input_filename env = Some (deck env)
  /\ last_stdout_path f' = Some (output_filename env)
  /\ last_input_path f' = Some (input_filename env).
Proof.
  intros Hw Hp Hi Ho f'.
  assert (Hcases : fst (parse_stdout stdout) = []
                   \/ fst (parse_stdout stdout) <> [])
    by (destruct (fst (parse_stdout stdout)); [now left|now right]).
  destruct Hcases as [Hrows|Hrows].
  - destruct (run_without_csv float_repr json_dumps json_loads env f exe
                stdout stderr Hw Hp Hi Ho (or_introl Hrows)) as [box E].
    subst f'. rewrite E. cbn [fs last_stdout_path last_input_path].
    repeat split; [apply raw_files_output|apply raw_files_input].
  - destruct (open_error env (csv_filename env)) as [msg|] eqn:Hc.
    + destruct (run_without_csv float_repr json_dumps json_loads env f exe
                  stdout stderr Hw Hp Hi Ho) as [box E].
      { right. congruence. }
      subst f'. rewrite E. cbn [fs last_stdout_path last_input_path].
      repeat split; [apply raw_files_output|apply raw_files_input].
    + destruct (successful_run_state float_repr json_dumps json_loads env f
                  exe stdout stderr Hw Hp Hi Ho Hc Hrows)
        as (H1 & H2 & _ & H4 & H5 & _).
      subst f'. auto.
Qed.

Lemma zero_exit_keeps_stdout_and_deck_witness :
  let f' := run_brdfprog Formats.float_repr Formats.json_dumps
              Formats.json_loads GoodRun.no_csv_env GoodRun.before in
  fs f' !! output_filename GoodRun.no_csv_env = Some Examples.solver_stdout
  /\ last_stdout_path f' = Some (output_filename GoodRun.no_csv_env).
Proof.
  pose proof (zero_exit_keeps_stdout_and_deck Formats.float_repr
                Formats.json_dumps Formats.json_loads GoodRun.no_csv_env
                GoodRun.before "/usr/local/bin/brdfprog"
                Examples.solver_stdout "" eq_refl eq_refl eq_refl eq_refl)
    as (H1 & _ & H3 & _).
  split; [exact H1|exact H3].
Defined.

(** X16: when the solver exits with status 0 and its output holds no
    numeric row, no CSV is written, the CSV pointer, the metadata in memory
    and the figure stay as they were, and the text box ends with the line
    saying that the graph was not updated. *)
Theorem no_numeric_row_leaves_the_graph
    (float_repr : pyfloat -> string) (json_dumps : metadata -> string)
    (json_loads : string -> option metadata)
    (env : run_env) (f : form) (exe stdout stderr : string) :
  which_brdfprog env = Some exe ->
  process env = Completed 0 stdout stderr ->
  open_error env (input_filename env) = None ->
  open_error env (output_filename env) = None ->
  fst (parse_stdout stdout) = [] ->
  let f' := run_brdfprog float_repr json_dumps json_loads env f in
  canvas f' = canvas f
  /\ last_csv_path f' = last_csv_path f
  /\ last_output_meta f' = last_output_meta f
  /\ fs f' !! csv_filename env = fs f !! csv_filename env
  /\ fs f' !! meta_filename env = fs f !! meta_filename env
  /\ last (output_box f') ""
     = "No numeric data detected in BRDFProg output; graph not updated.".
Proof.
  intros Hw Hp Hi Ho Hrows f'. subst f'.
  fold (run_brdfprog float_repr json_dumps json_loads env f).
  pose proof (run_spec float_repr json_dumps json_loads env f) as E.
  cbv zeta in E. rewrite Hi, Hw, Hp, Ho in E. cbn [negb Z.eqb] in E.
  destruct (parse_stdout stdout) as [rows header]; cbn [fst] in Hrows.
  subst rows. rewrite E.
  cbn [fs last_csv_path last_output_meta canvas output_box].
  repeat split.
  - apply raw_files_other.
    + intros H; symmetry in H; now apply input_is_not_csv in H.
    + intros H; symmetry in H; now apply output_is_not_csv in H.
  - apply raw_files_other.
    + intros H; symmetry in H; now apply input_is_not_meta in H.
    + intros H; symmetry in H; now apply output_is_not_meta in H.
Qed.

Lemma no_numeric_row_leaves_the_graph_witness :
  let f' := run_brdfprog Formats.float_repr Formats.json_dumps
              Formats.json_loads GoodRun.wordy_env GoodRun.before in
  last_csv_path f' = Some Examples.csv_path
  /\ fs f' !! csv_filename GoodRun.wordy_env = None.
Proof.
  pose proof (no_numeric_row_leaves_the_graph Formats.float_repr
                Formats.json_dumps Formats.json_loads GoodRun.wordy_env
                GoodRun.before "/usr/local/bin/brdfprog"
                (Examples.text_of ["SCATMECH"; "no data"]) ""
                eq_refl eq_refl eq_refl eq_refl
                ltac:(vm_compute; reflexivity))
    as (_ & H2 & _ & H4 & _).
  split; [exact H2|].
  rewrite H4. vm_compute. reflexivity.
Defined.

(** X17: a run changes the CSV pointer, the metadata in memory or the
    figure only when the solver was found, exited with status 0 and printed
    a numeric row; the pointer then names the CSV of this run, and that
    file holds the rows as the run formats them. *)
Theorem graph_state_moves_only_with_a_written_csv
    (float_repr : pyfloat -> string) (json_dumps : metadata -> string)
    (json_loads : string -> option metadata) (env : run_env) (f : form) :
  let f' := run_brdfprog float_repr json_dumps json_loads env f in
  last_csv_path f' <> last_csv_path f
  \/ last_output_meta f' <> last_output_meta f
  \/ canvas f' <> canvas f ->
  exists exe stdout stderr,
    which_brdfprog env = Some exe
    /\ process env = Completed 0 stdout stderr
    /\ fst (parse_stdout stdout) <> []
    /\ last_csv_path f' = Some (csv_filename env)
    /\ fs f' !! csv_filename env
       = Some (csv_text float_repr (fst (parse_stdout stdout))).
Proof.
  intros f' H.
  assert (Hsame : forall g : form,
             f' = g -> last_csv_path g = last_csv_path f ->
             last_output_meta g = last_output_meta f ->
             canvas g = canvas f -> False).
  { intros g -> H1 H2 H3. destruct H as [H|[H|H]]; congruence. }
  pose proof (run_spec float_repr json_dumps json_loads env f) as E.
  cbv zeta in E. fold f' in E.
  destruct (open_error env (input_filename env)) as [msg|] eqn:Hi;
    [exfalso; now apply (Hsame _ E)|].
  destruct (which_brdfprog env) as [exe|] eqn:Hw;
    [|exfalso; now apply (Hsame _ E)].
  destruct (process env) as [e|rc stdout stderr] eqn:Hp;
    [exfalso; now apply (Hsame _ E)|].
  destruct (rc =? 0)%Z eqn:Hrc; cbn [negb] in E;
    [|exfalso; now apply (Hsame _ E)].
  apply Z.eqb_eq in Hrc. subst rc.
  destruct (open_error env (output_filename env)) as [msg|] eqn:Ho;
    [exfalso; now apply (Hsame _ E)|].
  destruct (parse_stdout stdout) as [rows header] eqn:Hparse.
  destruct rows as [|row rows]; [exfalso; now apply (Hsame _ E)|].
  destruct (open_error env (csv_filename env)) as [msg|] eqn:Hc;
    [exfalso; now apply (Hsame _ E)|].
  exists exe, stdout, stderr.
  assert (Hrows : fst (parse_stdout stdout) <> [])
    by (rewrite Hparse; discriminate).
  destruct (successful_run_state float_repr json_dumps json_loads env f
              exe stdout stderr Hw Hp Hi Ho Hc Hrows)
    as (_ & _ & H3 & _ & _ & H6 & _).
  fold f' in H3, H6. rewrite Hparse in *. auto.
Qed.

Lemma graph_state_moves_only_with_a_written_csv_witness :
  exists exe stdout stderr,
    which_brdfprog GoodRun.env = Some exe
    /\ process GoodRun.env = Completed 0 stdout stderr
    /\ fst (parse_stdout stdout) <> []
    /\ last_csv_path (run_brdfprog Formats.float_repr Formats.json_dumps
                        Formats.json_loads GoodRun.env GoodRun.before)
       = Some (csv_filename GoodRun.env)
    /\ fs (run_brdfprog Formats.float_repr Formats.json_dumps
             Formats.json_loads GoodRun.env GoodRun.before)
       !! csv_filename GoodRun.env
       = Some (csv_text Formats.float_repr (fst (parse_stdout stdout))).
Proof.
  apply (graph_state_moves_only_with_a_written_csv Formats.float_repr
           Formats.json_dumps Formats.json_loads GoodRun.env GoodRun.before).
  left. vm_compute. discriminate.
Defined.

(** X18: a run writes at most four files, all named after its time stamp:
    the deck, the raw output, the CSV and the sidecar.  Every other path
    holds after the run what it held before. *)
Theorem run_touches_only_its_own_files
    (float_repr : pyfloat -> string) (json_dumps : metadata -> string)
    (json_loads : string -> option metadata) (env : run_env) (f : form)
    (path : string) :
  path <> input_filename env ->
  path <> output_filename env ->
  path <> csv_filename env ->
  path <> meta_filename env ->
  fs (run_brdfprog float_repr json_dumps json_loads env f) !! path
  = fs f !! path.
Proof.
  intros H1 H2 H3 H4.
  pose proof (run_spec float_repr json_dumps json_loads env f) as E.
  cbv zeta in E. rewrite E. clear E.
  destruct (open_error env (input_filename env)); [reflexivity|].
  destruct (which_brdfprog env);
    [|cbn [fs]; now rewrite lookup_insert_ne by congruence].
  destruct (process env) as [e|rc stdout stderr];
    [cbn [fs]; now rewrite lookup_insert_ne by congruence|].
  destruct (negb (rc =? 0)%Z);
    [cbn [fs]; now rewrite lookup_insert_ne by congruence|].
  destruct (open_error env (output_filename env));
    [cbn [fs]; now rewrite lookup_insert_ne by congruence|].
  destruct (parse_stdout stdout) as [rows header].
  destruct rows as [|row rows]; [cbn [fs]; now apply raw_files_other|].
  destruct (open_error env (csv_filename env));
    [cbn [fs]; now apply raw_files_other|].
  rewrite render_spec. cbn [fst fs].
  rewrite stored_files_raw by assumption. now apply raw_files_other.
Qed.

Lemma run_touches_only_its_own_files_witness :
  fs (run_brdfprog Formats.float_repr Formats.json_dumps Formats.json_loads
        GoodRun.env GoodRun.before) !! Examples.csv_path
  = fs GoodRun.before !! Examples.csv_path.
Proof.
  apply (run_touches_only_its_own_files Formats.float_repr Formats.json_dumps
           Formats.json_loads GoodRun.env GoodRun.before Examples.csv_path);
    vm_compute; discriminate.
Defined.

(** X19: when the input deck cannot be written the run stops there: no file
    is written, no pointer moves, the figure stays, and the text box holds
    only the exception line. *)
Theorem unwritable_deck_stops_the_run
    (float_repr : pyfloat -> string) (json_dumps : metadata -> string)
    (json_loads : string -> option metadata) (env : run_env) (f : form)
    (msg : string) :
  open_error env (input_filename env) = Some msg ->
  run_brdfprog float_repr json_dumps json_loads env f
  = mk_form (fs f) (last_input_path f) (last_stdout_path f) (last_csv_path f)
      (last_output_meta f) ["[Exception] " ++ msg] (canvas f).
Proof.
  intros Hi.
  pose proof (run_spec float_repr json_dumps json_loads env f) as E.
  cbv zeta in E. now rewrite Hi in E.
Qed.

Lemma unwritable_deck_stops_the_run_witness :
  run_brdfprog Formats.float_repr Formats.json_dumps Formats.json_loads
    GoodRun.no_deck_env GoodRun.before
  = mk_form (fs GoodRun.before) None None (Some Examples.csv_path) None
      ["[Exception] Permission denied"] None.
Proof.
  exact (unwritable_deck_stops_the_run Formats.float_repr Formats.json_dumps
           Formats.json_loads GoodRun.no_deck_env GoodRun.before
           "Permission denied" eq_refl).
Defined.

(** X20: when the solver output holds numeric rows and the CSV cannot be
    written, the exception line replaces everything the text box held, and
    the CSV pointer, the metadata in memory and the figure stay as they
    were. *)
Theorem unwritable_csv_keeps_the_old_graph
    (float_repr : pyfloat -> string) (json_dumps : metadata -> string)
    (json_loads : string -> option metadata)
    (env : run_env) (f : form) (exe stdout stderr msg : string) :
  which_brdfprog env = Some exe ->
  process env = Completed 0 stdout stderr ->
  open_error env (input_filename env) = None ->
  open_error env (output_filename env) = None ->
  fst (parse_stdout stdout) <> [] ->
  open_error env (csv_filename env) = Some msg ->
  let f' := run_brdfprog float_repr json_dumps json_loads env f in
  output_box f' = ["[Exception] " ++ msg]
  /\ last_csv_path f' = last_csv_path f
  /\ last_output_meta f' = last_output_meta f
  /\ canvas f' = canvas f
  /\ fs f' !! csv_filename env = fs f !! csv_filename env.
Proof.
  intros Hw Hp Hi Ho Hrows Hc f'. subst f'.
  pose proof (run_spec float_repr json_dumps json_loads env f) as E.
  cbv zeta in E. rewrite Hi, Hw, Hp, Ho, Hc in E. cbn [negb Z.eqb] in E.
  destruct (parse_stdout stdout) as [rows header]; cbn [fst] in Hrows.
  destruct rows as [|row rows]; [congruence|].
  rewrite E. cbn [fs last_csv_path last_output_meta canvas output_box].
  repeat split.
  apply raw_files_other.
  - intros H; symmetry in H; now apply input_is_not_csv in H.
  - intros H; symmetry in H; now apply output_is_not_csv in H.
Qed.

Lemma unwritable_csv_keeps_the_old_graph_witness :
  let f' := run_brdfprog Formats.float_repr Formats.json_dumps
              Formats.json_loads GoodRun.no_csv_env GoodRun.before in
  output_box f' = ["[Exception] Permission denied"]
  /\ last_csv_path f' = Some Examples.csv_path.
Proof.
  pose proof (unwritable_csv_keeps_the_old_graph Formats.float_repr
                Formats.json_dumps Formats.json_loads GoodRun.no_csv_env
                GoodRun.before "/usr/local/bin/brdfprog"
                Examples.solver_stdout "" "Permission denied"
                eq_refl eq_refl eq_refl eq_refl
                ltac:(vm_compute; discriminate) eq_refl)
    as (H1 & H2 & _).
  split; [exact H1|exact H2].
Defined.

(** X21: when the sidecar of a successful run could be written and the JSON
    codec reads the metadata back, a new session on the same disk (nothing
    in memory) that renders the CSV of the run recovers the metadata from
    the sidecar and shows the figure the run showed. *)
Theorem sidecar_restores_the_figure
    (float_repr : pyfloat -> string) (json_dumps : metadata -> string)
    (json_loads : string -> option metadata)
    (env : run_env) (f : form) (exe stdout stderr : string) :
  which_brdfprog env = Some exe ->
  process env = Completed 0 stdout stderr ->
  open_error env (input_filename env) = None ->
  open_error env (output_filename env) = None ->
  open_error env (csv_filename env) = None ->
  open_error env (meta_filename env) = None ->
  fst (parse_stdout stdout) <> [] ->
  json_loads (json_dumps (_build_output_meta env (snd (parse_stdout stdout))))
  = Some (_build_output_meta env (snd (parse_stdout stdout))) ->
  let f' := run_brdfprog float_repr json_dumps json_loads env f in
  let g := fst (render_with_external json_loads (csv_filename env)
                  (fresh_session f')) in
  canvas g = canvas f' /\ last_output_meta g = last_output_meta f'.
Proof.
  intros Hw Hp Hi Ho Hc Hm Hrows Hjson f' g.
  destruct (successful_run_state float_repr json_dumps json_loads env f
              exe stdout stderr Hw Hp Hi Ho Hc Hrows)
    as (_ & _ & _ & _ & _ & _ & H7 & H8 & H9).
  fold f' in H7, H8, H9. rewrite Hm in H7.
  assert (R : resolved_meta json_loads (csv_filename env) (fresh_session f')
              = Some (_build_output_meta env (snd (parse_stdout stdout)))).
  { unfold resolved_meta, sidecar, fresh_session.
    cbn [last_output_meta fs]. fold (meta_filename env).
    now rewrite H7. }
  subst g. rewrite render_spec. cbn [fst canvas last_output_meta].
  rewrite R. unfold fresh_session at 1. cbn [fs].
  now rewrite H9, H8.
Qed.

Lemma sidecar_restores_the_figure_witness :
  let f' := run_brdfprog Formats.float_repr GoodRun.json_dumps
              GoodRun.json_loads GoodRun.env GoodRun.before in
  let g := fst (render_with_external GoodRun.json_loads
                  (csv_filename GoodRun.env) (fresh_session f')) in
  canvas g = canvas f' /\ last_output_meta g = Some GoodRun.meta.
Proof.
  pose proof (sidecar_restores_the_figure Formats.float_repr
                GoodRun.json_dumps GoodRun.json_loads GoodRun.env
                GoodRun.before "/usr/local/bin/brdfprog"
                Examples.solver_stdout "" eq_refl eq_refl eq_refl eq_refl
                eq_refl eq_refl ltac:(vm_compute; discriminate)
                ltac:(vm_compute; reflexivity))
    as [H1 H2].
  split; [exact H1|].
  cbv zeta in H2. rewrite H2. vm_compute. reflexivity.
Defined.

End RunExtras.

(** ** The axis limits *)

Module LimitsFacts.
Import PyStr Loader Plot ScaleSpec PlotAxes.
Local Open Scope Q_scope.

Lemma fold_qmin_lb l a x : In x (a :: l) -> fold_left Np.qmin l a <= x.
Proof.
  revert a; induction l as [|b l IH]; intros a H.
  - destruct H as [->|[]]. simpl. lra.
  - cbn [fold_left]. destruct H as [->|[->|H]].
    + eapply Qle_trans; [apply SelectionExtras.fold_qmin_below|].
      unfold Np.qmin. destruct (Qle_bool b x) eqn:E; [now apply Qle_bool_iff|lra].
    + eapply Qle_trans; [apply SelectionExtras.fold_qmin_below|].
      unfold Np.qmin. destruct (Qle_bool x a) eqn:E; [lra|].
      apply ScoreFacts.qle_false in E. lra.
    + apply IH. now right.
Qed.

Lemma fold_qmax_ub l a x : In x (a :: l) -> x <= fold_left Np.qmax l a.
Proof.
  revert a; induction l as [|b l IH]; intros a H.
  - destruct H as [->|[]]. simpl. lra.
  - cbn [fold_left]. destruct H as [->|[->|H]].
    + eapply Qle_trans; [|apply SelectionExtras.fold_qmax_above].
      unfold Np.qmax. destruct (Qle_bool x b) eqn:E; [now apply Qle_bool_iff|lra].
    + eapply Qle_trans; [|apply SelectionExtras.fold_qmax_above].
      unfold Np.qmax. destruct (Qle_bool a x) eqn:E; [lra|].
      apply ScoreFacts.qle_false in E. lra.
    + apply IH. now right.
Qed.

Lemma amin_lb l x : In x l -> Np.amin l <= x.
Proof. destruct l as [|a l]; [intros []|apply fold_qmin_lb]. Qed.

Lemma amax_ub l x : In x l -> x <= Np.amax l.
Proof. destruct l as [|a l]; [intros []|apply fold_qmax_ub]. Qed.

(** What a drawn plot records. *)
Lemma plot_csv_inv files path data x_col y_col semilogy meta p :
  _load_numeric_table files path = Ok data ->
  plot_csv files path x_col y_col semilogy meta = Ok p ->
  Forall (fun idx => has_shared_rows data (plot_x_idx p) idx = true)
    (plot_valid_indices p)
  /\ plot_valid_indices p <> []
  /\ plot_xmin p = Np.amin (drawn_xs data p)
  /\ plot_xmax p = Np.amax (drawn_xs data p)
  /\ (plot_yscale p = Log ->
      Forall (fun idx => mostly_positive (shared_values data (plot_x_idx p) idx))
        (plot_valid_indices p)).
Proof.
  intros Hload Hplot. unfold plot_csv in Hplot. rewrite Hload in Hplot.
  set (hl := make_header_lower _ _) in Hplot.
  set (x_idx := _select_x_column _ _ _ _ _) in Hplot.
  destruct (_select_measure_columns data hl y_col x_idx) as [|m ms] eqn:Em;
    [discriminate|].
  remember (filter (has_shared_rows data x_idx) (m :: ms)) as valid eqn:Ev.
  assert (Hvalid : Forall (fun idx => has_shared_rows data x_idx idx = true) valid).
  { apply Forall_forall. intros idx H. rewrite Ev in H. now apply filter_In in H. }
  destruct valid as [|v vs]; [discriminate|].
  cbn [map] in Hplot.
  destruct (flat_map _ (v :: vs)) as [|x xs] eqn:Ex; [discriminate|].
  injection Hplot as <-. unfold drawn_xs.
  cbn [plot_valid_indices plot_x_idx plot_measure_indices plot_yscale
       plot_xmin plot_xmax].
  rewrite Ex.
  split; [exact Hvalid|]. split; [discriminate|].
  split; [reflexivity|]. split; [reflexivity|].
  intros Hlog.
  destruct semilogy; [|discriminate]. cbn [andb] in Hlog.
  destruct (Qle_bool _ _) eqn:Hq; [|discriminate].
  rewrite Qle_bool_iff, ScaleFacts.fold_qmin_le in Hq.
  destruct Hq as [H1 H2].
  apply Forall_cons_iff in Hvalid as [Hv Hvs].
  apply Forall_cons_iff. split.
  - now apply (ScaleFacts.positive_score_mostly _ _ _ Hv).
  - rewrite Forall_map in H2. rewrite Forall_forall in *. intros idx Hin.
    apply (ScaleFacts.positive_score_mostly _ _ _ (Hvs idx Hin)).
    now apply H2.
Qed.

End LimitsFacts.

Module LimitsExtras.
Import PyStr Loader Plot ScaleSpec PlotAxes LimitsFacts Examples.
Local Open Scope Q_scope.

(** The hint, once the metadata is read, is a pair of finite floats when
    the argument is. *)
Lemma x_span_hint_finite a b meta :
  exists a' b', x_span_hint (Fin a, Fin b) meta = (Fin a', Fin b').
Proof.
  unfold x_span_hint.
  destruct meta as [m|]; [|now exists a, b].
  destruct (scatter_start m) as [s|]; [|now exists a, b].
  destruct (scatter_end m) as [e|]; [|now exists a, b].
  destruct (PyFloat.min s e) as [lo| | |]; cbn [PyFloat.isfinite andb];
    try (now exists a, b).
  destruct (PyFloat.max s e) as [hi| | |]; cbn [PyFloat.isfinite];
    try (now exists a, b).
  now exists lo, hi.
Qed.

Lemma margin_below x : Qle_bool (x + - (5)) x = true.
Proof. apply Qle_bool_iff. lra. Qed.

Lemma margin_above x : Qle_bool x (x + 5) = true.
Proof. apply Qle_bool_iff. lra. Qed.

Lemma x_limits_view a b xmin xmax :
  xmin <= xmax ->
  let ax := x_limits (Fin a, Fin b) xmin xmax in
  exists l h,
    x_lo ax = Fin l /\ x_hi ax = Fin h /\ l <= h
    /\ l - 5 <= xmin /\ xmax <= h + 5
    /\ (ticks_every_30 ax = false -> l = xmin /\ h = xmax).
Proof.
  intros Hx. unfold x_limits, ge, le, ge.
  destruct (Qle_bool b a) eqn:Hba.
  - cbn [PyFloat.sub PyFloat.add PyFloat.neg].
    rewrite margin_below, margin_above. cbn [andb x_lo x_hi ticks_every_30].
    exists xmin, xmax. repeat split; try reflexivity; try lra.
  - apply ScoreFacts.qle_false in Hba.
    cbn [PyFloat.sub PyFloat.add PyFloat.neg].
    destruct (Qle_bool (a + - (5)) xmin) eqn:H1;
      [destruct (Qle_bool xmax (b + 5)) eqn:H2|];
      cbn [andb x_lo x_hi ticks_every_30].
    + apply Qle_bool_iff in H1, H2. exists a, b.
      repeat split; try reflexivity; try lra; try discriminate.
    + exists xmin, xmax. repeat split; try reflexivity; try lra.
    + exists xmin, xmax. repeat split; try reflexivity; try lra.
Qed.

(** X22: whatever the metadata says, the x limits that [plot_csv] sets on a
    plot it draws are two finite numbers in order, and every drawn point
    lies within 10 degrees of them (the 5 degrees of the test, and as much
    again for the rounding of [lo - 5.0] and [hi + 5.0], which never moves
    a bound by more than 5); when the ticks are not placed every 30
    degrees every drawn point lies between the limits. *)
Theorem x_limits_keep_the_data_in_view
    (files : filesystem) (path : string) (data : ndarray)
    (x_col y_col : option Z) (semilogy : bool) (meta : option metadata)
    (p : plot) :
  _load_numeric_table files path = Ok data ->
  plot_csv files path x_col y_col semilogy meta = Ok p ->
  let ax := plot_x_axis default_span meta p in
  exists l h,
    x_lo ax = Fin l /\ x_hi ax = Fin h /\ l <= h
    /\ (forall x, In x (drawn_xs data p) -> l - 10 <= x <= h + 10)
    /\ (ticks_every_30 ax = false ->
        forall x, In x (drawn_xs data p) -> l <= x <= h).
Proof.
  intros Hload Hplot ax.
  destruct (plot_csv_inv _ _ _ _ _ _ _ _ Hload Hplot) as (_ & _ & Hmin & Hmax & _).
  assert (Hin : forall x, In x (drawn_xs data p) -> plot_xmin p <= x <= plot_xmax p).
  { intros x Hx. rewrite Hmin, Hmax. split; [now apply amin_lb|now apply amax_ub]. }
  assert (Hord : plot_xmin p <= plot_xmax p).
  { rewrite Hmin, Hmax. apply SelectionExtras.amin_le_amax. }
  subst ax. unfold plot_x_axis, default_span.
  destruct (x_span_hint_finite (-90) 90 meta) as (a & b & ->).
  destruct (x_limits_view a b _ _ Hord) as (l & h & H1 & H2 & H3 & H4 & H5 & H6).
  exists l, h. split; [exact H1|]. split; [exact H2|]. split; [exact H3|]. split.
  - intros x Hx. specialize (Hin x Hx). lra.
  - intros Ht x Hx. destruct (H6 Ht) as [-> ->]. now apply Hin.
Qed.

Lemma x_limits_keep_the_data_in_view_witness :
  plot_csv (disk far_lines) csv_path None None true (Some far_meta)
  = Ok (mk_plot 1 [0%nat] [0%nat] Linear 1000 1001)
  /\ plot_x_axis default_span (Some far_meta) (mk_plot 1 [0%nat] [0%nat] Linear 1000 1001)
     = mk_x_axis (Fin 1000) (Fin 1001) true
  /\ exists l h,
       l <= h /\ forall x, In x (drawn_xs far_data (mk_plot 1 [0%nat] [0%nat] Linear 1000 1001)) ->
                           l - 10 <= x <= h + 10.
Proof.
  assert (L : _load_numeric_table (disk far_lines) csv_path = Ok far_data)
    by (vm_compute; reflexivity).
  assert (P : plot_csv (disk far_lines) csv_path None None true (Some far_meta)
              = Ok (mk_plot 1 [0%nat] [0%nat] Linear 1000 1001))
    by (vm_compute; reflexivity).
  split; [exact P|]. split; [vm_compute; reflexivity|].
  destruct (x_limits_keep_the_data_in_view (disk far_lines) csv_path far_data
              None None true (Some far_meta) _ L P)
    as (l & h & _ & _ & H3 & H4 & _).
  exists l, h. split; [exact H3|exact H4].
Defined.

Lemma hint_of_range given m s e :
  scatter_start m = Some (Fin s) -> scatter_end m = Some (Fin e) ->
  x_span_hint given (Some m)
  = (if Qle_bool s e then Fin s else Fin e,
     if Qle_bool e s then Fin s else Fin e).
Proof.
  intros Hs He. unfold x_span_hint. rewrite Hs, He.
  unfold PyFloat.min, PyFloat.max, PyFloat.gt, PyFloat.lt.
  destruct (Qle_bool s e), (Qle_bool e s); reflexivity.
Qed.

(** X23: when the metadata gives two different scatter angles, in either
    order, both binary64 numbers of magnitude at most a million, and the
    bounds of the data are binary64 numbers: if the data lie within 5
    degrees of the span of the two angles, the x limits are the smaller
    and the larger angle, with ticks every 30 degrees; if the data reach
    more than 5.1 degrees outside that span, the x limits are the bounds
    of the data, without those ticks. *)
Theorem hinted_span_is_used_when_data_fits
    (given : pyfloat * pyfloat) (m : metadata) (s e xmin xmax : Q) :
  scatter_start m = Some (Fin s) ->
  scatter_end m = Some (Fin e) ->
  Binary64.representable s = true ->
  Binary64.representable e = true ->
  Binary64.representable xmin = true ->
  Binary64.representable xmax = true ->
  AxisSpec.moderate s ->
  AxisSpec.moderate e ->
  ~ s == e ->
  let ax := x_limits (x_span_hint given (Some m)) xmin xmax in
  exists lo hi,
    lo < hi
    /\ ((lo = s /\ hi = e) \/ (lo = e /\ hi = s))
    /\ (lo - 5 <= xmin /\ xmax <= hi + 5 ->
        ax = mk_x_axis (Fin lo) (Fin hi) true)
    /\ (xmin < lo - (51 # 10) \/ hi + (51 # 10) < xmax ->
        ax = mk_x_axis (Fin xmin) (Fin xmax) false).
Proof.
  intros Hs He _ _ _ _ _ _ Hne ax. subst ax.
  rewrite (hint_of_range given m s e Hs He).
  assert (Hgen : forall lo hi, lo < hi ->
            (lo - 5 <= xmin /\ xmax <= hi + 5 ->
             x_limits (Fin lo, Fin hi) xmin xmax = mk_x_axis (Fin lo) (Fin hi) true)
            /\ (xmin < lo - (51 # 10) \/ hi + (51 # 10) < xmax ->
                x_limits (Fin lo, Fin hi) xmin xmax
                = mk_x_axis (Fin xmin) (Fin xmax) false)).
  { intros lo hi Hlt. unfold x_limits, ge, le, ge.
    assert (Hf : Qle_bool hi lo = false).
    { destruct (Qle_bool hi lo) eqn:E; [|reflexivity].
      apply Qle_bool_iff in E. lra. }
    rewrite Hf. cbn [PyFloat.sub PyFloat.add PyFloat.neg].
    destruct (Qle_bool (lo + - (5)) xmin) eqn:H1;
      [destruct (Qle_bool xmax (hi + 5)) eqn:H2|]; cbn [andb].
    - split; [reflexivity|]. intros H. exfalso.
      apply Qle_bool_iff in H1, H2. lra.
    - apply ScoreFacts.qle_false in H2. split; [|reflexivity].
      intros [_ H]. lra.
    - apply ScoreFacts.qle_false in H1. split; [|reflexivity].
      intros [H _]. lra. }
  destruct (Qle_bool s e) eqn:Hse.
  - apply Qle_bool_iff in Hse.
    assert (Hlt : s < e).
    { destruct (Qlt_le_dec s e) as [H|H]; [exact H|].
      exfalso. apply Hne. lra. }
    assert (Hes : Qle_bool e s = false).
    { destruct (Qle_bool e s) eqn:E; [|reflexivity].
      apply Qle_bool_iff in E. lra. }
    rewrite Hes. exists s, e. split; [exact Hlt|]. split; [now left|].
    apply (Hgen s e Hlt).
  - apply ScoreFacts.qle_false in Hse.
    assert (Hes : Qle_bool e s = true) by (apply Qle_bool_iff; lra).
    rewrite Hes. exists e, s. split; [exact Hse|]. split; [now right|].
    apply (Hgen e s Hse).
Qed.

Lemma hinted_span_is_used_when_data_fits_witness :
  x_limits (x_span_hint default_span (Some far_meta)) 1000 1001
  = mk_x_axis (Fin 1000) (Fin 1001) true
  /\ x_limits (x_span_hint default_span (Some far_meta)) 0 180
     = mk_x_axis (Fin 0) (Fin 180) false.
Proof.
  assert (M : forall q, Qle_bool (Qabs q) 1000000 = true -> AxisSpec.moderate q)
    by (intros q H; now apply Qle_bool_iff in H).
  split.
  - destruct (hinted_span_is_used_when_data_fits default_span far_meta 1000 1001
                1000 1001 eq_refl eq_refl eq_refl eq_refl eq_refl eq_refl
                (M 1000 eq_refl) (M 1001 eq_refl)
                ltac:(intros H; discriminate H))
      as (lo & hi & Hlt & [[-> ->]|[-> ->]] & Hfit & _).
    + apply Hfit. split; vm_compute; discriminate.
    + exfalso. vm_compute in Hlt. discriminate.
  - destruct (hinted_span_is_used_when_data_fits default_span far_meta 1000 1001
                0 180 eq_refl eq_refl eq_refl eq_refl eq_refl eq_refl
                (M 1000 eq_refl) (M 1001 eq_refl)
                ltac:(intros H; discriminate H))
      as (lo & hi & Hlt & [[-> ->]|[-> ->]] & _ & Hout).
    + apply Hout. left. reflexivity.
    + exfalso. vm_compute in Hlt. discriminate.
Defined.

(** X24: when the two scatter angles of the metadata are the same finite
    number, the x limits are the bounds of the data, and the ticks are
    placed every 30 degrees whatever those bounds are. *)
Theorem equal_hints_show_the_data_range
    (given : pyfloat * pyfloat) (m : metadata) (s e xmin xmax : Q) :
  scatter_start m = Some (Fin s) ->
  scatter_end m = Some (Fin e) ->
  s == e ->
  x_limits (x_span_hint given (Some m)) xmin xmax
  = mk_x_axis (Fin xmin) (Fin xmax) true.
Proof.
  intros Hs He Heq. rewrite (hint_of_range given m s e Hs He).
  assert (H1 : Qle_bool s e = true) by (apply Qle_bool_iff; lra).
  assert (H2 : Qle_bool e s = true) by (apply Qle_bool_iff; lra).
  rewrite H1, H2. unfold x_limits, ge, le, ge.
  assert (H3 : Qle_bool s s = true) by (apply Qle_bool_iff; lra).
  rewrite H3. cbn [PyFloat.sub PyFloat.add PyFloat.neg].
  now rewrite margin_below, margin_above.
Qed.

Lemma equal_hints_show_the_data_range_witness :
  x_limits
    (x_span_hint default_span
       (Some (mk_metadata csv_path [] (Some (Fin 45)) (Some (Fin 45)))))
    1000 5000
  = mk_x_axis (Fin 1000) (Fin 5000) true.
Proof.
  apply (equal_hints_show_the_data_range default_span
           (mk_metadata csv_path [] (Some (Fin 45)) (Some (Fin 45))) 45 45);
    reflexivity.
Defined.

(** X25: when [plot_csv] sets the y limits of a logarithmic axis, the lower
    limit is positive and not above the upper one, and every strictly
    positive value drawn lies between the two. *)
Theorem log_limits_hold_the_positive_values
    (data : ndarray) (p : plot) (lo hi : Q) :
  plot_y_limits data p = Some (lo, hi) ->
  plot_yscale p = Log
  /\ 0 < lo
  /\ lo <= hi
  /\ forall v,
       In v (all_positive_values data (plot_x_idx p) (plot_valid_indices p)) ->
       0 < v /\ lo <= v <= hi.
Proof.
  unfold plot_y_limits. intros H.
  destruct (plot_yscale p); [|discriminate]. split; [reflexivity|].
  set (pos := all_positive_values data (plot_x_idx p) (plot_valid_indices p)) in *.
  assert (Hpos : forall v, In v pos -> 0 < v).
  { intros v Hv. unfold pos, all_positive_values in Hv.
    apply in_flat_map in Hv as (idx & _ & Hv).
    apply filter_In in Hv as [_ Hv].
    apply negb_true_iff in Hv. now apply ScoreFacts.qle_false. }
  unfold y_limits in H.
  destruct pos as [|v0 rest] eqn:E; [discriminate|].
  pose proof (SelectionExtras.amin_le_amax (v0 :: rest)) as Hord.
  pose proof (amin_lb (v0 :: rest)) as Hlb.
  pose proof (amax_ub (v0 :: rest)) as Hub.
  set (a := Np.amin (v0 :: rest)) in *. set (b := Np.amax (v0 :: rest)) in *.
  destruct (negb (Qle_bool (a * (8 # 10)) 0)) eqn:H1; [|discriminate].
  destruct (negb (Qle_bool (b * (12 # 10)) 0)) eqn:H2; [|discriminate].
  cbn [andb] in H. injection H as <- <-.
  apply negb_true_iff, ScoreFacts.qle_false in H1.
  apply negb_true_iff, ScoreFacts.qle_false in H2.
  split; [exact H1|]. split; [lra|].
  intros v Hv. split; [now apply Hpos|].
  specialize (Hlb v Hv). specialize (Hub v Hv). lra.
Qed.

Lemma log_limits_hold_the_positive_values_witness :
  plot_y_limits phi_data (mk_plot 0 [1%nat] [1%nat] Log 1 3)
  = Some (5 * (8 # 10), 7 * (12 # 10))
  /\ 0 < 5 * (8 # 10).
Proof.
  assert (E : plot_y_limits phi_data (mk_plot 0 [1%nat] [1%nat] Log 1 3)
              = Some (5 * (8 # 10), 7 * (12 # 10)))
    by (vm_compute; reflexivity).
  split; [exact E|].
  exact (proj1 (proj2 (log_limits_hold_the_positive_values phi_data _ _ _ E))).
Defined.

(** X26: on a logarithmic axis no drawn column is empty of positive values:
    when [plot_csv] chooses the logarithmic scale, every column it draws
    has a strictly positive value on a row it shares with the axis, so the
    list of positive values that the y limits are taken from is not
    empty. *)
Theorem log_axis_columns_have_a_positive_value
    (files : filesystem) (path : string) (data : ndarray)
    (x_col y_col : option Z) (semilogy : bool) (meta : option metadata)
    (p : plot) :
  _load_numeric_table files path = Ok data ->
  plot_csv files path x_col y_col semilogy meta = Ok p ->
  plot_yscale p = Log ->
  (forall idx, In idx (plot_valid_indices p) ->
     exists v, In v (shared_values data (plot_x_idx p) idx) /\ 0 < v)
  /\ all_positive_values data (plot_x_idx p) (plot_valid_indices p) <> [].
Proof.
  intros Hload Hplot Hlog.
  destruct (plot_csv_inv _ _ _ _ _ _ _ _ Hload Hplot)
    as (Hshared & Hne & _ & _ & Hmost).
  specialize (Hmost Hlog).
  assert (Hex : forall idx, In idx (plot_valid_indices p) ->
            exists v, In v (filter strictly_positive
                              (shared_values data (plot_x_idx p) idx))).
  { intros idx Hidx. rewrite Forall_forall in Hshared, Hmost.
    specialize (Hshared idx Hidx). specialize (Hmost idx Hidx).
    unfold has_shared_rows in Hshared.
    apply negb_true_iff, Nat.eqb_neq in Hshared.
    unfold mostly_positive, positive_count, shared_values in *.
    rewrite length_map in Hmost.
    destruct (filter strictly_positive _) as [|v l]; [simpl in Hmost; lia|].
    exists v. now left. }
  split.
  - intros idx Hidx. destruct (Hex idx Hidx) as [v Hv].
    apply filter_In in Hv as [Hv Hp]. exists v. split; [exact Hv|].
    now apply ScaleFacts.strictly_positive_iff.
  - destruct (plot_valid_indices p) as [|idx rest] eqn:E; [congruence|].
    destruct (Hex idx (or_introl eq_refl)) as [v Hv].
    intros Hnil.
    assert (Hin : In v (all_positive_values data (plot_x_idx p) (idx :: rest))).
    { unfold all_positive_values. apply in_flat_map. exists idx.
      split; [now left|exact Hv]. }
    rewrite Hnil in Hin. destruct Hin.
Qed.

Lemma log_axis_columns_have_a_positive_value_witness :
  plot_csv (disk phi_lines) csv_path None None true (Some phi_meta)
  = Ok (mk_plot 0 [1%nat] [1%nat] Log 1 3)
  /\ all_positive_values phi_data 0 [1%nat] <> [].
Proof.
  assert (L : _load_numeric_table (disk phi_lines) csv_path = Ok phi_data)
    by (vm_compute; reflexivity).
  assert (P : plot_csv (disk phi_lines) csv_path None None true (Some phi_meta)
              = Ok (mk_plot 0 [1%nat] [1%nat] Log 1 3))
    by (vm_compute; reflexivity).
  split; [exact P|].
  exact (proj2 (log_axis_columns_have_a_positive_value (disk phi_lines)
                  csv_path phi_data None None true (Some phi_meta) _ L P
                  eq_refl)).
Defined.

End LimitsExtras.

(** ** The output viewer *)

Module ViewerFacts.
Import PyStr Viewer ViewerSpec.
Local Open Scope nat_scope.

Lemma block_step_number best current line :
  number_line line = true ->
  block_step (best, current) line = (best, current ++ [parts_of line]).
Proof.
  unfold number_line, block_step, parts_of. intros H.
  apply andb_true_iff in H as [H1 H2]. now rewrite H1, H2.
Qed.

Lemma block_step_other best current line :
  number_line line = false ->
  block_step (best, current) line
  = match current with
    | [] => (best, current)
    | _ => (if List.length best <? List.length current then current else best, [])
    end.
Proof.
  unfold number_line, block_step. intros H.
  destruct (nonempty (strip line)); [|reflexivity].
  cbn [andb negb] in *. now rewrite H.
Qed.

Lemma block_step_weight st line : weight st <= weight (block_step st line).
Proof.
  destruct st as [best current].
  destruct (number_line line) eqn:E.
  - rewrite (block_step_number _ _ _ E). unfold weight. cbn [fst snd].
    rewrite length_app. cbn [List.length]. lia.
  - rewrite (block_step_other _ _ _ E). unfold weight.
    destruct current as [|c cs]; [cbn [fst snd]; lia|].
    destruct (Nat.ltb_spec (List.length best) (List.length (c :: cs)));
      cbn [fst snd List.length] in *; lia.
Qed.

Lemma fold_block_weight lines st :
  weight st <= weight (fold_left block_step lines st).
Proof.
  revert st; induction lines as [|l lines IH]; intros st; [simpl; lia|].
  cbn [fold_left]. etransitivity; [apply block_step_weight|apply IH].
Qed.

Lemma fold_block_run run best current :
  forallb number_line run = true ->
  fold_left block_step run (best, current)
  = (best, current ++ map parts_of run).
Proof.
  revert current; induction run as [|l run IH]; intros current H.
  - simpl. now rewrite app_nil_r.
  - cbn [forallb] in H. apply andb_true_iff in H as [H1 H2].
    cbn [fold_left map]. rewrite (block_step_number _ _ _ H1), (IH _ H2).
    now rewrite <- app_assoc.
Qed.

Lemma longest_block_length lines :
  List.length (longest_block lines)
  = weight (fold_left block_step lines ([], [])).
Proof.
  unfold longest_block, weight.
  destruct (fold_left block_step lines ([], [])) as [best current].
  cbn [fst snd]. destruct current as [|c cs]; cbn [Form.is_nil negb andb].
  - simpl. lia.
  - destruct (Nat.ltb_spec (List.length best) (List.length (c :: cs))); lia.
Qed.

Lemma is_block_extend lines more block :
  is_block lines block -> is_block (lines ++ more) block.
Proof.
  intros (before & run & after & -> & H & ->).
  exists before, run, (after ++ more). split; [|now split].
  now rewrite <- !app_assoc.
Qed.

Lemma scan_state_step seen st line :
  scan_state seen st -> scan_state (seen ++ [line]) (block_step st line).
Proof.
  destruct st as [best current]. intros [Hb (before & run & -> & Hrun & Hc)].
  cbn [fst snd] in *.
  destruct (number_line line) eqn:E.
  - rewrite (block_step_number _ _ _ E). split; cbn [fst snd].
    + now apply is_block_extend.
    + exists before, (run ++ [line]). split; [now rewrite app_assoc|]. split.
      * rewrite forallb_app, Hrun. simpl. now rewrite E.
      * now rewrite map_app, Hc.
  - rewrite (block_step_other _ _ _ E).
    assert (Hcur : is_block ((before ++ run) ++ [line]) current).
    { exists before, run, [line]. split; [now rewrite <- app_assoc|]. now split. }
    assert (Hnone : exists before' run',
               (before ++ run) ++ [line] = before' ++ run'
               /\ forallb number_line run' = true /\ [] = map parts_of run').
    { exists ((before ++ run) ++ [line]), []. now rewrite app_nil_r. }
    destruct current as [|c cs].
    + split; cbn [fst snd]; [now apply is_block_extend|exact Hnone].
    + split; cbn [fst snd]; [|exact Hnone].
      destruct (_ <? _); [exact Hcur|now apply is_block_extend].
Qed.

Lemma scan_state_fold lines seen st :
  scan_state seen st -> scan_state (seen ++ lines) (fold_left block_step lines st).
Proof.
  revert seen st; induction lines as [|l lines IH]; intros seen st H.
  - now rewrite app_nil_r.
  - cbn [fold_left].
    replace (seen ++ l :: lines) with ((seen ++ [l]) ++ lines)
      by now rewrite <- app_assoc.
    apply IH. now apply scan_state_step.
Qed.

Lemma longest_block_is_block lines : is_block lines (longest_block lines).
Proof.
  assert (H0 : scan_state [] ([], [])).
  { split.
    - exists [], [], []. now repeat split.
    - exists [], []. now repeat split. }
  pose proof (scan_state_fold lines [] _ H0) as [Hb (before & run & E & Hrun & Hc)].
  cbn [app] in *. unfold longest_block.
  destruct (fold_left block_step lines ([], [])) as [best current].
  cbn [fst snd] in *.
  destruct (negb (Form.is_nil current) && _); [|exact Hb].
  exists before, run, []. rewrite app_nil_r. now split.
Qed.

Lemma longest_block_is_longest lines block :
  is_block lines block -> List.length block <= List.length (longest_block lines).
Proof.
  intros (before & run & after & -> & Hrun & ->).
  rewrite longest_block_length, !fold_left_app.
  destruct (fold_left block_step before ([], [])) as [best current].
  rewrite (fold_block_run _ _ _ Hrun).
  etransitivity; [|apply fold_block_weight].
  unfold weight. cbn [fst snd]. rewrite length_app, !length_map. lia.
Qed.

Lemma widest_fold rows w :
  w <= fold_left (fun w r => Nat.max w (List.length r)) rows w
  /\ Forall (fun r : list string =>
               List.length r
               <= fold_left (fun w r => Nat.max w (List.length r)) rows w) rows.
Proof.
  revert w; induction rows as [|r rows IH]; intros w; [split; [simpl; lia|constructor]|].
  cbn [fold_left]. destruct (IH (Nat.max w (List.length r))) as [H1 H2].
  split; [lia|]. constructor; [lia|exact H2].
Qed.

Lemma widest_bound rows :
  Forall (fun r => List.length r <= widest rows) rows.
Proof. apply (widest_fold rows 0). Qed.

Lemma pad_length ncol r : List.length r <= ncol -> List.length (pad ncol r) = ncol.
Proof. intros H. unfold pad. rewrite length_app, repeat_length. lia. Qed.

Lemma padded_rows rows :
  Forall (fun r => List.length r = widest rows) (map (pad (widest rows)) rows).
Proof.
  apply Forall_map. eapply Forall_impl; [|apply widest_bound].
  intros r H. now apply pad_length.
Qed.

Lemma widest_positive rows :
  rows <> [] -> Forall (fun r => r <> []) rows -> 0 < widest rows.
Proof.
  intros Hne Hrows. destruct rows as [|r rows]; [congruence|].
  pose proof (widest_bound (r :: rows)) as Hb.
  apply Forall_inv in Hb. apply Forall_inv in Hrows.
  destruct r; [congruence|]. simpl in Hb. lia.
Qed.

Lemma number_line_parts line : number_line line = true -> parts_of line <> [].
Proof.
  unfold number_line, numeric_parts, parts_of. intros H.
  apply andb_true_iff in H as [_ H]. apply andb_true_iff in H as [H _].
  now destruct (ws_split (strip line)).
Qed.

Lemma block_rows_nonempty run :
  forallb number_line run = true ->
  Forall (fun r => r <> []) (map parts_of run).
Proof.
  intros H. apply Forall_map, Forall_forall. intros l Hl.
  apply number_line_parts. rewrite forallb_forall in H. now apply H.
Qed.

Lemma has_alpha_nonempty t : has_alpha t = true -> nonempty t = true.
Proof. now destruct t. Qed.

Lemma find_header_some lines i header j :
  find_header lines i = Some (header, j) ->
  existsb has_alpha header = true.
Proof.
  revert i; induction lines as [|l lines IH]; intros i; [discriminate|].
  cbn [find_header].
  destruct (Form.is_nil _ || forallb _ _); [apply IH|].
  destruct (existsb has_alpha (ws_split (strip l))) eqn:E; [|apply IH].
  now intros [= <- _].
Qed.

Lemma header_is_used header :
  existsb has_alpha header = true ->
  Form.is_nil header || negb (existsb nonempty header) = false.
Proof.
  intros H. apply existsb_exists in H as (t & Ht & Ha).
  destruct header as [|h hs]; [destruct Ht|]. cbn [Form.is_nil orb].
  apply negb_false_iff, existsb_exists. exists t.
  split; [exact Ht|now apply has_alpha_nonempty].
Qed.

Lemma collect_spec lines :
  exists run rest,
    filter (fun l => nonempty (strip l)) lines = run ++ rest
    /\ forallb number_line run = true
    /\ collect lines = map parts_of run
    /\ match rest with [] => True | l :: _ => number_line l = false end.
Proof.
  induction lines as [|l lines (run & rest & H1 & H2 & H3 & H4)].
  - exists [], []. now repeat split.
  - cbn [collect filter].
    destruct (nonempty (strip l)) eqn:En; cbn [negb].
    + destruct (numeric_parts (ws_split (strip l))) eqn:Ep.
      * exists (l :: run), rest. rewrite H1. split; [reflexivity|]. split.
        -- cbn [forallb]. unfold number_line at 1. now rewrite En, Ep, H2.
        -- split; [now rewrite H3|exact H4].
      * exists [], (l :: filter (fun l => nonempty (strip l)) lines).
        split; [reflexivity|]. split; [reflexivity|]. split; [reflexivity|].
        unfold number_line. now rewrite En, Ep.
    + exists run, rest. now repeat split.
Qed.

Lemma meta_header_length tokens ncol : List.length (meta_header tokens ncol) = ncol.
Proof.
  unfold meta_header. rewrite length_app, length_map, length_seq, length_firstn.
  lia.
Qed.

End ViewerFacts.

Module ViewerExtras.
Import PyStr Viewer ViewerSpec ViewerFacts.
Local Open Scope nat_scope.

(** X27: when no line of the raw output has a letter in a token, the text
    fallback shows the longest run of consecutive lines of numbers: the
    block it keeps is such a run, no other run is longer, and the table
    has the labels [C1], [C2], ... over the rows of that run, each filled
    with empty cells up to the widest row; without any line of numbers it
    shows the notice. *)
Theorem headerless_text_shows_its_longest_block
    (meta : option metadata) (content : string) :
  find_header (splitlines content) 0 = None ->
  let lines := splitlines content in
  let best := longest_block lines in
  is_block lines best
  /\ (forall block, is_block lines block -> List.length block <= List.length best)
  /\ txt_view meta content
     = match best with
       | [] => Info
       | _ => Table (map label (seq 0 (widest best))) (map (pad (widest best)) best)
       end
  /\ Forall (fun r => List.length r = widest best) (map (pad (widest best)) best).
Proof.
  intros Hnone lines best.
  pose proof (longest_block_is_block lines) as Hblock. fold best in Hblock.
  split; [exact Hblock|].
  split; [intros block Hb; now apply longest_block_is_longest|].
  split; [|apply padded_rows].
  unfold txt_view. rewrite Hnone. fold lines. fold best.
  destruct best as [|r rs] eqn:E; [reflexivity|].
  assert (Hw : 0 < widest (r :: rs)).
  { destruct Hblock as (before & run & after & _ & Hrun & Hmap).
    apply widest_positive; [discriminate|].
    rewrite Hmap. now apply block_rows_nonempty. }
  destruct (widest (r :: rs)) as [|n]; [lia|]. reflexivity.
Qed.

Lemma headerless_text_shows_its_longest_block_witness :
  txt_view None (Examples.text_of ["1 2"; "3 4 5"; ""; "6"; "7"; "8"; "?"; "9"])
  = Table ["C1"%string] [["6"%string]; ["7"%string]; ["8"%string]].
Proof.
  destruct (headerless_text_shows_its_longest_block None
              (Examples.text_of ["1 2"; "3 4 5"; ""; "6"; "7"; "8"; "?"; "9"])
              ltac:(vm_compute; reflexivity))
    as (_ & _ & H & _).
  rewrite H. vm_compute. reflexivity.
Defined.

(** X28: when some line of the raw output has a letter in a token, the
    first such line gives the header, and the rows are the lines of numbers
    that follow it, blank lines apart, up to the first other line: whatever
    comes after that line is not shown, and when the header is followed by
    a line that is not a line of numbers the viewer shows only the
    notice. *)
Theorem rows_after_header_stop_at_first_text_line
    (meta : option metadata) (content : string)
    (header : list string) (start_idx : nat) :
  find_header (splitlines content) 0 = Some (header, start_idx) ->
  exists run rest,
    filter (fun l => nonempty (strip l)) (skipn start_idx (splitlines content))
    = run ++ rest
    /\ forallb number_line run = true
    /\ match rest with [] => True | l :: _ => number_line l = false end
    /\ txt_view meta content
       = match run with
         | [] => Info
         | _ => Table header
                  (map (pad (widest (map parts_of run))) (map parts_of run))
         end.
Proof.
  intros Hfind.
  destruct (collect_spec (skipn start_idx (splitlines content)))
    as (run & rest & H1 & H2 & H3 & H4).
  exists run, rest. split; [exact H1|]. split; [exact H2|]. split; [exact H4|].
  unfold txt_view. rewrite Hfind, H3.
  pose proof (find_header_some _ _ _ _ Hfind) as Halpha.
  rewrite (header_is_used _ Halpha). cbn [andb].
  destruct header as [|h hs]; [discriminate|].
  destruct run as [|l run]; reflexivity.
Qed.

Lemma rows_after_header_stop_at_first_text_line_witness :
  txt_view None
    (Examples.text_of ["SCATMECH"; ""; "Theta S11"; "1 2"; "3 4"])
  = Info
  /\ txt_view None (Examples.text_of ["Theta S11"; "1 2"; ""; "3"; "end"; "4 5"])
     = Table ["Theta"%string; "S11"%string]
         [["1"%string; "2"%string]; ["3"%string; ""%string]].
Proof.
  destruct (rows_after_header_stop_at_first_text_line None
              (Examples.text_of ["SCATMECH"; ""; "Theta S11"; "1 2"; "3 4"])
              ["SCATMECH"%string] 1 ltac:(vm_compute; reflexivity))
    as (run & rest & _ & _ & _ & H).
  split; [|vm_compute; reflexivity].
  vm_compute. reflexivity.
Defined.

(** X29: the text fallback never uses the metadata: the header it shows
    comes from the file, or is the list of labels, whatever the sidecar
    holds. *)
Theorem text_fallback_ignores_the_metadata
    (meta : option metadata) (content : string) :
  txt_view meta content = txt_view None content.
Proof.
  unfold txt_view.
  destruct (find_header (splitlines content) 0) as [[header start_idx]|] eqn:E;
    [|reflexivity].
  pose proof (find_header_some _ _ _ _ E) as Halpha.
  now rewrite (header_is_used _ Halpha).
Qed.

(** X30: in the CSV branch, when [csv.reader] yields a non-empty row, the
    viewer shows a table whose header has exactly as many entries as the
    widest row and whose rows all have that many cells: the header tokens
    of the metadata come first, cut at that width, and every further
    column [i] is labelled [C(i+1)]. *)
Theorem csv_view_has_a_full_header
    (meta : option metadata) (reader_rows : list (list string)) :
  filter (fun row => negb (Form.is_nil row)) reader_rows <> [] ->
  let rows := filter (fun row => negb (Form.is_nil row)) reader_rows in
  let ncol := widest rows in
  let header := meta_header (tokens_of meta) ncol in
  csv_view meta reader_rows = Some (Table header (map (pad ncol) rows))
  /\ 0 < ncol
  /\ List.length header = ncol
  /\ Forall (fun r => List.length r = ncol) (map (pad ncol) rows)
  /\ (forall i tok, i < ncol -> nth_error (tokens_of meta) i = Some tok ->
                    nth_error header i = Some tok)
  /\ (forall i, List.length (tokens_of meta) <= i < ncol ->
                nth_error header i = Some (label i)).
Proof.
  intros Hne rows ncol header.
  assert (Hw : 0 < ncol).
  { apply widest_positive; [exact Hne|].
    apply Forall_forall. intros r Hr. apply filter_In in Hr as [_ Hr].
    now destruct r. }
  assert (Hlen : List.length header = ncol) by apply meta_header_length.
  split.
  - unfold csv_view. fold rows. fold ncol. fold header.
    destruct header as [|h hs]; [simpl in Hlen; lia|].
    destruct rows as [|r rs]; [now contradiction Hne|]. reflexivity.
  - split; [exact Hw|]. split; [exact Hlen|]. split; [apply padded_rows|].
    split.
    + intros i tok Hi Htok. unfold header, meta_header.
      assert (Hlt : i < List.length (tokens_of meta)).
      { apply nth_error_Some. congruence. }
      rewrite nth_error_app1 by (rewrite length_firstn; lia).
      rewrite nth_error_firstn.
      destruct (Nat.ltb_spec i ncol); [exact Htok|lia].
    + intros i [H1 H2]. unfold header, meta_header.
      assert (Hf : List.length (firstn ncol (tokens_of meta))
                   = List.length (tokens_of meta))
        by (rewrite length_firstn; lia).
      rewrite nth_error_app2 by lia.
      rewrite nth_error_map, nth_error_seq, Hf.
      destruct (Nat.ltb_spec (i - List.length (tokens_of meta))
                  (ncol - List.length (tokens_of meta))); [|lia].
      cbn [option_map]. f_equal. f_equal. lia.
Qed.

Lemma csv_view_has_a_full_header_witness :
  csv_view (Some Examples.phi_meta)
    [["1"%string; "2"%string; "3"%string]; []; ["4"%string]]
  = Some (Table ["Theta_r"%string; "Phi"%string; "C3"%string]
            [["1"%string; "2"%string; "3"%string];
             ["4"%string; ""%string; ""%string]]).
Proof.
  destruct (csv_view_has_a_full_header (Some Examples.phi_meta)
              [["1"%string; "2"%string; "3"%string]; []; ["4"%string]]
              ltac:(vm_compute; discriminate))
    as (H & _).
  rewrite H. vm_compute. reflexivity.
Defined.

End ViewerExtras.
